(** * Inventory and lending tracker ([inventory2.py])

    A shallow embedding of the classes [User] and [InventorySystem] and
    of the Python built-ins they rely on, followed by the properties of
    the state model: stock counts, per-user borrowed items, the inventory
    file and the transaction log.

    Modelling conventions.
    - Python [int] is [Z]; Python [str] is [string], read as ASCII text
      (code points above 127 are classified as neither letters, digits
      nor whitespace).  The interpreter's cap on the number of digits
      that [int] and [str] convert is left out.
    - A Python [dict] is an association list in insertion order: the
      program lists entries by position and writes them to disk in
      iteration order, so the order is observable.
    - The two text files are the text a text-mode read returns (line
      ends already translated to line feeds); [None] is a file that does
      not exist.  Input and output errors other than a missing file are
      left out.
    - Console input is the list of lines still to be typed; reading
      from the empty list is [EOFError].  Every [print] appends a
      message tag to the output trace; prompts and the entries of a
      listing are not recorded.
    - Assertions are enabled (the interpreter is not run with [-O]).
    - The menu loop, the views and [bulk_add_items] are not modelled. *)

From Stdlib Require Import ZArith List String Ascii Bool Lia.
From Stdlib Require Import DecimalString DecimalPos DecimalZ.
Import ListNotations.

Local Open Scope string_scope.
Local Open Scope Z_scope.

(** ** Python string built-ins *)

Module Py.

(** [str.isspace] on one ASCII character: tab, line feed, vertical tab,
    form feed, carriage return, the four separators 28..31 and space. *)
Definition is_space (c : ascii) : bool :=
  let n := nat_of_ascii c in
  ((9 <=? n) && (n <=? 13) || (28 <=? n) && (n <=? 32))%nat.

Definition is_upper (c : ascii) : bool :=
  let n := nat_of_ascii c in ((65 <=? n) && (n <=? 90))%nat.

Definition is_lower (c : ascii) : bool :=
  let n := nat_of_ascii c in ((97 <=? n) && (n <=? 122))%nat.

Definition is_alpha (c : ascii) : bool := is_upper c || is_lower c.

Definition lower_char (c : ascii) : ascii :=
  if is_upper c then ascii_of_nat (nat_of_ascii c + 32) else c.

(** [all(p(c) for c in s)] *)
Fixpoint str_all (p : ascii -> bool) (s : string) : bool :=
  match s with
  | EmptyString => true
  | String c r => p c && str_all p r
  end.

(** [s.lower()] *)
Fixpoint lower (s : string) : string :=
  match s with
  | EmptyString => EmptyString
  | String c r => String (lower_char c) (lower r)
  end.

(** [s.isalpha()]: false on the empty string. *)
Definition isalpha (s : string) : bool :=
  match s with
  | EmptyString => false
  | _ => str_all is_alpha s
  end.

(** [len(s)] *)
Definition len (s : string) : Z := Z.of_nat (String.length s).

(** Dropping the leading, and the trailing, characters of a class. *)
Fixpoint lstrip_by (p : ascii -> bool) (s : string) : string :=
  match s with
  | EmptyString => EmptyString
  | String c r => if p c then lstrip_by p r else s
  end.

Fixpoint rstrip_by (p : ascii -> bool) (s : string) : string :=
  match s with
  | EmptyString => EmptyString
  | String c r =>
      match rstrip_by p r with
      | EmptyString => if p c then EmptyString else String c EmptyString
      | r' => String c r'
      end
  end.

Definition strip_by (p : ascii -> bool) (s : string) : string :=
  rstrip_by p (lstrip_by p s).

(** [s.strip()] *)
Definition strip (s : string) : string := strip_by is_space s.

(** [s.split(sep)] for a non-empty separator: occurrences are found from
    left to right and do not overlap.  [skip] counts the characters of a
    separator already matched that are still to be passed over. *)
Fixpoint split_from (sep : string) (skip : nat) (cur : string) (s : string)
  : list string :=
  match s with
  | EmptyString => [cur]
  | String c r =>
      match skip with
      | S n => split_from sep n cur r
      | O =>
          if String.prefix sep s
          then cur :: split_from sep (String.length sep - 1) EmptyString r
          else split_from sep 0 (cur ++ String c EmptyString) r
      end
  end.

Definition split (sep : string) (s : string) : list string :=
  split_from sep 0 EmptyString s.

(** The digits of [int(s)]: decimal digits with single underscores
    allowed between two digits.  [after_digit] tells whether the previous
    character was a digit. *)
Fixpoint int_digits (after_digit : bool) (s : string) : option Decimal.uint :=
  match s with
  | EmptyString => if after_digit then Some Decimal.Nil else None
  | String c r =>
      if Ascii.eqb c "_"
      then (if after_digit then int_digits false r else None)
      else uint_of_char c (int_digits true r)
  end.

(** The whitespace [int] skips around an ASCII numeral: tab, line feed,
    vertical tab, form feed, carriage return and space (not the
    separators 28..31, which [str.strip] does drop). *)
Definition is_int_space (c : ascii) : bool :=
  let n := nat_of_ascii c in ((9 <=? n) && (n <=? 13) || (n =? 32))%nat.

(** [int(s)]; [None] is [ValueError].  Surrounding whitespace is dropped,
    one sign is accepted, leading zeros are accepted. *)
Definition int (s : string) : option Z :=
  match strip_by is_int_space s with
  | EmptyString => None
  | String c r =>
      if Ascii.eqb c "+" then option_map Z.of_uint (int_digits false r)
      else if Ascii.eqb c "-"
           then option_map (fun d => - Z.of_uint d) (int_digits false r)
           else option_map Z.of_uint (int_digits false (String c r))
  end.

(** [str(z)], also the [{z}] of an f-string. *)
Definition str (z : Z) : string := NilZero.string_of_int (Z.to_int z).

(** Iterating a text file: the lines, each with its line feed, the last
    one possibly without. *)
Fixpoint lines_from (cur : string) (s : string) : list string :=
  match s with
  | EmptyString =>
      match cur with
      | EmptyString => []
      | _ => [cur]
      end
  | String c r =>
      if Ascii.eqb c "010"
      then (cur ++ String c EmptyString) :: lines_from EmptyString r
      else lines_from (cur ++ String c EmptyString) r
  end.

Definition lines (s : string) : list string := lines_from EmptyString s.

End Py.

(** ** Python dictionaries, in insertion order *)

Definition dict (V : Type) : Type := list (string * V).

Section Dict.
Context {V : Type}.

(** [d[k]]; [None] is [KeyError]. *)
Fixpoint dict_get (d : dict V) (k : string) : option V :=
  match d with
  | [] => None
  | (k', v) :: r => if String.eqb k' k then Some v else dict_get r k
  end.

(** [k in d] *)
Definition dict_mem (d : dict V) (k : string) : bool :=
  match dict_get d k with
  | Some _ => true
  | None => false
  end.

(** [d[k] = v]: an existing key keeps its position, a new one goes last. *)
Fixpoint dict_set (d : dict V) (k : string) (v : V) : dict V :=
  match d with
  | [] => [(k, v)]
  | (k', v') :: r =>
      if String.eqb k' k then (k', v) :: r else (k', v') :: dict_set r k v
  end.

(** [del d[k]] *)
Fixpoint dict_del (d : dict V) (k : string) : dict V :=
  match d with
  | [] => []
  | (k', v') :: r =>
      if String.eqb k' k then dict_del r k else (k', v') :: dict_del r k
  end.

(** [list(d.keys())] *)
Definition dict_keys (d : dict V) : list string := map fst d.

(** [len(d)] *)
Definition dict_len (d : dict V) : Z := Z.of_nat (List.length d).

(** The representation invariant of a dictionary: no key twice. *)
Definition dict_wf (d : dict V) : Prop := NoDup (dict_keys d).
End Dict.

(** ** Program state, console and files *)

(** [class User] *)
Record User : Type := mkUser {
  name : string;
  borrowed_items : dict Z
}.

(** One tag per [print] of the program. *)
Inductive message : Type :=
  | InventoryLoaded | NoInventoryFile | ErrorLoadingInventory
  | InventorySaved
  | TransactionsLoaded | NoTransactionLog | ErrorLoadingTransactions
  | InvalidItemName | AddedToInventory | EnterValidQuantity
  | AssertionMessage
  | NoItemsAvailable | AvailableItems | InvalidSelection
  | InvalidQuantitySelected | Lent | EnterValidInteger
  | NoRecordsFound | BorrowedItems | Returned | NotEnoughToReturn
  | Updated.

(** The [InventorySystem] object ([inventory], [users]) together with
    the two files it owns and the console. *)
Record World : Type := mkWorld {
  inventory : dict Z;
  users : dict User;
  inventory_txt : option string;
  transaction_log_txt : option string;
  stdin : list string;
  stdout : list message
}.

Definition set_inventory (d : dict Z) (w : World) : World :=
  mkWorld d (users w) (inventory_txt w) (transaction_log_txt w)
          (stdin w) (stdout w).

Definition set_users (u : dict User) (w : World) : World :=
  mkWorld (inventory w) u (inventory_txt w) (transaction_log_txt w)
          (stdin w) (stdout w).

Definition set_inventory_txt (f : option string) (w : World) : World :=
  mkWorld (inventory w) (users w) f (transaction_log_txt w)
          (stdin w) (stdout w).

Definition set_transaction_log_txt (f : option string) (w : World) : World :=
  mkWorld (inventory w) (users w) (inventory_txt w) f (stdin w) (stdout w).

Definition set_stdin (l : list string) (w : World) : World :=
  mkWorld (inventory w) (users w) (inventory_txt w) (transaction_log_txt w)
          l (stdout w).

Definition put (m : message) (w : World) : World :=
  mkWorld (inventory w) (users w) (inventory_txt w) (transaction_log_txt w)
          (stdin w) (stdout w ++ [m]).

(** ** Control flow: exceptions and early return *)

Inductive exn : Type :=
  | ValueError
  | AssertionError
  | KeyError (key : string)
  | IndexError
  | EOFError.

(** How a block of statements ends: it falls through with a value, it
    executes [return], or it raises. *)
Inductive flow (A : Type) : Type :=
  | Next (a : A)
  | Return
  | Raise (e : exn).
Arguments Next {A} a.
Arguments Return {A}.
Arguments Raise {A} e.

Definition M (A : Type) : Type := World -> flow A * World.

Definition ret {A} (a : A) : M A := fun w => (Next a, w).

Definition bind {A B} (m : M A) (k : A -> M B) : M B :=
  fun w =>
    match m w with
    | (Next a, w') => k a w'
    | (Return, w') => (Return, w')
    | (Raise e, w') => (Raise e, w')
    end.

Notation "x <- m ;; k" := (bind m (fun x => k))
  (at level 61, m at next level, right associativity).
Notation "m ;;; k" := (bind m (fun _ => k))
  (at level 61, right associativity).

Definition raise {A} (e : exn) : M A := fun w => (Raise e, w).
Definition return_ {A} : M A := fun w => (Return, w).
Definition print (m : message) : M unit := fun w => (Next tt, put m w).
Definition read {A} (f : World -> A) : M A := fun w => (Next (f w), w).
Definition modify (f : World -> World) : M unit := fun w => (Next tt, f w).

(** [input(...)]: the next typed line. *)
Definition input : M string :=
  fun w =>
    match stdin w with
    | [] => (Raise EOFError, w)
    | line :: rest => (Next line, set_stdin rest w)
    end.

(** [int(s)] as a statement that may raise. *)
Definition int_ (s : string) : M Z :=
  match Py.int s with
  | Some z => ret z
  | None => raise ValueError
  end.

(** [d[k]] as a statement that may raise. *)
Definition subscript {V} (d : dict V) (k : string) : M V :=
  match dict_get d k with
  | Some v => ret v
  | None => raise (KeyError k)
  end.

(** [try: body  except E1: h1  except E2: h2 ...]: [handlers] gives the
    handler of the exceptions the statement catches. *)
Definition try_except {A} (body : M A) (handlers : exn -> option (M A)) : M A :=
  fun w =>
    match body w with
    | (Raise e, w') =>
        match handlers e with
        | Some handler => handler w'
        | None => (Raise e, w')
        end
    | r => r
    end.

(** A function body: [return] ends the function, not the caller. *)
Definition def (body : M unit) : M unit :=
  fun w =>
    match body w with
    | (Return, w') => (Next tt, w')
    | r => r
    end.

(** [for x in l: body x] *)
Fixpoint for_each {X} (l : list X) (body : X -> M unit) : M unit :=
  match l with
  | [] => ret tt
  | x :: r => body x ;;; for_each r body
  end.

(** ** class User *)

Definition User_borrow_item (self : User) (item_name : string) (quantity : Z)
  : User :=
  match dict_get (borrowed_items self) item_name with
  | Some held =>
      mkUser (name self) (dict_set (borrowed_items self) item_name (held + quantity))
  | None =>
      mkUser (name self) (dict_set (borrowed_items self) item_name quantity)
  end.

Definition User_return_item (self : User) (item_name : string) (quantity : Z)
  : User * bool :=
  match dict_get (borrowed_items self) item_name with
  | Some held =>
      if held >=? quantity then
        let left := held - quantity in
        if left =? 0
        then (mkUser (name self) (dict_del (borrowed_items self) item_name), true)
        else (mkUser (name self) (dict_set (borrowed_items self) item_name left), true)
      else (self, false)
  | None => (self, false)
  end.

(** ** class InventorySystem *)

(** The text [save_inventory] writes: one line per entry. *)
Definition inventory_line (entry : string * Z) : string :=
  fst entry ++ ": " ++ Py.str (snd entry) ++ String "010" EmptyString.

Definition inventory_text (d : dict Z) : string :=
  fold_right String.append EmptyString (map inventory_line d).

Definition save_inventory : M unit :=
  modify (fun w => set_inventory_txt (Some (inventory_text (inventory w))) w) ;;;
  print InventorySaved.

Definition load_inventory_line (line : string) : M unit :=
  match Py.split ": " (Py.strip line) with
  | [item_name; quantity] =>
      q <- int_ quantity ;;
      modify (fun w => set_inventory (dict_set (inventory w) item_name q) w)
  | _ => raise ValueError
  end.

Definition load_inventory : M unit :=
  file <- read inventory_txt ;;
  match file with
  | None => print NoInventoryFile
  | Some text =>
      try_except
        (for_each (Py.lines text) load_inventory_line ;;;
         print InventoryLoaded)
        (fun e => match e with
                  | ValueError => Some (print ErrorLoadingInventory)
                  | _ => None
                  end)
  end.

Definition transaction_line (action borrower_name item_name : string)
  (quantity : Z) : string :=
  action ++ " | " ++ borrower_name ++ " | " ++ item_name ++ " | "
         ++ Py.str quantity ++ String "010" EmptyString.

Definition log_transaction (action borrower_name item_name : string)
  (quantity : Z) : M unit :=
  modify (fun w =>
    let old := match transaction_log_txt w with
               | Some text => text
               | None => EmptyString
               end in
    set_transaction_log_txt
      (Some (old ++ transaction_line action borrower_name item_name quantity)) w).

(** [if borrower_name not in self.users:
       self.users[borrower_name] = User(borrower_name)] *)
Definition add_user_if_absent (borrower_name : string) : M unit :=
  modify (fun w =>
    if dict_mem (users w) borrower_name then w
    else set_users (dict_set (users w) borrower_name (mkUser borrower_name [])) w).

Definition load_transactions_line (line : string) : M unit :=
  match Py.split " | " (Py.strip line) with
  | [action; borrower_name; item_name; quantity] =>
      quantity <- int_ quantity ;;
      add_user_if_absent borrower_name ;;;
      if String.eqb action "Lend" then
        us <- read users ;;
        user <- subscript us borrower_name ;;
        modify (set_users
                  (dict_set us borrower_name
                            (User_borrow_item user item_name quantity)))
      else ret tt
  | _ => raise ValueError
  end.

Definition load_transactions : M unit :=
  file <- read transaction_log_txt ;;
  match file with
  | None => print NoTransactionLog
  | Some text =>
      try_except
        (for_each (Py.lines text) load_transactions_line ;;;
         print TransactionsLoaded)
        (fun e => match e with
                  | ValueError => Some (print ErrorLoadingTransactions)
                  | _ => None
                  end)
  end.

(** [InventorySystem()]: both maps start empty, then the two loads. *)
Definition InventorySystem_init : M unit :=
  modify (set_inventory []) ;;;
  modify (set_users []) ;;;
  load_inventory ;;;
  load_transactions.

Definition is_valid_item_name (item_name : string) : bool :=
  Py.isalpha item_name && (Py.len item_name >? 2).

(** [while not self.is_valid_item_name(item_name):
       print(...); item_name = normalise(input(...))]
    [typed] is the console input still to come, on which the loop
    recurses. *)
Fixpoint item_name_loop (normalise : string -> string) (item_name : string)
  (typed : list string) (w : World) : flow string * World :=
  if is_valid_item_name item_name then (Next item_name, w)
  else
    match typed with
    | [] => (Raise EOFError, put InvalidItemName w)
    | line :: rest =>
        item_name_loop normalise (normalise line) rest
                       (set_stdin rest (put InvalidItemName w))
    end.

Definition valid_item_name (normalise : string -> string) : M string :=
  line <- input ;;
  fun w => item_name_loop normalise (normalise line) (stdin w) w.

(** [self.inventory[item_name] += quantity] when present, else
    [self.inventory[item_name] = quantity]. *)
Definition add_or_increment (item_name : string) (item_quantity : Z) : M unit :=
  modify (fun w =>
    match dict_get (inventory w) item_name with
    | Some held => set_inventory (dict_set (inventory w) item_name (held + item_quantity)) w
    | None => set_inventory (dict_set (inventory w) item_name item_quantity) w
    end).

(** The [while True] loop of [add_item]: one [try] per typed line, left
    by [break] after the first positive integer. *)
Fixpoint add_item_quantity_loop (item_name : string) (typed : list string)
  (w : World) : flow unit * World :=
  match typed with
  | [] => (Raise EOFError, w)
  | line :: rest =>
      let w1 := set_stdin rest w in
      match Py.int line with
      | None => add_item_quantity_loop item_name rest (put EnterValidQuantity w1)
      | Some item_quantity =>
          if item_quantity >? 0 then
            (add_or_increment item_name item_quantity ;;;
             print AddedToInventory ;;;
             save_inventory) w1
          else add_item_quantity_loop item_name rest (put AssertionMessage w1)
      end
  end.

Definition add_item : M unit :=
  def (item_name <- valid_item_name (fun s => Py.lower (Py.strip s)) ;;
       fun w => add_item_quantity_loop item_name (stdin w) w).

(** [{key.lower(): value for key, value in self.inventory.items()
      if value > 0}] *)
Definition available_items (inv : dict Z) : dict Z :=
  fold_left
    (fun acc entry =>
       if snd entry >? 0 then dict_set acc (Py.lower (fst entry)) (snd entry)
       else acc)
    inv [].

(** [list(d.keys())[i]] *)
Definition key_at {V} (d : dict V) (i : Z) : M string :=
  match nth_error (dict_keys d) (Z.to_nat i) with
  | Some k => ret k
  | None => raise IndexError
  end.

Definition lend_item : M unit :=
  def (
    line <- input ;;
    let borrower_name := Py.strip line in
    add_user_if_absent borrower_name ;;;
    inv <- read inventory ;;
    let available := available_items inv in
    (match available with
     | [] => print NoItemsAvailable ;;; return_
     | _ => ret tt
     end) ;;;
    print AvailableItems ;;;
    try_except
      (line <- input ;;
       n <- int_ line ;;
       let item_index := n - 1 in
       (if (item_index <? 0) || (item_index >=? dict_len available)
        then print InvalidSelection ;;; return_
        else ret tt) ;;;
       chosen_item <- key_at available item_index ;;
       available_quantity <- subscript available chosen_item ;;
       line <- input ;;
       lend_quantity <- int_ line ;;
       (if (lend_quantity <=? 0) || (lend_quantity >? available_quantity)
        then print InvalidQuantitySelected ;;; return_
        else ret tt) ;;;
       us <- read users ;;
       user <- subscript us borrower_name ;;
       modify (set_users
                 (dict_set us borrower_name
                           (User_borrow_item user chosen_item lend_quantity))) ;;;
       inv <- read inventory ;;
       held <- subscript inv chosen_item ;;
       modify (set_inventory (dict_set inv chosen_item (held - lend_quantity))) ;;;
       print Lent ;;;
       log_transaction "Lend" borrower_name chosen_item lend_quantity ;;;
       save_inventory)
      (fun e => match e with
                | ValueError => Some (print EnterValidInteger)
                | _ => None
                end)).

Definition return_item : M unit :=
  def (
    line <- input ;;
    let borrower_name := Py.strip line in
    us <- read users ;;
    (match dict_get us borrower_name with
     | None => print NoRecordsFound ;;; return_
     | Some u =>
         match borrowed_items u with
         | [] => print NoRecordsFound ;;; return_
         | _ => ret tt
         end
     end) ;;;
    user <- subscript us borrower_name ;;
    match borrowed_items user with
    | [] => ret tt
    | _ =>
        print BorrowedItems ;;;
        try_except
          (line <- input ;;
           n <- int_ line ;;
           let item_index := n - 1 in
           (if (item_index <? 0) || (item_index >=? dict_len (borrowed_items user))
            then print InvalidSelection ;;; return_
            else ret tt) ;;;
           chosen_item <- key_at (borrowed_items user) item_index ;;
           line <- input ;;
           return_quantity <- int_ line ;;
           let (user', ok) := User_return_item user chosen_item return_quantity in
           modify (set_users (dict_set us borrower_name user')) ;;;
           if ok then
             inv <- read inventory ;;
             held <- subscript inv chosen_item ;;
             modify (set_inventory
                       (dict_set inv chosen_item (held + return_quantity))) ;;;
             print Returned ;;;
             log_transaction "Return" borrower_name chosen_item return_quantity ;;;
             save_inventory
           else print NotEnoughToReturn)
          (fun e => match e with
                    | ValueError => Some (print EnterValidInteger)
                    | _ => None
                    end)
    end).

Definition update_item : M unit :=
  def (
    item_name <- valid_item_name (fun s => s) ;;
    inv <- read inventory ;;
    if dict_mem inv item_name then
      try_except
        (line <- input ;;
         new_quantity <- int_ line ;;
         (if new_quantity >=? 0 then ret tt else raise AssertionError) ;;;
         modify (set_inventory (dict_set inv item_name new_quantity)) ;;;
         print Updated ;;;
         save_inventory)
        (fun e => match e with
                  | ValueError => Some (print EnterValidQuantity)
                  | AssertionError => Some (print AssertionMessage)
                  | _ => None
                  end)
    else ret tt).

(** ** Running the program *)

(** The four mutating menu entries. *)
Inductive operation : Type := AddItem | LendItem | ReturnItem | UpdateItem.

Definition perform (op : operation) : M unit :=
  match op with
  | AddItem => add_item
  | LendItem => lend_item
  | ReturnItem => return_item
  | UpdateItem => update_item
  end.

(** A process started in a directory holding the two given files. *)
Definition boot (inventory_file log_file : option string) (typed : list string)
  : World :=
  snd (InventorySystem_init (mkWorld [] [] inventory_file log_file typed [])).

(** Quantity of an item in stock, and quantity a user holds. *)
Definition stock (w : World) (item_name : string) : option Z :=
  dict_get (inventory w) item_name.

Definition borrowed (w : World) (borrower_name item_name : string) : option Z :=
  match dict_get (users w) borrower_name with
  | Some u => dict_get (borrowed_items u) item_name
  | None => None
  end.

(** A name the two operations refuse: typed as the item name, it only
    earns the complaint, and the operation goes on with the lines typed
    after it as if it had been started on them. *)
Definition rejected_by_add_and_update (s : string) : Prop :=
  forall (w : World) (rest : list string),
    add_item (set_stdin (s :: rest) w)
    = add_item (set_stdin rest (put InvalidItemName w)) /\
    update_item (set_stdin (s :: rest) w)
    = update_item (set_stdin rest (put InvalidItemName w)).


(** A session: the chosen operations one after the other, each reading
    its lines from the console; an exception nobody catches ends it. *)
Fixpoint session (ops : list operation) : M unit :=
  match ops with
  | [] => ret tt
  | op :: r => perform op ;;; session r
  end.

(** Every stored quantity is at least zero. *)
Definition quantities_nonneg (d : dict Z) : Prop :=
  forall item_name q, dict_get d item_name = Some q -> 0 <= q.

(** ** The transaction log as the specification reads it *)

(** One record of the log. *)
Record Transaction : Type := mkTransaction {
  t_action : string;
  t_user : string;
  t_item : string;
  t_quantity : Z
}.

Definition parse_transaction (line : string) : option Transaction :=
  match Py.split " | " (Py.strip line) with
  | [action; borrower_name; item_name; quantity] =>
      option_map (mkTransaction action borrower_name item_name) (Py.int quantity)
  | _ => None
  end.

(** The specification's balance of a (user, item) pair: what the "Lend"
    records add up to minus what the "Return" records add up to. *)
Definition spec_balance_step (borrower_name item_name : string) (acc : Z)
  (line : string) : Z :=
  match parse_transaction line with
  | Some t =>
      if String.eqb (t_user t) borrower_name && String.eqb (t_item t) item_name
      then if String.eqb (t_action t) "Lend" then acc + t_quantity t
           else if String.eqb (t_action t) "Return" then acc - t_quantity t
                else acc
      else acc
  | None => acc
  end.

Definition spec_balance (log : string) (borrower_name item_name : string) : Z :=
  fold_left (spec_balance_step borrower_name item_name) (Py.lines log) 0.

(** The data model's inventory: a dictionary whose keys are in the
    normal form [add_item] gives them (lower case). *)
Definition normalized (key : string) : Prop := Py.lower key = key.

Definition inventory_ok (d : dict Z) : Prop :=
  dict_wf d /\ Forall normalized (dict_keys d).

(** The entries [lend_item] lists, for an inventory in normal form. *)
Definition in_stock (d : dict Z) : dict Z :=
  filter (fun entry => snd entry >? 0) d.

(** The users map once a borrower is sure to have a record. *)
Definition with_user (us : dict User) (borrower_name : string) : dict User :=
  if dict_mem us borrower_name then us
  else dict_set us borrower_name (mkUser borrower_name []).

(** The record a borrower has, or the fresh one a first lend creates. *)
Definition user_record (us : dict User) (borrower_name : string) : User :=
  match dict_get us borrower_name with
  | Some u => u
  | None => mkUser borrower_name []
  end.

(** The items a user holds, in the order [return_item] lists them. *)
Definition holdings (w : World) (borrower_name : string) : list string :=
  match dict_get (users w) borrower_name with
  | Some u => dict_keys (borrowed_items u)
  | None => []
  end.

(** The ways a lend is refused: nothing is in stock; the number typed
    does not select a listed item; the quantity typed is not positive or
    is more than the listing shows for the selected item. *)
Inductive lend_refused (w : World) : message -> Prop :=
  | refused_no_stock who rest :
      stdin w = who :: rest ->
      available_items (inventory w) = [] ->
      lend_refused w NoItemsAvailable
  | refused_selection who pick rest n :
      stdin w = who :: pick :: rest ->
      available_items (inventory w) <> [] ->
      Py.int pick = Some n ->
      n - 1 < 0 \/ dict_len (available_items (inventory w)) <= n - 1 ->
      lend_refused w InvalidSelection
  | refused_quantity who pick amount rest i item_name available_quantity k :
      stdin w = who :: pick :: amount :: rest ->
      Py.int pick = Some (Z.of_nat i + 1) ->
      nth_error (dict_keys (available_items (inventory w))) i = Some item_name ->
      dict_get (available_items (inventory w)) item_name = Some available_quantity ->
      Py.int amount = Some k ->
      k <= 0 \/ available_quantity < k ->
      lend_refused w InvalidQuantitySelected.

(** Characters that are neither whitespace nor a colon; item names and
    printed integers are made of them. *)
Definition plain (c : ascii) : bool :=
  negb (Py.is_space c) && negb (Ascii.eqb c ":").

(** The characters of a printed integer. *)
Definition int_char (c : ascii) : bool :=
  let n := nat_of_ascii c in ((48 <=? n) && (n <=? 57) || (n =? 45))%nat.

Definition not_newline (c : ascii) : bool := negb (Ascii.eqb c "010").

(** The records of a log up to its first malformed line, which is where
    replay stops. *)
Fixpoint parsed_prefix (lines : list string) : list Transaction :=
  match lines with
  | [] => []
  | line :: r =>
      match parse_transaction line with
      | Some t => t :: parsed_prefix r
      | None => []
      end
  end.

(** What replaying one record does to the quantity a user holds of an
    item: a "Lend" record of that pair adds to it, any other record
    leaves it alone. *)
Definition replay_step (borrower_name item_name : string) (acc : option Z)
  (t : Transaction) : option Z :=
  if String.eqb (t_action t) "Lend" && String.eqb (t_user t) borrower_name
     && String.eqb (t_item t) item_name
  then Some (match acc with
             | Some held => held + t_quantity t
             | None => t_quantity t
             end)
  else acc.

(** The entries of an inventory file up to its first malformed line. *)
Definition parse_entry (line : string) : option (string * Z) :=
  match Py.split ": " (Py.strip line) with
  | [item_name; quantity] => option_map (pair item_name) (Py.int quantity)
  | _ => None
  end.

Fixpoint entries_prefix (lines : list string) : list (string * Z) :=
  match lines with
  | [] => []
  | line :: r =>
      match parse_entry line with
      | Some e => e :: entries_prefix r
      | None => []
      end
  end.

(** ** Vocabulary for the properties of whole operations *)

(** The inventory, the users and the two files are as before; only the
    console may have moved. *)
Definition store_unchanged (w w' : World) : Prop :=
  inventory w' = inventory w /\
  users w' = users w /\
  inventory_txt w' = inventory_txt w /\
  transaction_log_txt w' = transaction_log_txt w.

(** The inventory file holds exactly the inventory in memory. *)
Definition in_sync (w : World) : Prop :=
  inventory_txt w = Some (inventory_text (inventory w)).

(** The inventory once [item_quantity] units of [item_name] are added. *)
Definition added (d : dict Z) (item_name : string) (item_quantity : Z) : dict Z :=
  match dict_get d item_name with
  | Some held => dict_set d item_name (held + item_quantity)
  | None => dict_set d item_name item_quantity
  end.

(** The log once a record is appended. *)
Definition logged (log : option string) (action borrower_name item_name : string)
  (quantity : Z) : option string :=
  Some (match log with Some text => text | None => EmptyString end
        ++ transaction_line action borrower_name item_name quantity).

(** Units of an item a user holds, none counting as zero, and units out
    with all users together. *)
Definition held_by (u : User) (item_name : string) : Z :=
  match dict_get (borrowed_items u) item_name with
  | Some q => q
  | None => 0
  end.

Definition lent_out (us : dict User) (item_name : string) : Z :=
  fold_right (fun entry acc => held_by (snd entry) item_name + acc) 0 us.

(** Units of an item in stock, absence counting as zero, and units in
    stock and out together. *)
Definition in_store (d : dict Z) (item_name : string) : Z :=
  match dict_get d item_name with
  | Some q => q
  | None => 0
  end.

Definition units (w : World) (item_name : string) : Z :=
  in_store (inventory w) item_name + lent_out (users w) item_name.

(** The inventory the program builds for itself: a dictionary of the
    data model whose keys all pass the name check. *)
Definition inventory_valid (d : dict Z) : Prop :=
  inventory_ok d /\
  Forall (fun k => is_valid_item_name k = true) (dict_keys d).

(** The ways [return_item] turns a return down, with what it prints and
    the typed lines it leaves unread: the borrower is unknown or holds
    nothing; the number typed selects no listed item or is no integer;
    the quantity typed is no integer or is more than the borrower holds
    of the selected item. *)
Inductive return_refused (w : World) : list message -> list string -> Prop :=
  | return_no_records who rest :
      stdin w = who :: rest ->
      (dict_get (users w) (Py.strip who) = None \/
       exists u, dict_get (users w) (Py.strip who) = Some u /\
                 borrowed_items u = []) ->
      return_refused w [NoRecordsFound] rest
  | return_bad_selection who pick rest u :
      stdin w = who :: pick :: rest ->
      dict_get (users w) (Py.strip who) = Some u ->
      borrowed_items u <> [] ->
      (Py.int pick = None \/
       exists n, Py.int pick = Some n /\
                 (n - 1 < 0 \/ dict_len (borrowed_items u) <= n - 1)) ->
      return_refused w
        [BorrowedItems;
         match Py.int pick with
         | None => EnterValidInteger
         | Some _ => InvalidSelection
         end] rest
  | return_bad_quantity who pick amount rest u j item_name :
      stdin w = who :: pick :: amount :: rest ->
      dict_get (users w) (Py.strip who) = Some u ->
      Py.int pick = Some (Z.of_nat j + 1) ->
      nth_error (dict_keys (borrowed_items u)) j = Some item_name ->
      (Py.int amount = None \/
       exists k held, Py.int amount = Some k /\
                      dict_get (borrowed_items u) item_name = Some held /\
                      held < k) ->
      return_refused w
        [BorrowedItems;
         match Py.int amount with
         | None => EnterValidInteger
         | Some _ => NotEnoughToReturn
         end] rest.

(** Nothing has changed but, at most, the borrower having been given a
    record with nothing in it. *)
Definition only_record_added (w w' : World) (borrower_name : string) : Prop :=
  inventory w' = inventory w /\
  inventory_txt w' = inventory_txt w /\
  transaction_log_txt w' = transaction_log_txt w /\
  users w' = with_user (users w) borrower_name /\
  forall u item_name, borrowed w' u item_name = borrowed w u item_name.

(** Every line of an inventory file is an entry; every line of a log is
    a record. *)
Definition all_entries (lines : list string) : bool :=
  forallb (fun line => match parse_entry line with
                       | Some _ => true
                       | None => false
                       end) lines.

Definition all_records (lines : list string) : bool :=
  forallb (fun line => match parse_transaction line with
                       | Some _ => true
                       | None => false
                       end) lines.

(** The "Lend" records of a (user, item) pair, and what they add up to. *)
Definition lends_of (borrower_name item_name : string) (ts : list Transaction)
  : list Transaction :=
  filter (fun t => String.eqb (t_action t) "Lend"
                   && String.eqb (t_user t) borrower_name
                   && String.eqb (t_item t) item_name) ts.

Definition total_quantity (ts : list Transaction) : Z :=
  fold_right (fun t acc => t_quantity t + acc) 0 ts.





(** ** [bulk_add_items] *)

(** The loops of [bulk_add_items], one typed line at a time.  [pending]
    is [None] while a name is awaited and [Some name] while the quantity
    of that name is awaited.  The outer loop and the inner loop read a
    name in the same way: "done" ends the function ([break] in the one,
    [return] in the other, with nothing after the loop), an invalid name
    is answered with the complaint and another name is read, a valid
    name is followed by one quantity.  Whatever becomes of the quantity,
    the next line is read as a name.  The console keeps messages by
    tag: the two wordings of the line that reports an addition are both
    kept as [AddedToInventory], and the complaints as the tags of the
    complaints of [add_item] that they reword. *)
Fixpoint bulk_add_loop (pending : option string) (typed : list string)
  (w : World) : flow unit * World :=
  match typed with
  | [] => (Raise EOFError, w)
  | line :: rest =>
      let w1 := set_stdin rest w in
      match pending with
      | None =>
          let item_name := Py.lower (Py.strip line) in
          if String.eqb item_name "done" then (Next tt, w1)
          else if is_valid_item_name item_name
               then bulk_add_loop (Some item_name) rest w1
               else bulk_add_loop None rest (put InvalidItemName w1)
      | Some item_name =>
          match Py.int line with
          | None => bulk_add_loop None rest (put EnterValidQuantity w1)
          | Some item_quantity =>
              if item_quantity >? 0 then
                match (add_or_increment item_name item_quantity ;;;
                       print AddedToInventory ;;;
                       save_inventory) w1 with
                | (Next _, w2) => bulk_add_loop None rest w2
                | other => other
                end
              else bulk_add_loop None rest (put AssertionMessage w1)
          end
      end
  end.

Definition bulk_add_items : M unit :=
  def (fun w => bulk_add_loop None (stdin w) w).

(** The lines typed for a run of entries, a name and a quantity each. *)
Definition entry_lines (entries : list (string * string)) : list string :=
  flat_map (fun e => [fst e; snd e]) entries.

(** An entry [bulk_add_items] accepts: the name, normalised, is valid
    and is not "done", and the quantity is a positive integer. *)
Definition accepted_entry (e : string * string) : Prop :=
  is_valid_item_name (Py.lower (Py.strip (fst e))) = true /\
  Py.lower (Py.strip (fst e)) <> "done" /\
  exists q, Py.int (snd e) = Some q /\ 0 < q.

(** The integer a quantity line stands for. *)
Definition quantity_of (line : string) : Z :=
  match Py.int line with
  | Some q => q
  | None => 0
  end.

(** The inventory after the entries are added one by one. *)
Definition add_entries (d : dict Z) (entries : list (string * string)) : dict Z :=
  fold_left (fun acc e => added acc (Py.lower (Py.strip (fst e)))
                                 (quantity_of (snd e)))
            entries d.

(** What the entries bring of one item: the quantities typed under a
    name that normalises to it, added up. *)
Definition entered (entries : list (string * string)) (item_name : string) : Z :=
  fold_right (fun e acc =>
                if String.eqb (Py.lower (Py.strip (fst e))) item_name
                then quantity_of (snd e) + acc
                else acc)
             0 entries.

(** Additions made one after the other, each a key and a quantity. *)
Definition add_all (d : dict Z) (adds : list (string * Z)) : dict Z :=
  fold_left (fun acc e => added acc (fst e) (snd e)) adds d.

(** An addition [bulk_add_items] can make: the key passes the name
    check, is in lower case and is not "done", and the quantity is
    positive. *)
Definition valid_add (e : string * Z) : Prop :=
  is_valid_item_name (fst e) = true /\
  normalized (fst e) /\
  fst e <> "done" /\
  0 < snd e.

(** ** The views and the menu *)

From Stdlib Require Import Sorted Permutation.

(** [sorted(l, key=key, reverse=reverse)] for keys compared by [lt].
    Python's sort is stable and compares with [<] only: an element goes
    before the first one whose key is not below its own, so that
    elements with equal keys keep the order they came in; with
    [reverse] each comparison is taken the other way round, elements
    with equal keys still in the order they came in. *)
Fixpoint insert_by {X K} (lt : K -> K -> bool) (key : X -> K) (x : X)
  (l : list X) : list X :=
  match l with
  | [] => [x]
  | y :: r => if lt (key y) (key x) then y :: insert_by lt key x r
              else x :: y :: r
  end.

Definition sorted {X K} (lt : K -> K -> bool) (key : X -> K) (reverse : bool)
  (l : list X) : list X :=
  fold_right (insert_by (if reverse then fun a b => lt b a else lt) key) [] l.

(** [enumerate(l, start=start)] *)
Fixpoint enumerate {X} (start : Z) (l : list X) : list (Z * X) :=
  match l with
  | [] => []
  | x :: r => (start, x) :: enumerate (start + 1) r
  end.

(** [sep.join(l)] *)
Fixpoint join (sep : string) (l : list string) : string :=
  match l with
  | [] => EmptyString
  | [x] => x
  | x :: r => x ++ sep ++ join sep r
  end.

(** The console of [World] keeps the messages of the operations by tag.
    What the views and the menu print is text: it is kept beside the
    world, one string per call of [print], in the order of the calls. *)
Definition Terminal : Type := (World * list string)%type.

Definition T (A : Type) : Type := Terminal -> flow A * Terminal.

Definition T_ret {A} (a : A) : T A := fun t => (Next a, t).

Definition T_bind {A B} (m : T A) (k : A -> T B) : T B :=
  fun t =>
    match m t with
    | (Next a, t') => k a t'
    | (Return, t') => (Return, t')
    | (Raise e, t') => (Raise e, t')
    end.

Notation "x <~ m ;; k" := (T_bind m (fun x => k))
  (at level 61, m at next level, right associativity).
Notation "m ;;~ k" := (T_bind m (fun _ => k))
  (at level 61, right associativity).

(** A statement of the system run at the terminal. *)
Definition lift {A} (m : M A) : T A :=
  fun t =>
    match m (fst t) with
    | (r, w') => (r, (w', snd t))
    end.

(** [print(text)] *)
Definition say (text : string) : T unit :=
  fun t => (Next tt, (fst t, (snd t ++ [text])%list)).

Fixpoint T_for_each {X} (l : list X) (body : X -> T unit) : T unit :=
  match l with
  | [] => T_ret tt
  | x :: r => body x ;;~ T_for_each r body
  end.

(** [f"{index}. {item}: {quantity}"] *)
Definition numbered (index : Z) (item : string) (quantity : Z) : string :=
  Py.str index ++ ". " ++ item ++ ": " ++ Py.str quantity.

Definition view_inventory : T unit :=
  say (String "010" "Choose how you want to view the inventory:") ;;~
  say "1. View as a simple list" ;;~
  say "2. View in alphabetical order" ;;~
  say "3. View sorted by quantity" ;;~
  choice <~ lift input ;;
  inv <~ lift (read inventory) ;;
  if String.eqb choice "1" then
    say (String "010" "===============================") ;;~
    say " Current Inventory " ;;~
    say "===============================" ;;~
    (match inv with
     | [] => say "The inventory is empty."
     | _ =>
         T_for_each (enumerate 1 inv)
           (fun e => say (numbered (fst e) (fst (snd e)) (snd (snd e))))
     end) ;;~
    say "==============================="
  else if String.eqb choice "2" then
    say (String "010" "===============================") ;;~
    say " Items in Alphabetical Order " ;;~
    say "===============================" ;;~
    (match inv with
     | [] => say "The inventory is empty."
     | _ =>
         T_for_each
           (enumerate 1 (sorted String.ltb Py.lower false (dict_keys inv)))
           (fun e =>
              quantity <~ lift (subscript inv (snd e)) ;;
              say (numbered (fst e) (snd e) quantity))
     end) ;;~
    say "==============================="
  else if String.eqb choice "3" then
    say (String "010" "===============================") ;;~
    say " Items Sorted by Quantity " ;;~
    say "===============================" ;;~
    (match inv with
     | [] => say "The inventory is empty."
     | _ =>
         T_for_each (enumerate 1 (sorted Z.ltb snd true inv))
           (fun e => say (numbered (fst e) (fst (snd e)) (snd (snd e))))
     end) ;;~
    say "==============================="
  else say "Invalid choice! Please select 1, 2, or 3.".

(** [not user.borrowed_items] *)
Definition holds_nothing (user : User) : bool :=
  match borrowed_items user with
  | [] => true
  | _ => false
  end.

(** [f"{user.name}: {items_list}"] with
    [items_list = ', '.join([f"{key}: {value}" for key, value in
                              user.borrowed_items.items()])] *)
Definition holder_line (user : User) : string :=
  name user ++ ": "
  ++ join ", " (map (fun entry => fst entry ++ ": " ++ Py.str (snd entry))
                    (borrowed_items user)).

Definition view_lending_records : T unit :=
  us <~ lift (read users) ;;
  (if match us with [] => true | _ => false end
      || forallb (fun entry => holds_nothing (snd entry)) us
   then say (String "010" "No current lending records.")
   else T_ret tt) ;;~
  T_for_each us
    (fun entry =>
       if holds_nothing (snd entry) then T_ret tt
       else say (holder_line (snd entry))).

Definition options : list string :=
  ["1. Add Item"; "2. View Inventory"; "3. Lend Item"; "4. Return Item";
   "5. View Lending Records"; "6. Update Item Quantity";
   "7. Bulk Add Items"; "8. Exit"].

(** The [while True] loop of [main_menu].  Every round reads a line, so
    a round is never entered more often than there are typed lines, plus
    once: [fuel] bounds the rounds, and [None] is a bound that was too
    low. *)
Fixpoint main_menu_loop (fuel : nat) (t : Terminal)
  : option (flow unit * Terminal) :=
  match fuel with
  | O => None
  | S fuel' =>
      let again (r : flow unit * Terminal) :=
        match r with
        | (Next _, t') => main_menu_loop fuel' t'
        | other => Some other
        end in
      match (T_for_each options say ;;~ lift input) t with
      | (Next choice, t1) =>
          if String.eqb choice "1" then again (lift add_item t1)
          else if String.eqb choice "2" then again (view_inventory t1)
          else if String.eqb choice "3" then again (lift lend_item t1)
          else if String.eqb choice "4" then again (lift return_item t1)
          else if String.eqb choice "5" then again (view_lending_records t1)
          else if String.eqb choice "6" then again (lift update_item t1)
          else if String.eqb choice "7" then again (lift bulk_add_items t1)
          else if String.eqb choice "8" then
            Some ((say (String "010" "Exiting The Inventory System.") ;;~
                   lift save_inventory) t1)
          else again (say (String "010"
                             "Invalid Choice! Please Choose A Valid Option.") t1)
      | (Return, t1) => Some (Return, t1)
      | (Raise e, t1) => Some (Raise e, t1)
      end
  end.

(** [main_menu] with as many rounds as it can need. *)
Definition main_menu (t : Terminal) : option (flow unit * Terminal) :=
  main_menu_loop (S (List.length (stdin (fst t)))) t.


(** ** Vocabulary for the views *)

(** The lines of a listing, numbered from 1. *)
Definition listing_lines (listing : list (string * Z)) : list string :=
  map (fun e => numbered (fst e) (fst (snd e)) (snd (snd e)))
      (enumerate 1 listing).

(** What [view_inventory] prints before it reads the choice, and above
    the listing. *)
Definition view_choices : list string :=
  [String "010" "Choose how you want to view the inventory:";
   "1. View as a simple list";
   "2. View in alphabetical order";
   "3. View sorted by quantity"].

Definition heading (choice : string) : list string :=
  [String "010" "===============================";
   if String.eqb choice "1" then " Current Inventory "
   else if String.eqb choice "2" then " Items in Alphabetical Order "
   else " Items Sorted by Quantity ";
   "==============================="].

(** The order of two entries in the alphabetical view and in the view
    by quantity. *)
Definition alphabetical (a b : string * Z) : Prop :=
  String.ltb (Py.lower (fst b)) (Py.lower (fst a)) = false.

Definition by_quantity (a b : string * Z) : Prop := snd b <= snd a.

(** The users who hold something, in the order of the users map. *)
Definition holders (us : dict User) : list User :=
  filter (fun user => negb (holds_nothing user)) (map snd us).

(** A statement only takes typed lines away: it leaves no more of them
    than it found. *)
Definition reads_on {A} (m : M A) : Prop :=
  forall w,
    (List.length (stdin (snd (m w))) <= List.length (stdin w))%nat.

Definition T_reads_on {A} (m : T A) : Prop :=
  forall t,
    (List.length (stdin (fst (snd (m t)))) <= List.length (stdin (fst t)))%nat.

(** How a menu entry can end: normally, or with one of the two
    exceptions that escape the operations. *)
Definition ends_well (f : flow unit) : Prop :=
  f = Next tt \/ f = Raise EOFError \/ exists item_name, f = Raise (KeyError item_name).

(** The last line the menu prints. *)
Definition farewell : string := String "010" "Exiting The Inventory System.".

(** The menu entry a typed choice selects; none for "8", which leaves
    the menu. *)
Definition menu_entry (choice : string) : option (T unit) :=
  if String.eqb choice "1" then Some (lift add_item)
  else if String.eqb choice "2" then Some view_inventory
  else if String.eqb choice "3" then Some (lift lend_item)
  else if String.eqb choice "4" then Some (lift return_item)
  else if String.eqb choice "5" then Some view_lending_records
  else if String.eqb choice "6" then Some (lift update_item)
  else if String.eqb choice "7" then Some (lift bulk_add_items)
  else if String.eqb choice "8" then None
  else Some (say (String "010" "Invalid Choice! Please Choose A Valid Option.")).
(** * Properties *)

(** ** Dictionaries *)

Section DictFacts.
Context {V : Type}.
Implicit Types (d : dict V) (k : string) (v : V).

Lemma dict_get_set_same d k v : dict_get (dict_set d k v) k = Some v.
Proof.
  induction d as [|[k' v'] r IH]; simpl.
  - now rewrite String.eqb_refl.
  - destruct (String.eqb k' k) eqn:E; simpl; now rewrite E.
Qed.

Lemma dict_get_set_other d k k' v :
  k' <> k -> dict_get (dict_set d k v) k' = dict_get d k'.
Proof.
  intros Hne. induction d as [|[k0 v0] r IH]; simpl.
  - destruct (String.eqb_spec k k'); congruence.
  - destruct (String.eqb_spec k0 k) as [->|Hk]; simpl.
    + destruct (String.eqb_spec k k'); congruence.
    + now rewrite IH.
Qed.

Lemma dict_get_del_same d k : dict_get (dict_del d k) k = None.
Proof.
  induction d as [|[k' v'] r IH]; simpl; auto.
  destruct (String.eqb k' k) eqn:E; simpl; auto. now rewrite E.
Qed.

Lemma dict_get_del_other d k k' :
  k' <> k -> dict_get (dict_del d k) k' = dict_get d k'.
Proof.
  intros Hne. induction d as [|[k0 v0] r IH]; simpl; auto.
  destruct (String.eqb_spec k0 k) as [->|Hk]; simpl.
  - destruct (String.eqb_spec k k'); congruence.
  - now rewrite IH.
Qed.

Lemma dict_set_same_value d k v : dict_get d k = Some v -> dict_set d k v = d.
Proof.
  induction d as [|[k' v'] r IH]; simpl; [discriminate|].
  destruct (String.eqb k' k); intros H.
  - now inversion H.
  - now rewrite IH.
Qed.

Lemma dict_set_set d k v v' : dict_set (dict_set d k v) k v' = dict_set d k v'.
Proof.
  induction d as [|[k0 v0] r IH]; simpl.
  - now rewrite String.eqb_refl.
  - destruct (String.eqb k0 k) eqn:E; simpl; rewrite E; congruence.
Qed.

Lemma dict_set_absent d k v : dict_get d k = None -> dict_set d k v = (d ++ [(k, v)])%list.
Proof.
  induction d as [|[k' v'] r IH]; simpl; auto.
  destruct (String.eqb k' k); [discriminate|].
  intros H. now rewrite IH.
Qed.

Lemma dict_del_absent d k : dict_get d k = None -> dict_del d k = d.
Proof.
  induction d as [|[k' v'] r IH]; simpl; auto.
  destruct (String.eqb k' k); [discriminate|].
  intros H. now rewrite IH.
Qed.

Lemma dict_del_set_absent d k v : dict_get d k = None -> dict_del (dict_set d k v) k = d.
Proof.
  induction d as [|[k' v'] r IH]; simpl.
  - now rewrite String.eqb_refl.
  - destruct (String.eqb k' k) eqn:E; [discriminate|].
    intros H. simpl. rewrite E. now rewrite IH.
Qed.

Lemma dict_mem_get d k : dict_mem d k = true <-> exists v, dict_get d k = Some v.
Proof.
  unfold dict_mem. destruct (dict_get d k) as [v0|]; split; eauto.
  - discriminate.
  - now intros [v0 H].
Qed.

Lemma dict_get_In d k v : dict_get d k = Some v -> In (k, v) d.
Proof.
  induction d as [|[k' v'] r IH]; simpl; [discriminate|].
  destruct (String.eqb_spec k' k) as [->|Hk]; intros H.
  - inversion H. now left.
  - right. auto.
Qed.

Lemma dict_get_None_keys d k : dict_get d k = None <-> ~ In k (dict_keys d).
Proof.
  induction d as [|[k' v'] r IH]; simpl.
  - tauto.
  - destruct (String.eqb_spec k' k) as [->|Hk].
    + split; [discriminate | tauto].
    + rewrite IH. tauto.
Qed.

Lemma dict_keys_set_present d k v :
  dict_mem d k = true -> dict_keys (dict_set d k v) = dict_keys d.
Proof.
  unfold dict_mem.
  induction d as [|[k' v'] r IH]; simpl; [discriminate|].
  destruct (String.eqb k' k); simpl; auto.
  intros H. now rewrite IH.
Qed.
End DictFacts.

(** ** Strings *)

Lemma append_nil_r (s : string) : s ++ "" = s.
Proof. induction s; simpl; congruence. Qed.

Lemma append_assoc (a b c : string) : (a ++ b) ++ c = a ++ (b ++ c).
Proof. induction a; simpl; congruence. Qed.

Lemma str_all_app (p : ascii -> bool) (a b : string) :
  Py.str_all p (a ++ b) = Py.str_all p a && Py.str_all p b.
Proof. induction a; simpl; [reflexivity|]. now rewrite IHa, andb_assoc. Qed.

Lemma str_all_impl (p q : ascii -> bool) (s : string) :
  (forall c, p c = true -> q c = true) ->
  Py.str_all p s = true -> Py.str_all q s = true.
Proof.
  intros Hpq. induction s; simpl; auto.
  rewrite !andb_true_iff. intuition.
Qed.

Lemma alpha_plain (c : ascii) : Py.is_alpha c = true -> plain c = true.
Proof.
  destruct c as [[|] [|] [|] [|] [|] [|] [|] [|]]; vm_compute; congruence.
Qed.

Lemma int_char_plain (c : ascii) : int_char c = true -> plain c = true.
Proof.
  destruct c as [[|] [|] [|] [|] [|] [|] [|] [|]]; vm_compute; congruence.
Qed.

Lemma plain_not_space (c : ascii) : plain c = true -> Py.is_space c = false.
Proof. unfold plain. rewrite andb_true_iff, !negb_true_iff. tauto. Qed.

Lemma plain_not_int_space (c : ascii) :
  plain c = true -> Py.is_int_space c = false.
Proof.
  destruct c as [[|] [|] [|] [|] [|] [|] [|] [|]]; vm_compute; congruence.
Qed.

Lemma plain_not_colon (c : ascii) : plain c = true -> Ascii.eqb c ":" = false.
Proof. unfold plain. rewrite andb_true_iff, !negb_true_iff. tauto. Qed.

Lemma plain_not_newline (c : ascii) : plain c = true -> Ascii.eqb c "010" = false.
Proof.
  intros H. apply plain_not_space in H.
  destruct (Ascii.eqb_spec c "010"); [subst; discriminate | reflexivity].
Qed.

(** *** [strip] *)

Section Strip.
Variable p : ascii -> bool.

(** The characters the class leaves alone. *)
Let kept (c : ascii) : bool := negb (p c).

Lemma lstrip_by_kept (s : string) :
  Py.str_all kept s = true -> Py.lstrip_by p s = s.
Proof.
  destruct s as [|c r]; simpl; auto.
  unfold kept. rewrite andb_true_iff, negb_true_iff. now intros [-> _].
Qed.

Lemma rstrip_by_kept (s : string) :
  Py.str_all kept s = true -> Py.rstrip_by p s = s.
Proof.
  induction s as [|c r IH]; simpl; auto.
  unfold kept at 1. rewrite andb_true_iff, negb_true_iff. intros [Hc Hr].
  rewrite (IH Hr), Hc. now destruct r.
Qed.

Lemma rstrip_by_app_keep (s t : string) :
  t <> "" -> Py.rstrip_by p t = t -> Py.rstrip_by p (s ++ t) = s ++ t.
Proof.
  intros Hne Ht. induction s as [|c r IH]; simpl; auto.
  rewrite IH. destruct (r ++ t) eqn:E; auto.
  destruct r; simpl in E; congruence.
Qed.

Lemma rstrip_by_app_dropped (s : string) (c : ascii) :
  p c = true -> Py.rstrip_by p (s ++ String c "") = Py.rstrip_by p s.
Proof.
  intros Hc. induction s as [|c' r IH]; simpl; [now rewrite Hc|].
  now rewrite IH.
Qed.

Lemma strip_by_kept (s : string) :
  Py.str_all kept s = true -> Py.strip_by p s = s.
Proof.
  intros H. unfold Py.strip_by. rewrite (lstrip_by_kept _ H).
  now apply rstrip_by_kept.
Qed.
End Strip.

Lemma strip_plain (s : string) :
  Py.str_all plain s = true -> Py.strip s = s.
Proof.
  intros H. apply strip_by_kept. apply (str_all_impl plain); auto.
  intros c Hc. now rewrite (plain_not_space _ Hc).
Qed.

Lemma int_strip_plain (s : string) :
  Py.str_all plain s = true -> Py.strip_by Py.is_int_space s = s.
Proof.
  intros H. apply strip_by_kept. apply (str_all_impl plain); auto.
  intros c Hc. now rewrite (plain_not_int_space _ Hc).
Qed.

(** The line written for an entry, stripped, is the entry without its
    line feed. *)
Lemma strip_entry_line (k d : string) :
  Py.str_all plain k = true -> k <> "" ->
  Py.str_all plain d = true -> d <> "" ->
  Py.strip (k ++ ": " ++ d ++ String "010" "") = k ++ ": " ++ d.
Proof.
  intros Hk Hkne Hd Hdne. unfold Py.strip, Py.strip_by.
  assert (Hl : Py.lstrip_by Py.is_space (k ++ ": " ++ d ++ String "010" "")
               = k ++ ": " ++ d ++ String "010" "").
  { destruct k as [|c r]; [congruence|]. simpl in *.
    apply andb_true_iff in Hk. destruct Hk as [Hc _].
    now rewrite (plain_not_space _ Hc). }
  rewrite Hl.
  replace (k ++ ": " ++ d ++ String "010" "")
    with (((k ++ ": ") ++ d) ++ String "010" "")
    by (now rewrite !append_assoc).
  rewrite rstrip_by_app_dropped by reflexivity.
  rewrite rstrip_by_app_keep; auto.
  - now rewrite append_assoc.
  - apply rstrip_by_kept. apply (str_all_impl plain); auto.
    intros c Hc. now rewrite (plain_not_space _ Hc).
Qed.

(** *** [split] *)

Lemma prefix_sep_other (c : ascii) (r : string) :
  Ascii.eqb c ":" = false -> String.prefix ": " (String c r) = false.
Proof.
  intros H.
  destruct c as [[|] [|] [|] [|] [|] [|] [|] [|]];
    try (vm_compute; reflexivity); vm_compute in H; discriminate.
Qed.

Lemma prefix_sep_here (d : string) :
  String.prefix ": " (String ":" (String " " d)) = true.
Proof. destruct d; vm_compute; reflexivity. Qed.

Lemma split_no_colon (cur d : string) :
  Py.str_all plain d = true ->
  Py.split_from ": " 0 cur d = [cur ++ d].
Proof.
  revert cur. induction d as [|c r IH]; intros cur.
  - intros _. cbn [Py.split_from]. now rewrite append_nil_r.
  - cbn [Py.str_all]. rewrite andb_true_iff. intros [Hc Hr].
    cbn [Py.split_from].
    rewrite (prefix_sep_other _ _ (plain_not_colon _ Hc)).
    rewrite (IH _ Hr), append_assoc. reflexivity.
Qed.

Lemma split_entry (cur k d : string) :
  Py.str_all plain k = true ->
  Py.str_all plain d = true ->
  Py.split_from ": " 0 cur (k ++ ": " ++ d) = [cur ++ k; d].
Proof.
  intros Hk Hd. revert cur Hk. induction k as [|c r IH]; intros cur Hk.
  - cbn [append Py.split_from]. rewrite prefix_sep_here, append_nil_r.
    cbn [String.length Nat.sub Py.split_from].
    now rewrite (split_no_colon "" d Hd).
  - cbn [Py.str_all] in Hk. apply andb_true_iff in Hk. destruct Hk as [Hc Hr].
    cbn [append Py.split_from].
    rewrite (prefix_sep_other _ _ (plain_not_colon _ Hc)).
    rewrite (IH _ Hr), append_assoc. reflexivity.
Qed.

(** *** [int] after [str] *)

Lemma uint_chars (d : Decimal.uint) :
  Py.str_all int_char (NilEmpty.string_of_uint d) = true.
Proof. induction d; simpl; auto. Qed.

Lemma int_digits_printed (d : Decimal.uint) :
  Py.int_digits true (NilEmpty.string_of_uint d) = Some d.
Proof. induction d; simpl; try rewrite IHd; reflexivity. Qed.

Lemma int_digits_printed_first (d : Decimal.uint) :
  d <> Decimal.Nil ->
  Py.int_digits false (NilEmpty.string_of_uint d) = Some d.
Proof.
  destruct d; try congruence; intros _; simpl;
    now rewrite int_digits_printed.
Qed.

Lemma int_of_printed_uint (d : Decimal.uint) :
  d <> Decimal.Nil ->
  Py.int (NilEmpty.string_of_uint d) = Some (Z.of_uint d) /\
  Py.int (String "-" (NilEmpty.string_of_uint d)) = Some (- Z.of_uint d).
Proof.
  intros Hd. pose proof (int_digits_printed_first d Hd) as Hdigits.
  pose proof (uint_chars d) as Hchars.
  unfold Py.int. split.
  - rewrite int_strip_plain
      by (apply (str_all_impl int_char); auto using int_char_plain).
    destruct d; try congruence; simpl in *; now rewrite Hdigits.
  - rewrite int_strip_plain.
    + cbn [Ascii.eqb Bool.eqb]. now rewrite Hdigits.
    + cbn [Py.str_all]. apply andb_true_iff. split; [reflexivity|].
      apply (str_all_impl int_char); auto using int_char_plain.
Qed.

Lemma str_chars (z : Z) :
  Py.str_all int_char (Py.str z) = true /\ Py.str z <> "".
Proof.
  unfold Py.str.
  destruct z as [|p|p]; cbn [Z.to_int NilZero.string_of_int].
  - split; [reflexivity | discriminate].
  - pose proof (Unsigned.to_uint_nonnil p) as Hp.
    unfold NilZero.string_of_uint.
    destruct (Pos.to_uint p) eqn:E; try congruence;
      (split; [rewrite <- E at 1; apply (uint_chars (Pos.to_uint p))
                || apply uint_chars | discriminate]).
  - split; [|discriminate].
    cbn [Py.str_all]. apply andb_true_iff. split; [reflexivity|].
    unfold NilZero.string_of_uint.
    destruct (Pos.to_uint p); try reflexivity; apply uint_chars.
Qed.

Lemma str_plain (z : Z) : Py.str_all plain (Py.str z) = true.
Proof.
  apply (str_all_impl int_char); auto using int_char_plain.
  apply str_chars.
Qed.

(** [int(str(z)) == z] *)
Lemma int_str (z : Z) : Py.int (Py.str z) = Some z.
Proof.
  unfold Py.str.
  destruct z as [|p|p]; cbn [Z.to_int NilZero.string_of_int].
  - reflexivity.
  - pose proof (Unsigned.to_uint_nonnil p) as Hp.
    replace (NilZero.string_of_uint (Pos.to_uint p))
      with (NilEmpty.string_of_uint (Pos.to_uint p))
      by (unfold NilZero.string_of_uint; destruct (Pos.to_uint p); congruence).
    rewrite (proj1 (int_of_printed_uint _ Hp)).
    unfold Z.of_uint. now rewrite Unsigned.of_to.
  - pose proof (Unsigned.to_uint_nonnil p) as Hp.
    replace (NilZero.string_of_uint (Pos.to_uint p))
      with (NilEmpty.string_of_uint (Pos.to_uint p))
      by (unfold NilZero.string_of_uint; destruct (Pos.to_uint p); congruence).
    rewrite (proj2 (int_of_printed_uint _ Hp)).
    unfold Z.of_uint. now rewrite Unsigned.of_to.
Qed.

(** ** [User.return_item] *)

(** C7.  Giving back a positive quantity fails, leaving the user as it
    was, when the item is not among the user's borrowed items or the
    quantity is larger than what the user holds; otherwise it succeeds,
    the held quantity goes down by the quantity given back, the entry
    disappears when nothing is left, and no other entry changes.  (The
    method itself never looks at the sign of the quantity.) *)
Theorem User_return_item_spec (self : User) (item_name : string) (quantity : Z) :
  0 < quantity ->
  ((dict_get (borrowed_items self) item_name = None \/
    exists held, dict_get (borrowed_items self) item_name = Some held /\
                 held < quantity) ->
   User_return_item self item_name quantity = (self, false)) /\
  (forall held,
     dict_get (borrowed_items self) item_name = Some held ->
     quantity <= held ->
     exists self',
       User_return_item self item_name quantity = (self', true) /\
       name self' = name self /\
       dict_get (borrowed_items self') item_name =
         (if held =? quantity then None else Some (held - quantity)) /\
       forall other, other <> item_name ->
         dict_get (borrowed_items self') other =
         dict_get (borrowed_items self) other).
Proof.
  intros _. unfold User_return_item. split.
  - intros [-> | [held [-> Hlt]]]; [reflexivity|].
    destruct (Z.geb_spec held quantity); [lia | reflexivity].
  - intros held -> Hle.
    destruct (Z.geb_spec held quantity); [|lia].
    destruct (Z.eqb_spec (held - quantity) 0) as [E|E].
    + eexists; split; [reflexivity|]. simpl.
      destruct (Z.eqb_spec held quantity); [|lia].
      split; [reflexivity|]. split; [apply dict_get_del_same|].
      intros other Hne. now apply dict_get_del_other.
    + eexists; split; [reflexivity|]. simpl.
      destruct (Z.eqb_spec held quantity); [lia|].
      split; [reflexivity|]. split; [apply dict_get_set_same|].
      intros other Hne. now apply dict_get_set_other.
Qed.

Lemma User_return_item_spec_witness :
  User_return_item (mkUser "alice" [("hammer", 3); ("drill", 1)]) "hammer" 5
  = (mkUser "alice" [("hammer", 3); ("drill", 1)], false) /\
  exists self',
    User_return_item (mkUser "alice" [("hammer", 3); ("drill", 1)]) "hammer" 3
    = (self', true) /\
    dict_get (borrowed_items self') "hammer" = None /\
    dict_get (borrowed_items self') "drill" = Some 1.
Proof.
  split.
  - apply (User_return_item_spec
             (mkUser "alice" [("hammer", 3); ("drill", 1)]) "hammer" 5).
    + lia.
    + right. exists 3. split; [reflexivity | lia].
  - destruct (proj2 (User_return_item_spec
                       (mkUser "alice" [("hammer", 3); ("drill", 1)]) "hammer" 3
                       ltac:(lia)) 3 eq_refl ltac:(lia))
      as [self' [Hrun [_ [Hitem Hother]]]].
    exists self'. split; [exact Hrun|]. split; [exact Hitem|].
    rewrite Hother; [reflexivity | discriminate].
Defined.

(** ** The items offered for lending *)

Lemma dict_wf_get {V} (d : dict V) (k : string) (v : V) :
  dict_wf d -> In (k, v) d -> dict_get d k = Some v.
Proof.
  unfold dict_wf, dict_keys.
  induction d as [|[k' v'] r IH]; simpl; [tauto|].
  intros Hnd [Heq | Hin].
  - inversion Heq; subst. now rewrite String.eqb_refl.
  - inversion Hnd as [|? ? Hnotin Hr]; subst.
    destruct (String.eqb_spec k' k) as [->|Hne].
    + exfalso. apply Hnotin. apply (in_map fst) in Hin. exact Hin.
    + auto.
Qed.

Lemma nth_error_keys {V} (d : dict V) (i : nat) (k : string) :
  nth_error (dict_keys d) i = Some k -> exists v, In (k, v) d.
Proof.
  unfold dict_keys. intros H. apply nth_error_In in H.
  apply in_map_iff in H. destruct H as [[k' v] [Hk Hin]].
  simpl in Hk. subst. eauto.
Qed.

Lemma in_stock_wf (d : dict Z) : dict_wf d -> dict_wf (in_stock d).
Proof.
  unfold dict_wf, dict_keys, in_stock.
  induction d as [|[k v] r IH]; simpl; auto.
  intros Hnd. inversion Hnd as [|? ? Hnotin Hr]; subst.
  destruct (v >? 0); simpl; auto.
  constructor; auto.
  intros Hin. apply Hnotin. apply in_map_iff in Hin.
  destruct Hin as [e [He Hin]]. apply filter_In in Hin.
  apply in_map_iff. exists e. tauto.
Qed.

Lemma available_items_from (acc inv : dict Z) :
  NoDup (dict_keys acc ++ dict_keys inv) ->
  Forall normalized (dict_keys inv) ->
  fold_left
    (fun acc entry =>
       if snd entry >? 0 then dict_set acc (Py.lower (fst entry)) (snd entry)
       else acc)
    inv acc
  = (acc ++ in_stock inv)%list.
Proof.
  revert acc. induction inv as [|[k v] r IH]; intros acc Hnd Hlow; simpl.
  - now rewrite app_nil_r.
  - inversion Hlow as [|? ? Hk Hr]; subst. simpl in Hnd.
    destruct (v >? 0).
    + simpl. red in Hk. rewrite Hk.
      rewrite dict_set_absent.
      * rewrite IH; auto.
        -- now rewrite <- app_assoc.
        -- unfold dict_keys in *. rewrite map_app, <- app_assoc. exact Hnd.
      * apply dict_get_None_keys. intros Hin.
        apply NoDup_remove_2 in Hnd. apply Hnd. apply in_or_app. now left.
    + apply IH; auto. now apply NoDup_remove_1 in Hnd.
Qed.

Lemma available_items_in_stock (inv : dict Z) :
  inventory_ok inv -> available_items inv = in_stock inv.
Proof.
  intros [Hwf Hlow]. unfold available_items.
  now rewrite available_items_from.
Qed.

(** What the listing shows for an item is what the inventory holds. *)
Lemma in_stock_listed (inv : dict Z) (i : nat) (item_name : string) (q : Z) :
  dict_wf inv ->
  dict_get inv item_name = Some q ->
  nth_error (dict_keys (in_stock inv)) i = Some item_name ->
  dict_get (in_stock inv) item_name = Some q /\ 0 < q.
Proof.
  intros Hwf Hq Hnth.
  destruct (nth_error_keys _ _ _ Hnth) as [v Hin].
  pose proof Hin as Hin'. apply filter_In in Hin'. destruct Hin' as [Hinv Hpos].
  simpl in Hpos. apply (dict_wf_get _ _ _ Hwf) in Hinv.
  assert (v = q) by congruence. subst v.
  split; [|lia].
  apply dict_wf_get; [now apply in_stock_wf | exact Hin].
Qed.

(** An item with positive stock appears in the listing. *)
Lemma in_stock_position (inv : dict Z) (item_name : string) (q : Z) :
  dict_get inv item_name = Some q -> 0 < q ->
  exists i, nth_error (dict_keys (in_stock inv)) i = Some item_name.
Proof.
  intros Hq Hpos. apply In_nth_error.
  unfold dict_keys. apply in_map_iff. exists (item_name, q). split; auto.
  apply filter_In. split; [now apply dict_get_In | simpl; lia].
Qed.

(** ** Running the operations *)

(** Unfolds the control-flow combinators and the field accessors, and
    nothing else. *)
Ltac mstep :=
  cbv beta iota zeta delta
    [bind ret raise return_ print read modify input int_ subscript key_at
     try_except def log_transaction save_inventory
     stdin stdout inventory users inventory_txt transaction_log_txt
     set_stdin set_users set_inventory set_inventory_txt
     set_transaction_log_txt put].

Lemma add_user_if_absent_run (borrower_name : string) (w : World) :
  add_user_if_absent borrower_name w
  = (Next tt, set_users (with_user (users w) borrower_name) w).
Proof.
  unfold add_user_if_absent, modify, with_user.
  destruct w as [inv us f l sin sout]; simpl.
  now destruct (dict_mem us borrower_name).
Qed.

Lemma match_nonempty {A B} (l : list A) (x y : B) :
  l <> [] -> match l with [] => x | _ :: _ => y end = y.
Proof. destruct l; congruence. Qed.

Lemma with_user_get (us : dict User) (borrower_name : string) :
  dict_get (with_user us borrower_name) borrower_name
  = Some (user_record us borrower_name).
Proof.
  unfold with_user, user_record, dict_mem.
  destruct (dict_get us borrower_name) eqn:E; [exact E|].
  apply dict_get_set_same.
Qed.

Lemma with_user_get_other (us : dict User) (borrower_name other : string) :
  other <> borrower_name ->
  dict_get (with_user us borrower_name) other = dict_get us other.
Proof.
  intros Hne. unfold with_user. destruct (dict_mem us borrower_name); auto.
  now apply dict_get_set_other.
Qed.

Lemma nth_error_keys_bound {V} (d : dict V) (i : nat) (k : string) :
  nth_error (dict_keys d) i = Some k -> Z.of_nat i < dict_len d.
Proof.
  intros H. unfold dict_len. apply Nat2Z.inj_lt.
  unfold dict_keys in H. rewrite <- (length_map fst).
  apply nth_error_Some. congruence.
Qed.

Lemma selection_in_range (i : nat) (n : Z) :
  Z.of_nat i < n ->
  (Z.of_nat i + 1 - 1 <? 0) || (Z.of_nat i + 1 - 1 >=? n) = false.
Proof.
  intros H. apply orb_false_iff. split.
  - apply Z.ltb_ge. lia.
  - rewrite Z.geb_leb. apply Z.leb_gt. lia.
Qed.

Lemma selection_out_of_range (n len : Z) :
  n - 1 < 0 \/ len <= n - 1 ->
  (n - 1 <? 0) || (n - 1 >=? len) = true.
Proof.
  intros H. apply orb_true_iff. rewrite Z.geb_leb, Z.ltb_lt, Z.leb_le. exact H.
Qed.

Lemma lend_item_run_no_stock inv us f l sout who rest :
  available_items inv = [] ->
  lend_item (mkWorld inv us f l (who :: rest) sout)
  = (Next tt,
     mkWorld inv (with_user us (Py.strip who)) f l rest
             (sout ++ [NoItemsAvailable])).
Proof.
  intros Hnone. unfold lend_item. unfold def, bind at 1 2. unfold input at 1.
  cbn [stdin set_stdin]. rewrite add_user_if_absent_run. mstep.
  rewrite Hnone. reflexivity.
Qed.

Lemma lend_item_run_bad_selection inv us f l sout who pick rest n :
  available_items inv <> [] ->
  Py.int pick = Some n ->
  n - 1 < 0 \/ dict_len (available_items inv) <= n - 1 ->
  lend_item (mkWorld inv us f l (who :: pick :: rest) sout)
  = (Next tt,
     mkWorld inv (with_user us (Py.strip who)) f l rest
             ((sout ++ [AvailableItems]) ++ [InvalidSelection])).
Proof.
  intros Hsome Hpick Hout. unfold lend_item. unfold def, bind at 1 2.
  unfold input at 1. cbn [stdin set_stdin]. rewrite add_user_if_absent_run.
  mstep. rewrite (match_nonempty _ _ _ Hsome), Hpick.
  rewrite (selection_out_of_range _ _ Hout). reflexivity.
Qed.

Lemma lend_item_run_bad_quantity inv us f l sout who pick amount rest
      i item_name available_quantity k :
  Py.int pick = Some (Z.of_nat i + 1) ->
  nth_error (dict_keys (available_items inv)) i = Some item_name ->
  dict_get (available_items inv) item_name = Some available_quantity ->
  Py.int amount = Some k ->
  k <= 0 \/ available_quantity < k ->
  lend_item (mkWorld inv us f l (who :: pick :: amount :: rest) sout)
  = (Next tt,
     mkWorld inv (with_user us (Py.strip who)) f l rest
             ((sout ++ [AvailableItems]) ++ [InvalidQuantitySelected])).
Proof.
  intros Hpick Hnth Hav Hamount Hbad.
  unfold lend_item. unfold def, bind at 1 2.
  unfold input at 1. cbn [stdin set_stdin]. rewrite add_user_if_absent_run.
  mstep.
  rewrite (match_nonempty (available_items inv))
    by (intros E; rewrite E in Hnth; now destruct i).
  rewrite Hpick, (selection_in_range _ _ (nth_error_keys_bound _ _ _ Hnth)).
  replace (Z.of_nat i + 1 - 1) with (Z.of_nat i) by lia.
  rewrite Nat2Z.id, Hnth, Hav, Hamount.
  replace ((k <=? 0) || (k >? available_quantity)) with true; [reflexivity|].
  symmetry. apply orb_true_iff. rewrite Z.gtb_ltb, Z.ltb_lt, Z.leb_le. exact Hbad.
Qed.

Lemma lend_item_run_lent inv us f l sout who pick amount rest
      i item_name available_quantity k held :
  Py.int pick = Some (Z.of_nat i + 1) ->
  nth_error (dict_keys (available_items inv)) i = Some item_name ->
  dict_get (available_items inv) item_name = Some available_quantity ->
  Py.int amount = Some k ->
  0 < k <= available_quantity ->
  dict_get inv item_name = Some held ->
  lend_item (mkWorld inv us f l (who :: pick :: amount :: rest) sout)
  = (Next tt,
     mkWorld
       (dict_set inv item_name (held - k))
       (dict_set (with_user us (Py.strip who)) (Py.strip who)
                 (User_borrow_item (user_record us (Py.strip who)) item_name k))
       (Some (inventory_text (dict_set inv item_name (held - k))))
       (Some (match l with Some text => text | None => "" end
              ++ transaction_line "Lend" (Py.strip who) item_name k))
       rest
       (((sout ++ [AvailableItems]) ++ [Lent]) ++ [InventorySaved])).
Proof.
  intros Hpick Hnth Hav Hamount Hk Hheld.
  unfold lend_item. unfold def, bind at 1 2.
  unfold input at 1. cbn [stdin set_stdin]. rewrite add_user_if_absent_run.
  mstep.
  rewrite (match_nonempty (available_items inv))
    by (intros E; rewrite E in Hnth; now destruct i).
  rewrite Hpick, (selection_in_range _ _ (nth_error_keys_bound _ _ _ Hnth)).
  replace (Z.of_nat i + 1 - 1) with (Z.of_nat i) by lia.
  rewrite Nat2Z.id, Hnth, Hav, Hamount.
  replace ((k <=? 0) || (k >? available_quantity)) with false.
  - rewrite with_user_get, Hheld. reflexivity.
  - symmetry. apply orb_false_iff. rewrite Z.gtb_ltb, Z.ltb_ge, Z.leb_gt. lia.
Qed.

(** ** Lending *)

Lemma borrowed_with_user (w : World) (who u item_name : string) :
  borrowed (set_users (with_user (users w) who) w) u item_name
  = borrowed w u item_name.
Proof.
  unfold borrowed. cbn [users set_users].
  destruct (String.eqb_spec u who) as [->|Hne].
  - rewrite with_user_get. unfold user_record.
    now destruct (dict_get (users w) who).
  - now rewrite with_user_get_other.
Qed.

(** C4, as the code has it.  A refused lend leaves the inventory, the
    inventory file, the transaction log and what every user has borrowed
    as they were; of the users map it changes one thing only: the
    borrower gets a record, with nothing borrowed, if there was none. *)
Theorem lend_item_refused_effects (w : World) (m : message) :
  lend_refused w m ->
  let w' := snd (lend_item w) in
  fst (lend_item w) = Next tt /\
  last (stdout w') InventorySaved = m /\
  inventory w' = inventory w /\
  inventory_txt w' = inventory_txt w /\
  transaction_log_txt w' = transaction_log_txt w /\
  (exists who, hd_error (stdin w) = Some who /\
               users w' = with_user (users w) (Py.strip who)) /\
  (forall u item_name, borrowed w' u item_name = borrowed w u item_name).
Proof.
  intros Href. cbv zeta.
  destruct w as [inv us f l sin sout]. cbn [stdin inventory] in Href.
  destruct Href as [who rest Hin Hnone
                   | who pick rest n Hin Hsome Hpick Hout
                   | who pick amount rest i item_name aq k Hin Hpick Hnth Hav Hamount Hbad];
    cbn [stdin inventory] in *; subst sin.
  - rewrite (lend_item_run_no_stock _ _ _ _ _ _ _ Hnone). cbn.
    rewrite last_last. repeat split; eauto.
    intros u it.
    apply (borrowed_with_user (mkWorld inv us f l rest (sout ++ [NoItemsAvailable]))).
  - rewrite (lend_item_run_bad_selection _ _ _ _ _ _ _ _ _ Hsome Hpick Hout). cbn.
    rewrite last_last. repeat split; eauto.
    intros u it.
    apply (borrowed_with_user
             (mkWorld inv us f l rest ((sout ++ [AvailableItems]) ++ [InvalidSelection]))).
  - rewrite (lend_item_run_bad_quantity _ _ _ _ _ _ _ _ _ _ _ _ _
               Hpick Hnth Hav Hamount Hbad). cbn.
    rewrite last_last. repeat split; eauto.
    intros u it.
    apply (borrowed_with_user
             (mkWorld inv us f l rest
                      ((sout ++ [AvailableItems]) ++ [InvalidQuantitySelected]))).
Qed.

Lemma lend_item_refused_effects_witness :
  let w := mkWorld [("hammer", 5)] [("bob", mkUser "bob" [("hammer", 1)])]
                   (Some "hammer: 5") None ["bob"; "1"; "9"] [] in
  lend_refused w InvalidQuantitySelected /\
  inventory (snd (lend_item w)) = inventory w /\
  borrowed (snd (lend_item w)) "bob" "hammer" = Some 1.
Proof.
  cbv zeta.
  assert (Href : lend_refused
                   (mkWorld [("hammer", 5)] [("bob", mkUser "bob" [("hammer", 1)])]
                            (Some "hammer: 5") None ["bob"; "1"; "9"] [])
                   InvalidQuantitySelected).
  { apply (refused_quantity _ "bob" "1" "9" [] 0%nat "hammer" 5 9);
      try reflexivity. right. lia. }
  split; [exact Href|].
  destruct (lend_item_refused_effects _ _ Href) as (_ & _ & Hinv & _ & _ & _ & Hb).
  split; [exact Hinv|]. rewrite Hb. reflexivity.
Defined.

(** C4, as stated, fails: a refused lend by a borrower who has no record
    yet adds a record to the users map. *)
Lemma lend_item_refused_adds_user :
  let w := mkWorld [("hammer", 5)] [] (Some "hammer: 5") None
                   ["alice"; "1"; "9"] [] in
  lend_refused w InvalidQuantitySelected /\
  users w = [] /\
  users (snd (lend_item w)) = [("alice", mkUser "alice" [])] /\
  users (snd (lend_item w)) <> users w.
Proof.
  cbv zeta. split; [|split; [|split]].
  - apply (refused_quantity _ "alice" "1" "9" [] 0%nat "hammer" 5 9);
      try reflexivity. right. lia.
  - reflexivity.
  - vm_compute. reflexivity.
  - vm_compute. discriminate.
Qed.

(** C5.  In an inventory of the data model, an item with positive stock
    is listed for lending.  When the item with stock [q] is selected and
    [k] units are asked for: if [0 < k <= q] the lend goes through, the
    stock of the item becomes [q - k], no other stock changes, a borrower
    who held none of it holds [k], one "Lend" record is appended to the
    log and the inventory file is rewritten; if [k > q] the lend is
    refused and the inventory is as before, the item still at [q]. *)
Theorem lend_item_spec (w : World) (item_name : string) (q : Z) :
  inventory_ok (inventory w) ->
  stock w item_name = Some q ->
  (0 < q ->
   exists i, nth_error (dict_keys (available_items (inventory w))) i
             = Some item_name) /\
  (forall who pick amount rest i k,
     stdin w = who :: pick :: amount :: rest ->
     nth_error (dict_keys (available_items (inventory w))) i = Some item_name ->
     Py.int pick = Some (Z.of_nat i + 1) ->
     Py.int amount = Some k ->
     let w' := snd (lend_item w) in
     (0 < k <= q ->
      fst (lend_item w) = Next tt /\
      stdout w' = (stdout w ++ [AvailableItems; Lent; InventorySaved])%list /\
      stock w' item_name = Some (q - k) /\
      (forall other, other <> item_name -> stock w' other = stock w other) /\
      (borrowed w (Py.strip who) item_name = None ->
       borrowed w' (Py.strip who) item_name = Some k) /\
      transaction_log_txt w'
      = Some (match transaction_log_txt w with Some text => text | None => "" end
              ++ transaction_line "Lend" (Py.strip who) item_name k) /\
      inventory_txt w' = Some (inventory_text (inventory w'))) /\
     (q < k ->
      fst (lend_item w) = Next tt /\
      stdout w' = (stdout w ++ [AvailableItems; InvalidQuantitySelected])%list /\
      inventory w' = inventory w /\
      stock w' item_name = Some q)).
Proof.
  intros Hok Hq. unfold stock in Hq.
  rewrite (available_items_in_stock _ Hok). split.
  - intros Hpos. now apply (in_stock_position _ _ q).
  - intros who pick amount rest i k Hin Hnth Hpick Hamount.
    destruct (in_stock_listed _ _ _ _ (proj1 Hok) Hq Hnth) as [Hav Hpos].
    rewrite <- (available_items_in_stock _ Hok) in Hnth, Hav.
    destruct w as [inv us f l sin sout]. cbn [stdin inventory] in *. subst sin.
    cbv zeta. split.
    + intros Hk.
      rewrite (lend_item_run_lent _ _ _ _ _ _ _ _ _ _ _ _ _ _
                 Hpick Hnth Hav Hamount Hk Hq).
      unfold stock, borrowed. cbn [fst snd inventory users stdout
                                     transaction_log_txt inventory_txt].
      repeat split.
      * now rewrite <- !app_assoc.
      * apply dict_get_set_same.
      * intros other Hne. now apply dict_get_set_other.
      * rewrite dict_get_set_same. unfold user_record, User_borrow_item.
        destruct (dict_get us (Py.strip who)) as [u|]; cbn [borrowed_items].
        -- intros ->. cbn [borrowed_items]. apply dict_get_set_same.
        -- intros _. cbn. now rewrite String.eqb_refl.
    + intros Hk.
      rewrite (lend_item_run_bad_quantity _ _ _ _ _ _ _ _ _ _ _ _ _
                 Hpick Hnth Hav Hamount (or_intror Hk)).
      unfold stock. cbn [fst snd inventory stdout].
      repeat split; auto. now rewrite <- !app_assoc.
Qed.

Lemma lend_item_spec_witness :
  let w := mkWorld [("drill", 0); ("hammer", 10)] [] None None
                   [" alice "; "1"; "3"] [] in
  stock (snd (lend_item w)) "hammer" = Some 7 /\
  borrowed (snd (lend_item w)) "alice" "hammer" = Some 3 /\
  stock (snd (lend_item (set_stdin ["alice"; "1"; "11"] w))) "hammer" = Some 10.
Proof.
  cbv zeta.
  assert (Hok : inventory_ok [("drill", 0); ("hammer", 10)]).
  { split.
    - repeat constructor; simpl; intuition discriminate.
    - repeat constructor. }
  pose proof (lend_item_spec
                (mkWorld [("drill", 0); ("hammer", 10)] [] None None
                         [" alice "; "1"; "3"] [])
                "hammer" 10 Hok eq_refl) as [_ Hlend].
  pose proof (lend_item_spec
                (set_stdin ["alice"; "1"; "11"]
                   (mkWorld [("drill", 0); ("hammer", 10)] [] None None
                            [" alice "; "1"; "3"] []))
                "hammer" 10 Hok eq_refl) as [_ Hrefuse].
  destruct (Hlend " alice " "1" "3" [] 0%nat 3 eq_refl eq_refl eq_refl eq_refl)
    as [Hyes _].
  destruct (Hrefuse "alice" "1" "11" [] 0%nat 11 eq_refl eq_refl eq_refl eq_refl)
    as [_ Hno].
  destruct (Hyes ltac:(lia)) as (_ & _ & Hstock & _ & Hb & _).
  destruct (Hno ltac:(lia)) as (_ & _ & _ & Hsame).
  split; [exact Hstock|]. split; [exact (Hb eq_refl) | exact Hsame].
Defined.

(** ** Returning *)

Lemma return_item_run inv us f l sout who pick amount rest user j item_name k :
  dict_get us (Py.strip who) = Some user ->
  nth_error (dict_keys (borrowed_items user)) j = Some item_name ->
  Py.int pick = Some (Z.of_nat j + 1) ->
  Py.int amount = Some k ->
  return_item (mkWorld inv us f l (who :: pick :: amount :: rest) sout)
  = if snd (User_return_item user item_name k) then
      match dict_get inv item_name with
      | Some held =>
          (Next tt,
           mkWorld
             (dict_set inv item_name (held + k))
             (dict_set us (Py.strip who) (fst (User_return_item user item_name k)))
             (Some (inventory_text (dict_set inv item_name (held + k))))
             (Some (match l with Some text => text | None => "" end
                    ++ transaction_line "Return" (Py.strip who) item_name k))
             rest
             (((sout ++ [BorrowedItems]) ++ [Returned]) ++ [InventorySaved]))
      | None =>
          (Raise (KeyError item_name),
           mkWorld inv
             (dict_set us (Py.strip who) (fst (User_return_item user item_name k)))
             f l rest (sout ++ [BorrowedItems]))
      end
    else
      (Next tt,
       mkWorld inv
         (dict_set us (Py.strip who) (fst (User_return_item user item_name k)))
         f l rest ((sout ++ [BorrowedItems]) ++ [NotEnoughToReturn])).
Proof.
  intros Huser Hnth Hpick Hamount.
  assert (Hsome : borrowed_items user <> [])
    by (intros E; rewrite E in Hnth; now destruct j).
  unfold return_item. mstep. rewrite Huser.
  rewrite !(match_nonempty (borrowed_items user)) by exact Hsome.
  rewrite Hpick, (selection_in_range _ _ (nth_error_keys_bound _ _ _ Hnth)).
  replace (Z.of_nat j + 1 - 1) with (Z.of_nat j) by lia.
  rewrite Nat2Z.id, Hnth, Hamount.
  destruct (User_return_item user item_name k) as [user' ok].
  cbn [fst snd]. destruct ok; [|reflexivity].
  destruct (dict_get inv item_name); reflexivity.
Qed.

(** C10.  When the item a user gives back is not a key of the inventory
    and the quantity is within what the user holds, [return_item] ends
    with an uncaught [KeyError] on that item: the user's holding has
    already gone down by the quantity (the entry is gone when nothing is
    left), while the inventory, the inventory file and the log are as
    before. *)
Theorem return_item_missing_stock_raises
        (w : World) (who pick amount : string) (rest : list string)
        (user : User) (j : nat) (item_name : string) (held k : Z) :
  stdin w = who :: pick :: amount :: rest ->
  dict_get (users w) (Py.strip who) = Some user ->
  nth_error (dict_keys (borrowed_items user)) j = Some item_name ->
  dict_get (borrowed_items user) item_name = Some held ->
  stock w item_name = None ->
  Py.int pick = Some (Z.of_nat j + 1) ->
  Py.int amount = Some k ->
  k <= held ->
  let w' := snd (return_item w) in
  fst (return_item w) = Raise (KeyError item_name) /\
  borrowed w' (Py.strip who) item_name
  = (if held =? k then None else Some (held - k)) /\
  inventory w' = inventory w /\
  inventory_txt w' = inventory_txt w /\
  transaction_log_txt w' = transaction_log_txt w /\
  stdout w' = (stdout w ++ [BorrowedItems])%list.
Proof.
  intros Hin Huser Hnth Hheld Hstock Hpick Hamount Hk.
  destruct w as [inv us f l sin sout].
  unfold stock in Hstock. cbn [stdin users inventory] in *. subst sin.
  cbv zeta.
  rewrite (return_item_run _ _ _ _ _ _ _ _ _ _ _ _ _ Huser Hnth Hpick Hamount).
  unfold User_return_item. rewrite Hheld, Hstock.
  destruct (Z.geb_spec held k); [|lia].
  replace (held - k =? 0) with (held =? k)
    by (destruct (Z.eqb_spec held k), (Z.eqb_spec (held - k) 0); auto; lia).
  unfold borrowed.
  destruct (Z.eqb_spec held k);
    cbn [fst snd users inventory inventory_txt transaction_log_txt stdout];
    rewrite dict_get_set_same; cbn [borrowed_items];
    repeat split; auto using dict_get_del_same, dict_get_set_same.
Qed.

Lemma return_item_missing_stock_raises_witness :
  let w := mkWorld [("drill", 2)]
                   [("alice", mkUser "alice" [("hammer", 3)])]
                   (Some "drill: 2") None ["alice"; "1"; "2"] [] in
  fst (return_item w) = Raise (KeyError "hammer") /\
  borrowed (snd (return_item w)) "alice" "hammer" = Some 1 /\
  inventory (snd (return_item w)) = [("drill", 2)].
Proof.
  cbv zeta.
  destruct (return_item_missing_stock_raises
              (mkWorld [("drill", 2)]
                       [("alice", mkUser "alice" [("hammer", 3)])]
                       (Some "drill: 2") None ["alice"; "1"; "2"] [])
              "alice" "1" "2" [] (mkUser "alice" [("hammer", 3)]) 0%nat
              "hammer" 3 2
              eq_refl eq_refl eq_refl eq_refl eq_refl eq_refl eq_refl
              ltac:(lia))
    as (Hraise & Hb & Hinv & _).
  split; [exact Hraise|]. split; [exact Hb | exact Hinv].
Defined.

(** ** A lend followed by the matching return *)

Lemma User_borrow_then_return (u : User) (item_name : string) (k : Z) :
  dict_get (borrowed_items u) item_name = None \/
  (exists b, dict_get (borrowed_items u) item_name = Some b /\ 0 < b) ->
  User_return_item (User_borrow_item u item_name k) item_name k = (u, true).
Proof.
  destruct u as [nm b]. cbn [borrowed_items].
  unfold User_borrow_item, User_return_item. cbn [borrowed_items name].
  intros [Hnone | [v [Hv Hpos]]].
  - rewrite Hnone. cbn [borrowed_items name]. rewrite dict_get_set_same.
    destruct (Z.geb_spec k k); [|lia].
    replace (k - k =? 0) with true by (symmetry; apply Z.eqb_eq; lia).
    now rewrite dict_del_set_absent.
  - rewrite Hv. cbn [borrowed_items name]. rewrite dict_get_set_same.
    destruct (Z.geb_spec (v + k) k); [|lia].
    replace (v + k - k =? 0) with false by (symmetry; apply Z.eqb_neq; lia).
    rewrite dict_set_set. replace (v + k - k) with v by lia.
    now rewrite dict_set_same_value.
Qed.

(** C6, as the code has it.  In an inventory of the data model, lending
    [k] units ([0 < k <= q]) of an item with stock [q] to a user and then
    taking the same [k] units back from that user restores the inventory
    (the item is at [q] again) and restores what the user holds of the
    item: no entry when the user held none before the lend, the previous
    positive quantity otherwise.  The users map is the one before the
    lend with the borrower's record in it, and the log has the two
    records. *)
Theorem lend_then_return_restores
        (w : World) (who pick amount who2 pick2 amount2 : string)
        (rest : list string) (item_name : string) (q k : Z) (i j : nat) :
  inventory_ok (inventory w) ->
  stock w item_name = Some q ->
  0 < k <= q ->
  borrowed w (Py.strip who) item_name = None \/
  (exists b, borrowed w (Py.strip who) item_name = Some b /\ 0 < b) ->
  stdin w = who :: pick :: amount :: who2 :: pick2 :: amount2 :: rest ->
  nth_error (dict_keys (available_items (inventory w))) i = Some item_name ->
  Py.int pick = Some (Z.of_nat i + 1) ->
  Py.int amount = Some k ->
  Py.strip who2 = Py.strip who ->
  nth_error (holdings (snd (lend_item w)) (Py.strip who)) j = Some item_name ->
  Py.int pick2 = Some (Z.of_nat j + 1) ->
  Py.int amount2 = Some k ->
  let w' := snd (session [LendItem; ReturnItem] w) in
  fst (session [LendItem; ReturnItem] w) = Next tt /\
  inventory w' = inventory w /\
  stock w' item_name = Some q /\
  users w' = with_user (users w) (Py.strip who) /\
  (forall u it, borrowed w' u it = borrowed w u it) /\
  transaction_log_txt w'
  = Some ((match transaction_log_txt w with Some text => text | None => "" end
           ++ transaction_line "Lend" (Py.strip who) item_name k)
          ++ transaction_line "Return" (Py.strip who) item_name k) /\
  inventory_txt w' = Some (inventory_text (inventory w)).
Proof.
  intros Hok Hq Hk Hprior Hin Hnth Hpick Hamount Hwho Hnth2 Hpick2 Hamount2.
  unfold stock in Hq.
  pose proof Hnth as Hnth'. rewrite (available_items_in_stock _ Hok) in Hnth'.
  destruct (in_stock_listed _ _ _ _ (proj1 Hok) Hq Hnth') as [Hav _].
  rewrite <- (available_items_in_stock _ Hok) in Hav.
  destruct w as [inv us f l sin sout]. cbn [stdin inventory users] in *.
  subst sin. cbv zeta.
  pose proof (lend_item_run_lent inv us f l sout who pick amount
                (who2 :: pick2 :: amount2 :: rest) _ _ _ _ _
                Hpick Hnth Hav Hamount Hk Hq) as Hlend.
  rewrite Hlend in Hnth2. unfold holdings in Hnth2. cbn [snd users] in Hnth2.
  rewrite dict_get_set_same in Hnth2.
  assert (Huser : dict_get
                    (dict_set (with_user us (Py.strip who)) (Py.strip who)
                       (User_borrow_item (user_record us (Py.strip who)) item_name k))
                    (Py.strip who2)
                  = Some (User_borrow_item (user_record us (Py.strip who)) item_name k))
    by (rewrite Hwho; apply dict_get_set_same).
  assert (Hprior' :
            dict_get (borrowed_items (user_record us (Py.strip who))) item_name = None \/
            (exists b, dict_get (borrowed_items (user_record us (Py.strip who)))
                                item_name = Some b /\ 0 < b)).
  { unfold borrowed in Hprior. cbn [users] in Hprior. unfold user_record.
    destruct (dict_get us (Py.strip who)); [exact Hprior | now left]. }
  assert (Hrun :
            session [LendItem; ReturnItem]
              (mkWorld inv us f l
                 (who :: pick :: amount :: who2 :: pick2 :: amount2 :: rest) sout)
            = (Next tt,
               mkWorld inv (with_user us (Py.strip who))
                 (Some (inventory_text inv))
                 (Some ((match l with Some text => text | None => "" end
                         ++ transaction_line "Lend" (Py.strip who) item_name k)
                        ++ transaction_line "Return" (Py.strip who) item_name k))
                 rest
                 ((((((sout ++ [AvailableItems]) ++ [Lent]) ++ [InventorySaved])
                      ++ [BorrowedItems]) ++ [Returned]) ++ [InventorySaved]))).
  { unfold session, perform. unfold bind at 1. rewrite Hlend.
    unfold bind at 1.
    rewrite (return_item_run _ _ _ _ _ _ _ _ _ _ _ _ _ Huser Hnth2 Hpick2 Hamount2).
    rewrite (User_borrow_then_return _ _ _ Hprior'). cbn [fst snd].
    rewrite dict_get_set_same, Hwho. cbn [ret].
    rewrite !dict_set_set.
    replace (q - k + k) with q by lia.
    rewrite (dict_set_same_value inv item_name q Hq).
    rewrite (dict_set_same_value _ _ _ (with_user_get us (Py.strip who))).
    reflexivity. }
  rewrite Hrun. unfold stock.
  cbn [fst snd inventory users transaction_log_txt inventory_txt].
  repeat split; auto.
  intros u it.
  apply (borrowed_with_user (mkWorld inv us f l rest sout)).
Qed.

Lemma lend_then_return_restores_witness :
  let w := mkWorld [("hammer", 5)] [] None None
                   ["alice"; "1"; "3"; "alice "; "1"; "3"] [] in
  stock (snd (session [LendItem; ReturnItem] w)) "hammer" = Some 5 /\
  borrowed (snd (session [LendItem; ReturnItem] w)) "alice" "hammer" = None.
Proof.
  cbv zeta.
  assert (Hok : inventory_ok [("hammer", 5)]).
  { split.
    - repeat constructor; simpl; intuition discriminate.
    - repeat constructor. }
  destruct (lend_then_return_restores
              (mkWorld [("hammer", 5)] [] None None
                       ["alice"; "1"; "3"; "alice "; "1"; "3"] [])
              "alice" "1" "3" "alice " "1" "3" [] "hammer" 5 3 0%nat 0%nat
              Hok eq_refl ltac:(lia) (or_introl eq_refl)
              eq_refl eq_refl eq_refl eq_refl eq_refl eq_refl eq_refl eq_refl)
    as (_ & _ & Hstock & _ & Hb & _).
  split; [exact Hstock|]. rewrite Hb. reflexivity.
Defined.

(** C6, as stated, fails: a user who already held 2 hammers still has
    the hammer entry, at 2, after borrowing 3 and giving 3 back. *)
Lemma lend_then_return_keeps_earlier_holding :
  let w := mkWorld [("hammer", 5)]
                   [("alice", mkUser "alice" [("hammer", 2)])]
                   None None ["alice"; "1"; "3"; "alice"; "1"; "3"] [] in
  let w' := snd (session [LendItem; ReturnItem] w) in
  stock w "hammer" = Some 5 /\
  stock (snd (lend_item w)) "hammer" = Some 2 /\
  borrowed (snd (lend_item w)) "alice" "hammer" = Some 5 /\
  stock w' "hammer" = Some 5 /\
  borrowed w' "alice" "hammer" = Some 2 /\
  borrowed w' "alice" "hammer" <> None.
Proof.
  cbv zeta. repeat split; try (vm_compute; reflexivity).
  vm_compute. discriminate.
Qed.

(** ** Saving and loading the inventory *)

Lemma lines_one (cur body rest : string) :
  Py.str_all not_newline body = true ->
  Py.lines_from cur (body ++ String "010" rest)
  = (cur ++ body ++ String "010" "") :: Py.lines_from "" rest.
Proof.
  revert cur. induction body as [|c r IH]; intros cur.
  - intros _. reflexivity.
  - cbn [Py.str_all]. rewrite andb_true_iff. intros [Hc Hr].
    cbn [append Py.lines_from].
    unfold not_newline in Hc. apply negb_true_iff in Hc. rewrite Hc.
    rewrite (IH _ Hr), append_assoc. reflexivity.
Qed.

Lemma valid_name_plain (k : string) :
  is_valid_item_name k = true -> Py.str_all plain k = true /\ k <> "".
Proof.
  unfold is_valid_item_name. rewrite andb_true_iff. intros [Ha _].
  destruct k; [discriminate|]. split; [|discriminate].
  apply (str_all_impl Py.is_alpha); auto using alpha_plain.
Qed.

Lemma entry_no_newline (k : string) (v : Z) :
  Py.str_all plain k = true ->
  Py.str_all not_newline (k ++ ": " ++ Py.str v) = true.
Proof.
  intros Hk. rewrite !str_all_app. rewrite !andb_true_iff. repeat split.
  - apply (str_all_impl plain); auto.
    intros c Hc. unfold not_newline. now rewrite plain_not_newline.
  - apply (str_all_impl plain); [|apply str_plain].
    intros c Hc. unfold not_newline. now rewrite plain_not_newline.
Qed.

Lemma lines_inventory_text (d : dict Z) :
  Forall (fun k => is_valid_item_name k = true) (dict_keys d) ->
  Py.lines (inventory_text d) = map inventory_line d.
Proof.
  unfold Py.lines, inventory_text.
  induction d as [|[k v] r IH]; intros Hvalid; [reflexivity|].
  inversion Hvalid as [|? ? Hk Hr]; subst.
  destruct (valid_name_plain _ Hk) as [Hplain _].
  cbn [map fold_right]. unfold inventory_line at 1 3. cbn [fst snd].
  replace ((k ++ ": " ++ Py.str v ++ String "010" "")
           ++ fold_right append "" (map inventory_line r))
    with ((k ++ ": " ++ Py.str v)
          ++ String "010" (fold_right append "" (map inventory_line r)))
    by (rewrite !append_assoc; reflexivity).
  rewrite (lines_one _ _ _ (entry_no_newline k v Hplain)).
  rewrite (IH Hr). cbn [append]. now rewrite !append_assoc.
Qed.

Lemma load_inventory_line_entry (k : string) (v : Z) (w : World) :
  is_valid_item_name k = true ->
  load_inventory_line (inventory_line (k, v)) w
  = (Next tt, set_inventory (dict_set (inventory w) k v) w).
Proof.
  intros Hk. destruct (valid_name_plain _ Hk) as [Hplain Hne].
  unfold load_inventory_line, inventory_line. cbn [fst snd].
  rewrite (strip_entry_line k (Py.str v) Hplain Hne (str_plain v)
             (proj2 (str_chars v))).
  unfold Py.split. rewrite (split_entry "" k (Py.str v) Hplain (str_plain v)).
  cbn [append]. unfold int_. rewrite int_str. reflexivity.
Qed.

Lemma load_inventory_lines (d : dict Z) (w : World) :
  Forall (fun k => is_valid_item_name k = true) (dict_keys d) ->
  for_each (map inventory_line d) load_inventory_line w
  = (Next tt,
     set_inventory
       (fold_left (fun acc e => dict_set acc (fst e) (snd e)) d (inventory w)) w).
Proof.
  revert w. induction d as [|[k v] r IH]; intros w Hvalid.
  - destruct w; reflexivity.
  - inversion Hvalid as [|? ? Hk Hr]; subst.
    cbn [map for_each fold_left fst snd]. unfold bind.
    rewrite (load_inventory_line_entry k v w Hk), (IH _ Hr).
    destruct w; reflexivity.
Qed.

Lemma dict_rebuild (acc d : dict Z) :
  NoDup (dict_keys acc ++ dict_keys d) ->
  fold_left (fun acc e => dict_set acc (fst e) (snd e)) d acc = (acc ++ d)%list.
Proof.
  revert acc. induction d as [|[k v] r IH]; intros acc Hnd.
  - simpl. now rewrite app_nil_r.
  - cbn [fold_left fst snd]. rewrite dict_set_absent.
    + rewrite IH; [now rewrite <- app_assoc|].
      unfold dict_keys in *. rewrite map_app, <- app_assoc. exact Hnd.
    + apply dict_get_None_keys. intros Hin.
      apply NoDup_remove_2 in Hnd. apply Hnd. apply in_or_app. now left.
Qed.

(** Replaying the log never touches the inventory. *)
Lemma load_transactions_line_inventory (line : string) (w : World) :
  inventory (snd (load_transactions_line line w)) = inventory w.
Proof.
  unfold load_transactions_line.
  destruct (Py.split " | " (Py.strip line)) as [|a [|b [|c [|d [|e r]]]]];
    try reflexivity.
  unfold int_. destruct (Py.int d) as [q|]; [|reflexivity].
  unfold bind at 1. unfold ret at 1. unfold bind at 1.
  rewrite add_user_if_absent_run.
  destruct (String.eqb a "Lend"); [|reflexivity].
  unfold bind, read, subscript. cbn [users set_users].
  rewrite with_user_get. reflexivity.
Qed.

Lemma load_transactions_lines_inventory (lines : list string) (w : World) :
  inventory (snd (for_each lines load_transactions_line w)) = inventory w.
Proof.
  revert w. induction lines as [|line r IH]; intros w; [reflexivity|].
  cbn [for_each]. unfold bind.
  pose proof (load_transactions_line_inventory line w) as Hline.
  destruct (load_transactions_line line w) as [[[]| |e] w1]; cbn [snd] in *;
    try exact Hline.
  now rewrite IH.
Qed.

Lemma load_transactions_inventory (w : World) :
  inventory (snd (load_transactions w)) = inventory w.
Proof.
  unfold load_transactions. unfold bind, read.
  destruct (transaction_log_txt w) as [text|]; [|reflexivity].
  unfold try_except.
  pose proof (load_transactions_lines_inventory (Py.lines text) w) as Hlines.
  destruct (for_each (Py.lines text) load_transactions_line w)
    as [[[]| |e] w1]; cbn [snd] in *; try exact Hlines.
  destruct e; exact Hlines.
Qed.

Lemma load_inventory_saved (d : dict Z) us l sin sout :
  dict_wf d ->
  Forall (fun k => is_valid_item_name k = true) (dict_keys d) ->
  load_inventory (mkWorld [] us (Some (inventory_text d)) l sin sout)
  = (Next tt,
     mkWorld d us (Some (inventory_text d)) l sin (sout ++ [InventoryLoaded])).
Proof.
  intros Hwf Hvalid.
  unfold load_inventory. unfold bind at 1. unfold read. cbn [inventory_txt].
  unfold try_except. unfold bind.
  rewrite (lines_inventory_text _ Hvalid), (load_inventory_lines _ _ Hvalid).
  cbn [inventory]. rewrite (dict_rebuild [] d Hwf). reflexivity.
Qed.

(** C8.  For an inventory whose keys are valid item names, the file
    written by [save_inventory] loads back, into the empty map a new
    process starts with, as exactly the same mapping, entries in the same
    order; so a process restarted on the saved files has the inventory
    that was saved. *)
Theorem save_then_load_inventory (w : World) :
  dict_wf (inventory w) ->
  Forall (fun k => is_valid_item_name k = true) (dict_keys (inventory w)) ->
  let saved := snd (save_inventory w) in
  let loaded := load_inventory (set_inventory [] saved) in
  fst loaded = Next tt /\
  inventory (snd loaded) = inventory w /\
  stdout (snd loaded) = (stdout saved ++ [InventoryLoaded])%list /\
  forall typed,
    inventory (boot (inventory_txt saved) (transaction_log_txt saved) typed)
    = inventory w.
Proof.
  intros Hwf Hvalid. destruct w as [inv us f l sin sout].
  cbn [inventory] in *. cbv zeta.
  change (snd (save_inventory (mkWorld inv us f l sin sout)))
    with (mkWorld inv us (Some (inventory_text inv)) l sin
                  (sout ++ [InventorySaved])).
  unfold set_inventory.
  cbn [users inventory_txt transaction_log_txt stdin stdout].
  split; [|split; [|split]];
    try (rewrite (load_inventory_saved inv us l sin
                    (sout ++ [InventorySaved]) Hwf Hvalid);
         reflexivity).
  intros typed. unfold boot, InventorySystem_init.
  unfold bind at 1. unfold modify at 1. unfold bind at 1. unfold modify at 1.
  unfold set_inventory, set_users.
  cbn [inventory users inventory_txt transaction_log_txt stdin stdout].
  unfold bind.
  rewrite (load_inventory_saved inv [] l typed [] Hwf Hvalid).
  apply (load_transactions_inventory
           (mkWorld inv [] (Some (inventory_text inv)) l typed [InventoryLoaded])).
Qed.

Lemma save_then_load_inventory_witness :
  let w := mkWorld [("hammer", 5); ("drill", 2)] [] None None [] [] in
  inventory_txt (snd (save_inventory w))
  = Some ("hammer: 5" ++ String "010" "" ++ "drill: 2" ++ String "010" "") /\
  inventory (snd (load_inventory (set_inventory [] (snd (save_inventory w)))))
  = [("hammer", 5); ("drill", 2)].
Proof.
  cbv zeta. split; [reflexivity|].
  refine (proj1 (proj2 (save_then_load_inventory
                          (mkWorld [("hammer", 5); ("drill", 2)] [] None None [] [])
                          _ _))).
  - repeat constructor; simpl; intuition discriminate.
  - repeat constructor.
Defined.

(** ** What the two loads compute *)

Lemma load_inventory_line_run (line : string) (w : World) :
  load_inventory_line line w
  = match parse_entry line with
    | Some e => (Next tt, set_inventory (dict_set (inventory w) (fst e) (snd e)) w)
    | None => (Raise ValueError, w)
    end.
Proof.
  unfold load_inventory_line, parse_entry.
  destruct (Py.split ": " (Py.strip line)) as [|a [|b [|c r]]]; try reflexivity.
  unfold int_. destruct (Py.int b); reflexivity.
Qed.

Lemma load_inventory_lines_run (lines : list string) (w : World) :
  inventory (snd (for_each lines load_inventory_line w))
  = fold_left (fun acc e => dict_set acc (fst e) (snd e))
              (entries_prefix lines) (inventory w).
Proof.
  revert w. induction lines as [|line r IH]; intros w; [reflexivity|].
  cbn [for_each entries_prefix]. unfold bind.
  rewrite load_inventory_line_run.
  destruct (parse_entry line) as [e|]; [|reflexivity].
  rewrite IH. reflexivity.
Qed.

(** Whatever the file holds, [load_inventory] leaves in the map the
    entries that come before the first malformed line. *)
Lemma load_inventory_run (text : string) (w : World) :
  inventory_txt w = Some text ->
  inventory (snd (load_inventory w))
  = fold_left (fun acc e => dict_set acc (fst e) (snd e))
              (entries_prefix (Py.lines text)) (inventory w).
Proof.
  intros Hfile. unfold load_inventory. unfold bind at 1. unfold read.
  rewrite Hfile. unfold try_except, bind.
  pose proof (load_inventory_lines_run (Py.lines text) w) as Hlines.
  destruct (for_each (Py.lines text) load_inventory_line w)
    as [[[]| |e] w1]; cbn [snd] in *; try exact Hlines.
  destruct e; exact Hlines.
Qed.

Lemma load_transactions_line_run (line : string) (w : World) :
  load_transactions_line line w
  = match parse_transaction line with
    | Some t =>
        (Next tt,
         if String.eqb (t_action t) "Lend"
         then set_users
                (dict_set (with_user (users w) (t_user t)) (t_user t)
                   (User_borrow_item (user_record (users w) (t_user t))
                                     (t_item t) (t_quantity t))) w
         else set_users (with_user (users w) (t_user t)) w)
    | None => (Raise ValueError, w)
    end.
Proof.
  unfold load_transactions_line, parse_transaction.
  destruct (Py.split " | " (Py.strip line)) as [|a [|b [|c [|d [|e r]]]]];
    try reflexivity.
  unfold int_. destruct (Py.int d) as [q|]; [|reflexivity].
  cbn [option_map t_action t_user t_item t_quantity].
  unfold bind at 1. unfold ret at 1. unfold bind at 1.
  rewrite add_user_if_absent_run.
  destruct (String.eqb a "Lend"); [|reflexivity].
  unfold bind, read, subscript. cbn [users set_users].
  rewrite with_user_get. destruct w; reflexivity.
Qed.

Lemma borrowed_after_record (line : string) (t : Transaction) (w : World)
      (u i : string) :
  parse_transaction line = Some t ->
  borrowed (snd (load_transactions_line line w)) u i
  = replay_step u i (borrowed w u i) t.
Proof.
  intros Hline. rewrite load_transactions_line_run, Hline.
  cbn [snd]. unfold replay_step.
  destruct (String.eqb (t_action t) "Lend"); cbn [andb].
  - unfold borrowed. cbn [users set_users].
    destruct (String.eqb_spec (t_user t) u) as [<-|Hu]; cbn [andb].
    + rewrite dict_get_set_same. unfold user_record, User_borrow_item.
      destruct (dict_get (users w) (t_user t)) as [usr|]; cbn [borrowed_items].
      * destruct (String.eqb_spec (t_item t) i) as [<-|Hi].
        -- destruct (dict_get (borrowed_items usr) (t_item t)) eqn:E;
             cbn [borrowed_items]; rewrite dict_get_set_same;
             f_equal; lia.
        -- destruct (dict_get (borrowed_items usr) (t_item t));
             cbn [borrowed_items]; rewrite dict_get_set_other; auto.
      * destruct (String.eqb_spec (t_item t) i) as [<-|Hi].
        -- cbn. now rewrite String.eqb_refl.
        -- cbn. destruct (String.eqb_spec (t_item t) i); congruence.
    + rewrite dict_get_set_other by congruence.
      rewrite with_user_get_other by congruence. reflexivity.
  - apply (borrowed_with_user w).
Qed.

Lemma replay_lines (lines : list string) (w : World) (u i : string) :
  borrowed (snd (for_each lines load_transactions_line w)) u i
  = fold_left (replay_step u i) (parsed_prefix lines) (borrowed w u i).
Proof.
  revert w. induction lines as [|line r IH]; intros w; [reflexivity|].
  cbn [for_each parsed_prefix]. unfold bind.
  destruct (parse_transaction line) as [t|] eqn:Hline.
  - pose proof (borrowed_after_record line t w u i Hline) as Hstep.
    rewrite load_transactions_line_run, Hline in *. cbn [snd fold_left] in *.
    rewrite IH, Hstep. reflexivity.
  - rewrite load_transactions_line_run, Hline. reflexivity.
Qed.

Lemma load_transactions_run (text : string) (w : World) (u i : string) :
  transaction_log_txt w = Some text ->
  borrowed (snd (load_transactions w)) u i
  = fold_left (replay_step u i) (parsed_prefix (Py.lines text)) (borrowed w u i).
Proof.
  intros Hfile. unfold load_transactions. unfold bind at 1. unfold read.
  rewrite Hfile. unfold try_except, bind.
  pose proof (replay_lines (Py.lines text) w u i) as Hlines.
  destruct (for_each (Py.lines text) load_transactions_line w)
    as [[[]| |e] w1]; cbn [snd] in *; try exact Hlines.
  destruct e; exact Hlines.
Qed.

Lemma load_inventory_lines_frame (lines : list string) (w : World) :
  (fst (for_each lines load_inventory_line w) = Next tt \/
   fst (for_each lines load_inventory_line w) = Raise ValueError) /\
  users (snd (for_each lines load_inventory_line w)) = users w /\
  transaction_log_txt (snd (for_each lines load_inventory_line w))
  = transaction_log_txt w.
Proof.
  revert w. induction lines as [|line r IH]; intros w.
  - split; [left|split]; reflexivity.
  - cbn [for_each]. unfold bind. rewrite load_inventory_line_run.
    destruct (parse_entry line) as [e|].
    + destruct (IH (set_inventory (dict_set (inventory w) (fst e) (snd e)) w))
        as (Hf & Hu & Hl).
      rewrite Hu, Hl. split; [exact Hf | split; reflexivity].
    + split; [right|split]; reflexivity.
Qed.

(** [load_inventory] always comes back, and touches neither the users
    nor the log. *)
Lemma load_inventory_frame (w : World) :
  fst (load_inventory w) = Next tt /\
  users (snd (load_inventory w)) = users w /\
  transaction_log_txt (snd (load_inventory w)) = transaction_log_txt w.
Proof.
  unfold load_inventory, bind, read.
  destruct (inventory_txt w) as [text|]; [|repeat split; reflexivity].
  unfold try_except.
  pose proof (load_inventory_lines_frame (Py.lines text) w) as (Hf & Hu & Hl).
  destruct (for_each (Py.lines text) load_inventory_line w)
    as [[[]| |e] w1]; cbn [fst snd] in *.
  - repeat split; assumption.
  - destruct Hf; discriminate.
  - destruct Hf as [Hf | Hf]; [discriminate|]. inversion Hf; subst.
    repeat split; assumption.
Qed.

(** Whatever the two files hold, what a user holds of an item after
    start-up is what the "Lend" records of that pair add up to, over the
    records before the first malformed line; "Return" records do not
    count. *)
Lemma replay_counts_lends_only (inventory_file : option string) (log : string)
      (typed : list string) (u i : string) :
  borrowed (boot inventory_file (Some log) typed) u i
  = fold_left (replay_step u i) (parsed_prefix (Py.lines log)) None.
Proof.
  unfold boot, InventorySystem_init.
  unfold bind at 1. unfold modify at 1. unfold bind at 1. unfold modify at 1.
  unfold set_inventory, set_users.
  cbn [inventory users inventory_txt transaction_log_txt stdin stdout].
  unfold bind.
  pose proof (load_inventory_frame
                (mkWorld [] [] inventory_file (Some log) typed []))
    as (Hf & Hu & Hl).
  destruct (load_inventory (mkWorld [] [] inventory_file (Some log) typed []))
    as [[[]| |e] w1] eqn:Hload; cbn [fst snd users transaction_log_txt] in *;
    try discriminate.
  rewrite (load_transactions_run log w1 u i Hl).
  unfold borrowed. now rewrite Hu.
Qed.

(** Whatever the two files hold, the inventory after start-up is made of
    the entries before the first malformed line of the inventory file. *)
Lemma boot_inventory (text : string) (log_file : option string)
      (typed : list string) :
  inventory (boot (Some text) log_file typed)
  = fold_left (fun acc e => dict_set acc (fst e) (snd e))
              (entries_prefix (Py.lines text)) [].
Proof.
  unfold boot, InventorySystem_init.
  unfold bind at 1. unfold modify at 1. unfold bind at 1. unfold modify at 1.
  unfold set_inventory, set_users.
  cbn [inventory users inventory_txt transaction_log_txt stdin stdout].
  unfold bind.
  pose proof (load_inventory_frame
                (mkWorld [] [] (Some text) log_file typed [])) as (Hf & _).
  pose proof (load_inventory_run text
                (mkWorld [] [] (Some text) log_file typed []) eq_refl) as Hinv.
  destruct (load_inventory (mkWorld [] [] (Some text) log_file typed []))
    as [[[]| |e] w1]; cbn [fst snd inventory] in *; try discriminate.
  now rewrite load_transactions_inventory.
Qed.

(** C3.  Loading an inventory file whose second line is malformed
    reports the error and keeps the entry of the first line: the map is
    not emptied. *)
Theorem load_inventory_keeps_partial_inventory :
  let file := "hammer: 5" ++ String "010" "" ++
              "broken" ++ String "010" "" ++
              "drill: 2" ++ String "010" "" in
  let w := boot (Some file) None [] in
  In ErrorLoadingInventory (stdout w) /\
  inventory w = [("hammer", 5)] /\
  inventory w <> [].
Proof.
  cbv zeta. split; [|split].
  - vm_compute. now left.
  - vm_compute. reflexivity.
  - vm_compute. discriminate.
Qed.

(** C2.  A lend of 3 followed by a return of 3 leaves alice with nothing
    borrowed in the running program, and the log it wrote balances to 0;
    a process restarted on the same two files gives alice 3 hammers
    again, because replay applies the "Lend" record only. *)
Theorem load_transactions_ignores_returns :
  let live :=
    snd (session [AddItem; LendItem; ReturnItem]
           (boot None None
                 ["hammer"; "10"; "alice"; "1"; "3"; "alice"; "1"; "3"])) in
  let log := "Lend | alice | hammer | 3" ++ String "010" "" ++
             "Return | alice | hammer | 3" ++ String "010" "" in
  let restarted := boot (inventory_txt live) (transaction_log_txt live) [] in
  transaction_log_txt live = Some log /\
  borrowed live "alice" "hammer" = None /\
  spec_balance log "alice" "hammer" = 0 /\
  borrowed restarted "alice" "hammer" = Some 3 /\
  stock restarted "hammer" = Some 10.
Proof. cbv zeta. repeat split; vm_compute; reflexivity. Qed.

(** ** What each operation may do to the inventory *)

Lemma lower_char_idempotent (c : ascii) :
  Py.lower_char (Py.lower_char c) = Py.lower_char c.
Proof.
  destruct c as [[|] [|] [|] [|] [|] [|] [|] [|]]; vm_compute; reflexivity.
Qed.

Lemma lower_normalized (s : string) : normalized (Py.lower s).
Proof.
  unfold normalized. induction s as [|c r IH]; simpl; [reflexivity|].
  now rewrite lower_char_idempotent, IH.
Qed.

Lemma item_name_loop_inventory (normalise : string -> string)
      (typed : list string) (item_name : string) (w : World) :
  inventory (snd (item_name_loop normalise item_name typed w)) = inventory w.
Proof.
  revert item_name w. induction typed as [|line rest IH]; intros item_name w;
    cbn [item_name_loop];
    destruct (is_valid_item_name item_name); try reflexivity.
  rewrite IH. reflexivity.
Qed.

Lemma item_name_loop_result (normalise : string -> string) (P : string -> Prop)
      (typed : list string) (item_name : string) (w : World) (n : string) :
  P item_name -> (forall line, P (normalise line)) ->
  fst (item_name_loop normalise item_name typed w) = Next n ->
  P n /\ is_valid_item_name n = true.
Proof.
  intros Hname Hnorm. revert item_name w Hname.
  induction typed as [|line rest IH]; intros item_name w Hname;
    cbn [item_name_loop];
    destruct (is_valid_item_name item_name) eqn:E; cbn [fst];
    try discriminate;
    try (intros H; inversion H; subst; now split).
  apply IH. apply Hnorm.
Qed.

Lemma valid_item_name_inventory (normalise : string -> string) (w : World) :
  inventory (snd (valid_item_name normalise w)) = inventory w.
Proof.
  unfold valid_item_name, bind, input.
  destruct (stdin w) as [|line rest]; [reflexivity|].
  rewrite item_name_loop_inventory. reflexivity.
Qed.

Lemma valid_item_name_result (normalise : string -> string) (P : string -> Prop)
      (w : World) (n : string) :
  (forall line, P (normalise line)) ->
  fst (valid_item_name normalise w) = Next n ->
  P n /\ is_valid_item_name n = true.
Proof.
  intros Hnorm. unfold valid_item_name, bind, input.
  destruct (stdin w) as [|line rest]; [discriminate|].
  apply item_name_loop_result; auto.
Qed.

(** [add_item] leaves the inventory alone or adds a positive quantity
    under a lower-case key. *)
Lemma add_item_quantity_loop_stock (item_name : string) (typed : list string)
      (w : World) :
  inventory (snd (add_item_quantity_loop item_name typed w)) = inventory w \/
  exists q, 0 < q /\
    inventory (snd (add_item_quantity_loop item_name typed w))
    = match dict_get (inventory w) item_name with
      | Some held => dict_set (inventory w) item_name (held + q)
      | None => dict_set (inventory w) item_name q
      end.
Proof.
  revert w. induction typed as [|line rest IH]; intros w;
    cbn [add_item_quantity_loop]; [now left|].
  destruct (Py.int line) as [q|].
  - destruct (Z.gtb_spec q 0).
    + right. exists q. split; [lia|].
      unfold add_or_increment. mstep.
      destruct w as [inv us f l sin sout]. cbn.
      destruct (dict_get inv item_name); reflexivity.
    + destruct (IH (put AssertionMessage (set_stdin rest w))) as [Hsame | Hadd];
        [left; exact Hsame | right; exact Hadd].
  - destruct (IH (put EnterValidQuantity (set_stdin rest w))) as [Hsame | Hadd];
      [left; exact Hsame | right; exact Hadd].
Qed.

Lemma add_item_stock (w : World) :
  inventory (snd (add_item w)) = inventory w \/
  exists item_name q,
    is_valid_item_name item_name = true /\ normalized item_name /\ 0 < q /\
    inventory (snd (add_item w))
    = match dict_get (inventory w) item_name with
      | Some held => dict_set (inventory w) item_name (held + q)
      | None => dict_set (inventory w) item_name q
      end.
Proof.
  unfold add_item, def, bind.
  pose proof (valid_item_name_inventory (fun s => Py.lower (Py.strip s)) w) as Hinv.
  pose proof (valid_item_name_result (fun s => Py.lower (Py.strip s)) normalized w) as Hres.
  destruct (valid_item_name (fun s => Py.lower (Py.strip s)) w) as [[n| |e] w1];
    cbn [fst snd] in *; try (left; exact Hinv).
  destruct (Hres n (fun line => lower_normalized _) eq_refl) as [Hn Hvalid].
  destruct (add_item_quantity_loop_stock n (stdin w1) w1) as [H | [q [Hq H]]].
  - left. rewrite <- Hinv, <- H.
    destruct (add_item_quantity_loop n (stdin w1) w1) as [[[]| |e] w2]; reflexivity.
  - right. exists n, q. split; [exact Hvalid|]. split; [exact Hn|].
    split; [exact Hq|].
    rewrite <- Hinv, <- H.
    destruct (add_item_quantity_loop n (stdin w1) w1) as [[[]| |e] w2]; reflexivity.
Qed.

(** [update_item] leaves the inventory alone or writes a quantity that
    is not negative under a key the inventory has. *)
Lemma update_item_stock (w : World) :
  inventory (snd (update_item w)) = inventory w \/
  exists item_name held v,
    is_valid_item_name item_name = true /\
    dict_get (inventory w) item_name = Some held /\ 0 <= v /\
    inventory (snd (update_item w)) = dict_set (inventory w) item_name v.
Proof.
  unfold update_item, def, bind.
  pose proof (valid_item_name_inventory (fun s => s) w) as Hinv.
  pose proof (valid_item_name_result (fun s => s) (fun _ => True) w) as Hres.
  destruct (valid_item_name (fun s => s) w) as [[n| |e] w1];
    cbn [fst snd] in *; try (left; exact Hinv).
  destruct (Hres n (fun _ => I) eq_refl) as [_ Hvalid].
  destruct w1 as [inv us f l sin sout]. cbn [inventory] in Hinv.
  rewrite <- Hinv. mstep. unfold dict_mem.
  destruct (dict_get inv n) as [held|] eqn:Eh; [|now left].
  destruct sin as [|line sin]; [now left|].
  destruct (Py.int line) as [v|]; [|now left].
  destruct (Z.geb_spec v 0); [|now left].
  right. exists n, held, v. repeat split; auto.
Qed.

(** [lend_item] leaves the inventory alone or takes a positive
    quantity, no more than the listing showed, from a key the inventory
    has. *)
Lemma lend_item_stock (w : World) :
  inventory (snd (lend_item w)) = inventory w \/
  exists item_name held available_quantity k,
    dict_get (inventory w) item_name = Some held /\
    dict_get (available_items (inventory w)) item_name = Some available_quantity /\
    0 < k <= available_quantity /\
    inventory (snd (lend_item w)) = dict_set (inventory w) item_name (held - k).
Proof.
  destruct w as [inv us f l sin sout].
  destruct sin as [|who sin]; [now left|].
  unfold lend_item. mstep. rewrite add_user_if_absent_run. mstep.
  destruct (available_items inv) eqn:Eav; [now left|].
  rewrite <- Eav.
  destruct sin as [|pick sin]; [now left|].
  destruct (Py.int pick) as [n|]; [|now left].
  destruct ((n - 1 <? 0) || (n - 1 >=? dict_len (available_items inv)));
    [now left|].
  destruct (nth_error (dict_keys (available_items inv)) (Z.to_nat (n - 1)))
    as [chosen|]; [|now left].
  destruct (dict_get (available_items inv) chosen) as [aq|] eqn:Eaq; [|now left].
  destruct sin as [|amount sin]; [now left|].
  destruct (Py.int amount) as [k|]; [|now left].
  destruct ((k <=? 0) || (k >? aq)) eqn:Ek; [now left|].
  apply orb_false_iff in Ek. rewrite Z.leb_gt, Z.gtb_ltb, Z.ltb_ge in Ek.
  rewrite with_user_get.
  destruct (dict_get inv chosen) as [held|] eqn:Eh; [|now left].
  right. exists chosen, held, aq, k.
  split; [exact Eh|]. split; [exact Eaq|]. split; [lia | reflexivity].
Qed.

(** [return_item] leaves the inventory alone or adds the typed
    quantity, of either sign, to a key the inventory has. *)
Lemma return_item_stock (w : World) :
  inventory (snd (return_item w)) = inventory w \/
  exists item_name held amount k,
    dict_get (inventory w) item_name = Some held /\
    nth_error (stdin w) 2 = Some amount /\ Py.int amount = Some k /\
    inventory (snd (return_item w)) = dict_set (inventory w) item_name (held + k).
Proof.
  destruct w as [inv us f l sin sout].
  unfold return_item. mstep.
  destruct sin as [|who sin]; [now left|].
  destruct (dict_get us (Py.strip who)) as [user|]; [|now left].
  destruct (borrowed_items user) as [|e0 held_items] eqn:Eb; [now left|].
  rewrite <- Eb.
  destruct sin as [|pick sin]; [now left|].
  destruct (Py.int pick) as [n|]; [|now left].
  destruct ((n - 1 <? 0) || (n - 1 >=? dict_len (borrowed_items user)));
    [now left|].
  destruct (nth_error (dict_keys (borrowed_items user)) (Z.to_nat (n - 1)))
    as [chosen|]; [|now left].
  destruct sin as [|amount sin]; [now left|].
  destruct (Py.int amount) as [k|] eqn:Ek; [|now left].
  destruct (User_return_item user chosen k) as [user' ok].
  destruct ok; [|now left].
  destruct (dict_get inv chosen) as [held|] eqn:Eh; [|now left].
  right. exists chosen, held, amount, k.
  split; [exact Eh|]. split; [reflexivity|]. split; [exact Ek | reflexivity].
Qed.

(** ** Item names *)

Lemma isalpha_str_all (s : string) :
  Py.isalpha s = (Py.str_all Py.is_alpha s && negb (String.length s =? 0)%nat).
Proof. destruct s; simpl; [reflexivity | now rewrite andb_true_r]. Qed.

Lemma add_item_rejects (s : string) (w : World) (rest : list string) :
  is_valid_item_name (Py.lower (Py.strip s)) = false ->
  add_item (set_stdin (s :: rest) w)
  = add_item (set_stdin rest (put InvalidItemName w)).
Proof.
  intros H. unfold add_item, def, valid_item_name, bind, input.
  destruct rest as [|line rest]; cbn [stdin set_stdin put item_name_loop];
    rewrite H; reflexivity.
Qed.

Lemma update_item_rejects (s : string) (w : World) (rest : list string) :
  is_valid_item_name s = false ->
  update_item (set_stdin (s :: rest) w)
  = update_item (set_stdin rest (put InvalidItemName w)).
Proof.
  intros H. unfold update_item, def, valid_item_name, bind, input.
  destruct rest as [|line rest]; cbn [stdin set_stdin put item_name_loop];
    rewrite H; reflexivity.
Qed.

(** C9.  The validity check accepts a name exactly when all its
    characters are letters and it is longer than two characters.  The
    names "ab", "item1" and "" are refused by adding and by updating;
    and whatever is typed, the only key either operation ever writes in
    the inventory is a name the check accepts. *)
Theorem is_valid_item_name_spec :
  (forall item_name : string,
     is_valid_item_name item_name = true <->
     Py.str_all Py.is_alpha item_name = true /\
     (2 < String.length item_name)%nat) /\
  rejected_by_add_and_update "ab" /\
  rejected_by_add_and_update "item1" /\
  rejected_by_add_and_update "" /\
  forall (op : operation) (w : World),
    op = AddItem \/ op = UpdateItem ->
    inventory (snd (perform op w)) = inventory w \/
    exists item_name q,
      is_valid_item_name item_name = true /\
      inventory (snd (perform op w)) = dict_set (inventory w) item_name q.
Proof.
  split; [|repeat split;
           try ((apply add_item_rejects || apply update_item_rejects);
                reflexivity)].
  - intros item_name. unfold is_valid_item_name, Py.len.
    rewrite isalpha_str_all, !andb_true_iff, negb_true_iff.
    rewrite Nat.eqb_neq, Z.gtb_ltb, Z.ltb_lt.
    generalize (Py.str_all Py.is_alpha item_name) (String.length item_name).
    intros b n. split; intros [H1 H2]; repeat split; try tauto; lia.
  - intros op w [-> | ->]; cbn [perform].
    + destruct (add_item_stock w) as [Hsame | (k & q & Hvalid & _ & _ & Hset)];
        [now left|].
      right. destruct (dict_get (inventory w) k) as [held|].
      * exists k, (held + q). now split.
      * exists k, q. now split.
    + destruct (update_item_stock w)
        as [Hsame | (k & held & v & Hvalid & _ & _ & Hset)]; [now left|].
      right. exists k, v. now split.
Qed.

Lemma is_valid_item_name_spec_witness :
  inventory (snd (add_item (mkWorld [] [] None None ["item1"; "hammer"; "4"] [])))
  = [("hammer", 4)] /\
  is_valid_item_name "hammer" = true.
Proof.
  split; [reflexivity|].
  destruct (proj2 (proj2 (proj2 (proj2 is_valid_item_name_spec)))
              AddItem (mkWorld [] [] None None ["item1"; "hammer"; "4"] [])
              (or_introl eq_refl))
    as [Hsame | (k & q & Hvalid & Hset)].
  - discriminate Hsame.
  - cbn in Hset. inversion Hset; subst. exact Hvalid.
Defined.

(** ** Invariants of the inventory *)

Lemma dict_keys_set_absent {V} (d : dict V) (k : string) (v : V) :
  dict_get d k = None -> dict_keys (dict_set d k v) = (dict_keys d ++ [k])%list.
Proof.
  intros H. rewrite (dict_set_absent _ _ _ H). unfold dict_keys.
  now rewrite map_app.
Qed.

Lemma inventory_ok_set_existing (d : dict Z) (k : string) (held v : Z) :
  inventory_ok d -> dict_get d k = Some held -> inventory_ok (dict_set d k v).
Proof.
  intros [Hwf Hlow] Hk. unfold inventory_ok, dict_wf.
  rewrite dict_keys_set_present; [now split|].
  apply dict_mem_get. eauto.
Qed.

Lemma inventory_ok_set_normalized (d : dict Z) (k : string) (v : Z) :
  inventory_ok d -> normalized k -> inventory_ok (dict_set d k v).
Proof.
  intros Hok Hk. destruct (dict_get d k) as [held|] eqn:E.
  - now apply (inventory_ok_set_existing d k held).
  - destruct Hok as [Hwf Hlow]. unfold inventory_ok, dict_wf.
    rewrite (dict_keys_set_absent _ _ _ E). split.
    + apply NoDup_app; [exact Hwf | repeat constructor; simpl; tauto |].
      intros x Hx [<- | []]. now apply dict_get_None_keys in E.
    + apply Forall_app. split; [exact Hlow | now constructor].
Qed.

Lemma quantities_nonneg_set (d : dict Z) (k : string) (v : Z) :
  quantities_nonneg d -> 0 <= v -> quantities_nonneg (dict_set d k v).
Proof.
  intros Hd Hv item q. destruct (String.eqb_spec item k) as [->|Hne].
  - rewrite dict_get_set_same. intros [= <-]. exact Hv.
  - rewrite dict_get_set_other by exact Hne. apply Hd.
Qed.

(** The inventory stays a dictionary of the data model, whatever is
    typed. *)
Lemma inventory_ok_preserved (op : operation) (w : World) :
  inventory_ok (inventory w) ->
  inventory_ok (inventory (snd (perform op w))).
Proof.
  intros Hok. destruct op; cbn [perform].
  - destruct (add_item_stock w) as [-> | (k & q & _ & Hk & _ & ->)]; auto.
    destruct (dict_get (inventory w) k); now apply inventory_ok_set_normalized.
  - destruct (lend_item_stock w) as [-> | (k & held & aq & q & Hk & _ & _ & ->)];
      auto.
    now apply (inventory_ok_set_existing _ _ held).
  - destruct (return_item_stock w) as [-> | (k & held & a & q & Hk & _ & _ & ->)];
      auto.
    now apply (inventory_ok_set_existing _ _ held).
  - destruct (update_item_stock w) as [-> | (k & held & v & _ & Hk & _ & ->)];
      auto.
    now apply (inventory_ok_set_existing _ _ held).
Qed.

Lemma session_inventory_ok (ops : list operation) (w : World) :
  inventory_ok (inventory w) ->
  inventory_ok (inventory (snd (session ops w))).
Proof.
  revert w. induction ops as [|op r IH]; intros w Hok; [exact Hok|].
  cbn [session]. unfold bind.
  pose proof (inventory_ok_preserved op w Hok) as Hstep.
  destruct (perform op w) as [[[]| |e] w1]; cbn [snd] in *; auto.
Qed.

(** Adding, updating and lending keep every quantity at zero or above;
    so does a return whose typed quantity is not negative. *)
Lemma quantities_nonneg_preserved (op : operation) (w : World) :
  inventory_ok (inventory w) ->
  quantities_nonneg (inventory w) ->
  (op = ReturnItem ->
   forall amount k,
     nth_error (stdin w) 2 = Some amount -> Py.int amount = Some k -> 0 <= k) ->
  quantities_nonneg (inventory (snd (perform op w))).
Proof.
  intros Hok Hnn Hret. destruct op; cbn [perform].
  - destruct (add_item_stock w) as [-> | (k & q & _ & _ & Hq & ->)]; auto.
    destruct (dict_get (inventory w) k) as [held|] eqn:E;
      apply quantities_nonneg_set; auto; try lia.
    specialize (Hnn k held E). lia.
  - destruct (lend_item_stock w)
      as [-> | (k & held & aq & q & Hk & Haq & Hq & ->)]; auto.
    apply quantities_nonneg_set; auto.
    rewrite (available_items_in_stock _ Hok) in Haq.
    apply dict_get_In in Haq. apply filter_In in Haq. destruct Haq as [Hin _].
    apply (dict_wf_get _ _ _ (proj1 Hok)) in Hin.
    assert (aq = held) by congruence. lia.
  - destruct (return_item_stock w)
      as [-> | (k & held & a & q & Hk & Ha & Hq & ->)]; auto.
    apply quantities_nonneg_set; auto.
    specialize (Hnn k held Hk). specialize (Hret eq_refl a q Ha Hq). lia.
  - destruct (update_item_stock w) as [-> | (k & held & v & _ & _ & Hv & ->)];
      auto.
    now apply quantities_nonneg_set.
Qed.

(** C1.  Starting with no files, adding 10 hammers, lending 3 of them to
    alice and then accepting a return of -10 from alice leaves -3 hammers
    in stock: the return path takes a negative quantity, which the
    lending path and the update path refuse. *)
Theorem return_item_negative_quantity_breaks_stock :
  let start :=
    boot None None ["hammer"; "10"; "alice"; "1"; "3"; "alice"; "1"; "-10"] in
  let lent := snd (session [AddItem; LendItem] start) in
  let final := session [AddItem; LendItem; ReturnItem] start in
  quantities_nonneg (inventory start) /\
  stock lent "hammer" = Some 7 /\
  borrowed lent "alice" "hammer" = Some 3 /\
  fst final = Next tt /\
  stock (snd final) "hammer" = Some (-3) /\
  borrowed (snd final) "alice" "hammer" = Some 13 /\
  inventory_txt (snd final) = Some ("hammer: -3" ++ String "010" "") /\
  ~ quantities_nonneg (inventory (snd final)).
Proof.
  cbv zeta. repeat split; try (vm_compute; reflexivity).
  - intros item_name q H. vm_compute in H. discriminate.
  - intros H. specialize (H "hammer" (-3) eq_refl). lia.
Qed.

(** * Further properties of the operations *)

(** ** Every path of [add_item] *)

Lemma store_unchanged_refl (w : World) : store_unchanged w w.
Proof. repeat split. Qed.

Lemma store_unchanged_trans (w1 w2 w3 : World) :
  store_unchanged w1 w2 -> store_unchanged w2 w3 -> store_unchanged w1 w3.
Proof.
  unfold store_unchanged. intros (A1 & A2 & A3 & A4) (B1 & B2 & B3 & B4).
  repeat split; congruence.
Qed.

Lemma item_name_loop_store (normalise : string -> string)
      (typed : list string) (item_name : string) (w : World) :
  store_unchanged w (snd (item_name_loop normalise item_name typed w)).
Proof.
  revert item_name w. induction typed as [|line rest IH]; intros item_name w;
    cbn [item_name_loop];
    destruct (is_valid_item_name item_name); try (repeat split; fail).
  eapply store_unchanged_trans; [|apply IH]. repeat split.
Qed.

Lemma valid_item_name_store (normalise : string -> string) (w : World) :
  store_unchanged w (snd (valid_item_name normalise w)).
Proof.
  unfold valid_item_name, bind, input.
  destruct (stdin w) as [|line rest]; [repeat split|].
  eapply store_unchanged_trans; [|apply item_name_loop_store]. repeat split.
Qed.

Lemma item_name_loop_flow (normalise : string -> string)
      (typed : list string) (item_name : string) (w : World) :
  (exists n, fst (item_name_loop normalise item_name typed w) = Next n) \/
  fst (item_name_loop normalise item_name typed w) = Raise EOFError.
Proof.
  revert item_name w. induction typed as [|line rest IH]; intros item_name w;
    cbn [item_name_loop];
    destruct (is_valid_item_name item_name); cbn [fst]; eauto.
Qed.

Lemma valid_item_name_flow (normalise : string -> string) (w : World) :
  (exists n, fst (valid_item_name normalise w) = Next n) \/
  fst (valid_item_name normalise w) = Raise EOFError.
Proof.
  unfold valid_item_name, bind, input.
  destruct (stdin w) as [|line rest]; [now right|].
  apply item_name_loop_flow.
Qed.

Lemma add_item_quantity_loop_cases (item_name : string) (typed : list string)
      (w : World) :
  let r := add_item_quantity_loop item_name typed w in
  (fst r = Raise EOFError /\ store_unchanged w (snd r)) \/
  (exists q, 0 < q /\ fst r = Next tt /\
     inventory (snd r) = added (inventory w) item_name q /\
     users (snd r) = users w /\
     transaction_log_txt (snd r) = transaction_log_txt w /\
     in_sync (snd r)).
Proof.
  cbv zeta. revert w. induction typed as [|line rest IH]; intros w;
    cbn [add_item_quantity_loop]; [left; repeat split|].
  destruct (Py.int line) as [q|].
  - destruct (Z.gtb_spec q 0).
    + right. exists q. split; [lia|].
      unfold add_or_increment, added, in_sync. mstep.
      destruct w as [inv us f l sin sout]. cbn.
      destruct (dict_get inv item_name); repeat split.
    + destruct (IH (put AssertionMessage (set_stdin rest w)))
        as [[Hf Hs] | (q' & Hq & Hf & Hi & Hu & Hl & Hsync)].
      * left. split; [exact Hf|].
        eapply store_unchanged_trans; [|exact Hs]. repeat split.
      * right. exists q'. repeat split; assumption.
  - destruct (IH (put EnterValidQuantity (set_stdin rest w)))
      as [[Hf Hs] | (q' & Hq & Hf & Hi & Hu & Hl & Hsync)].
    + left. split; [exact Hf|].
      eapply store_unchanged_trans; [|exact Hs]. repeat split.
    + right. exists q'. repeat split; assumption.
Qed.

Lemma add_item_cases (w : World) :
  (fst (add_item w) = Raise EOFError /\ store_unchanged w (snd (add_item w))) \/
  (exists item_name q,
     is_valid_item_name item_name = true /\ normalized item_name /\ 0 < q /\
     fst (add_item w) = Next tt /\
     inventory (snd (add_item w)) = added (inventory w) item_name q /\
     users (snd (add_item w)) = users w /\
     transaction_log_txt (snd (add_item w)) = transaction_log_txt w /\
     in_sync (snd (add_item w))).
Proof.
  unfold add_item, def, bind.
  pose proof (valid_item_name_store (fun s => Py.lower (Py.strip s)) w) as Hst.
  pose proof (valid_item_name_result (fun s => Py.lower (Py.strip s)) normalized w)
    as Hres.
  pose proof (valid_item_name_flow (fun s => Py.lower (Py.strip s)) w) as Hflow.
  destruct (valid_item_name (fun s => Py.lower (Py.strip s)) w) as [[n| |e] w1];
    cbn [fst snd] in *.
  - destruct (Hres n (fun line => lower_normalized _) eq_refl) as [Hn Hvalid].
    pose proof (add_item_quantity_loop_cases n (stdin w1) w1) as Hloop.
    cbv zeta in Hloop.
    destruct (add_item_quantity_loop n (stdin w1) w1) as [[[]| |e] w2];
      cbn [fst snd] in *;
      destruct Hloop as [[Hf Hs] | (q & Hq & Hf & Hi & Hu & Hl & Hsync)];
      try discriminate.
    + right. exists n, q. destruct Hst as (S1 & S2 & S3 & S4).
      repeat split; try assumption; congruence.
    + left. split; [exact Hf|]. eapply store_unchanged_trans; eassumption.
  - destruct Hflow as [[n Hn] | Hn]; discriminate.
  - destruct Hflow as [[n Hn] | Hn]; [discriminate|].
    inversion Hn; subst. left. split; [reflexivity | exact Hst].
Qed.

(** ** Every path of [update_item], [lend_item] and [return_item] *)

Lemma update_item_cases (w : World) :
  ((fst (update_item w) = Next tt \/ fst (update_item w) = Raise EOFError) /\
   store_unchanged w (snd (update_item w))) \/
  (exists item_name held v,
     is_valid_item_name item_name = true /\
     dict_get (inventory w) item_name = Some held /\ 0 <= v /\
     fst (update_item w) = Next tt /\
     inventory (snd (update_item w)) = dict_set (inventory w) item_name v /\
     users (snd (update_item w)) = users w /\
     transaction_log_txt (snd (update_item w)) = transaction_log_txt w /\
     in_sync (snd (update_item w))).
Proof.
  unfold update_item, def, bind.
  pose proof (valid_item_name_store (fun s => s) w) as Hst.
  pose proof (valid_item_name_result (fun s => s) (fun _ => True) w) as Hres.
  pose proof (valid_item_name_flow (fun s => s) w) as Hflow.
  destruct (valid_item_name (fun s => s) w) as [[n| |e] w1];
    cbn [fst snd] in *.
  - destruct (Hres n (fun _ => I) eq_refl) as [_ Hvalid].
    destruct Hst as (S1 & S2 & S3 & S4).
    destruct w1 as [inv us f l sin sout].
    cbn [inventory users inventory_txt transaction_log_txt] in *.
    unfold store_unchanged, in_sync. rewrite <- S1, <- S2, <- S3, <- S4.
    mstep. unfold dict_mem.
    destruct (dict_get inv n) as [held|] eqn:Eh; [|left; repeat split; now left].
    destruct sin as [|line sin]; [left; repeat split; now right|].
    destruct (Py.int line) as [v|]; [|left; repeat split; now left].
    destruct (Z.geb_spec v 0); [|left; repeat split; now left].
    right. exists n, held, v. repeat split; auto.
  - destruct Hflow as [[n Hn] | Hn]; discriminate.
  - destruct Hflow as [[n Hn] | Hn]; [discriminate|]. inversion Hn; subst.
    left. split; [now right | exact Hst].
Qed.

Lemma nth_error_in_range {A} (l : list A) (i len : Z) :
  len = Z.of_nat (List.length l) ->
  (i <? 0) || (i >=? len) = false ->
  exists x, nth_error l (Z.to_nat i) = Some x.
Proof.
  intros -> H. apply orb_false_iff in H.
  rewrite Z.ltb_ge, Z.geb_leb, Z.leb_gt in H.
  destruct (nth_error l (Z.to_nat i)) as [x|] eqn:E; [eauto|].
  apply nth_error_None in E. lia.
Qed.

Lemma dict_get_of_key {V} (d : dict V) (i : nat) (k : string) :
  nth_error (dict_keys d) i = Some k -> exists v, dict_get d k = Some v.
Proof.
  intros H. destruct (dict_get d k) as [v|] eqn:E; [eauto|].
  apply dict_get_None_keys in E. exfalso. apply E.
  eapply nth_error_In; eassumption.
Qed.

Lemma lend_item_cases (w : World) :
  ((fst (lend_item w) = Next tt \/ fst (lend_item w) = Raise EOFError) /\
   inventory (snd (lend_item w)) = inventory w /\
   inventory_txt (snd (lend_item w)) = inventory_txt w /\
   transaction_log_txt (snd (lend_item w)) = transaction_log_txt w /\
   (users (snd (lend_item w)) = users w \/
    exists line, hd_error (stdin w) = Some line /\
      users (snd (lend_item w)) = with_user (users w) (Py.strip line))) \/
  (exists line item_name held available_quantity k,
     hd_error (stdin w) = Some line /\
     dict_get (inventory w) item_name = Some held /\
     dict_get (available_items (inventory w)) item_name = Some available_quantity /\
     0 < k <= available_quantity /\
     fst (lend_item w) = Next tt /\
     inventory (snd (lend_item w)) = dict_set (inventory w) item_name (held - k) /\
     users (snd (lend_item w))
     = dict_set (with_user (users w) (Py.strip line)) (Py.strip line)
                (User_borrow_item (user_record (users w) (Py.strip line))
                                  item_name k) /\
     transaction_log_txt (snd (lend_item w))
     = logged (transaction_log_txt w) "Lend" (Py.strip line) item_name k /\
     in_sync (snd (lend_item w))) \/
  (exists line item_name available_quantity k,
     hd_error (stdin w) = Some line /\
     dict_get (inventory w) item_name = None /\
     dict_get (available_items (inventory w)) item_name = Some available_quantity /\
     fst (lend_item w) = Raise (KeyError item_name) /\
     inventory (snd (lend_item w)) = inventory w /\
     inventory_txt (snd (lend_item w)) = inventory_txt w /\
     transaction_log_txt (snd (lend_item w)) = transaction_log_txt w /\
     users (snd (lend_item w))
     = dict_set (with_user (users w) (Py.strip line)) (Py.strip line)
                (User_borrow_item (user_record (users w) (Py.strip line))
                                  item_name k)).
Proof.
  destruct w as [inv us f l sin sout].
  destruct sin as [|who sin]; [left; repeat split; [now right | now left]|].
  unfold lend_item. mstep. rewrite add_user_if_absent_run. mstep.
  assert (Hwho : exists line, Some who = Some line /\
                   with_user us (Py.strip who) = with_user us (Py.strip line))
    by eauto.
  destruct (available_items inv) eqn:Eav;
    [left; repeat split; [now left | now right]|].
  rewrite <- Eav.
  destruct sin as [|pick sin]; [left; repeat split; [now right | now right]|].
  destruct (Py.int pick) as [n|]; [|left; repeat split; [now left | now right]].
  destruct ((n - 1 <? 0) || (n - 1 >=? dict_len (available_items inv))) eqn:Erange;
    [left; repeat split; [now left | now right]|].
  destruct (nth_error_in_range (dict_keys (available_items inv)) (n - 1) _
              ltac:(unfold dict_len, dict_keys; now rewrite length_map) Erange)
    as [chosen Hchosen].
  rewrite Hchosen.
  destruct (dict_get_of_key _ _ _ Hchosen) as [aq Eaq]. rewrite Eaq.
  destruct sin as [|amount sin]; [left; repeat split; [now right | now right]|].
  destruct (Py.int amount) as [k|]; [|left; repeat split; [now left | now right]].
  destruct ((k <=? 0) || (k >? aq)) eqn:Ek;
    [left; repeat split; [now left | now right]|].
  apply orb_false_iff in Ek. rewrite Z.leb_gt, Z.gtb_ltb, Z.ltb_ge in Ek.
  rewrite with_user_get.
  destruct (dict_get inv chosen) as [held|] eqn:Eh.
  - right. left. exists who, chosen, held, aq, k.
    split; [reflexivity|]. split; [exact Eh|]. split; [exact Eaq|].
    split; [lia|]. repeat split.
  - right. right. exists who, chosen, aq, k.
    split; [reflexivity|]. split; [exact Eh|]. split; [exact Eaq|]. repeat split.
Qed.

Lemma return_item_cases (w : World) :
  ((fst (return_item w) = Next tt \/ fst (return_item w) = Raise EOFError) /\
   store_unchanged w (snd (return_item w))) \/
  (exists line user user' item_name held amount k,
     hd_error (stdin w) = Some line /\
     dict_get (users w) (Py.strip line) = Some user /\
     User_return_item user item_name k = (user', true) /\
     nth_error (stdin w) 2 = Some amount /\ Py.int amount = Some k /\
     dict_get (inventory w) item_name = Some held /\
     fst (return_item w) = Next tt /\
     inventory (snd (return_item w)) = dict_set (inventory w) item_name (held + k) /\
     users (snd (return_item w)) = dict_set (users w) (Py.strip line) user' /\
     transaction_log_txt (snd (return_item w))
     = logged (transaction_log_txt w) "Return" (Py.strip line) item_name k /\
     in_sync (snd (return_item w))) \/
  (exists line user user' item_name k,
     hd_error (stdin w) = Some line /\
     dict_get (users w) (Py.strip line) = Some user /\
     User_return_item user item_name k = (user', true) /\
     dict_get (inventory w) item_name = None /\
     fst (return_item w) = Raise (KeyError item_name) /\
     inventory (snd (return_item w)) = inventory w /\
     inventory_txt (snd (return_item w)) = inventory_txt w /\
     transaction_log_txt (snd (return_item w)) = transaction_log_txt w /\
     users (snd (return_item w)) = dict_set (users w) (Py.strip line) user').
Proof.
  destruct w as [inv us f l sin sout].
  unfold return_item. mstep.
  destruct sin as [|who sin]; [left; repeat split; now right|].
  destruct (dict_get us (Py.strip who)) as [user|] eqn:Eu;
    [|left; repeat split; now left].
  destruct (borrowed_items user) as [|e0 held_items] eqn:Eb;
    [left; repeat split; now left|].
  rewrite <- Eb.
  destruct sin as [|pick sin]; [left; repeat split; now right|].
  destruct (Py.int pick) as [n|]; [|left; repeat split; now left].
  destruct ((n - 1 <? 0) || (n - 1 >=? dict_len (borrowed_items user))) eqn:Erange;
    [left; repeat split; now left|].
  destruct (nth_error_in_range (dict_keys (borrowed_items user)) (n - 1) _
              ltac:(unfold dict_len, dict_keys; now rewrite length_map) Erange)
    as [chosen Hchosen].
  rewrite Hchosen.
  destruct sin as [|amount sin]; [left; repeat split; now right|].
  destruct (Py.int amount) as [k|] eqn:Ek; [|left; repeat split; now left].
  destruct (User_return_item user chosen k) as [user' ok] eqn:Er.
  destruct ok.
  - destruct (dict_get inv chosen) as [held|] eqn:Eh.
    + right. left. exists who, user, user', chosen, held, amount, k.
      repeat split; assumption.
    + right. right. exists who, user, user', chosen, k.
      repeat split; assumption.
  - left. assert (user' = user).
    { unfold User_return_item in Er.
      destruct (dict_get (borrowed_items user) chosen) as [h|];
        [|now inversion Er].
      destruct (h >=? k); [|now inversion Er].
      destruct (h - k =? 0); inversion Er. }
    subst user'. split; [now left|]. repeat split. cbn [snd users].
    now apply dict_set_same_value.
Qed.

(** ** What the operations raise *)

Lemma available_item_in_inventory (inv : dict Z) (item_name : string) (q : Z) :
  inventory_ok inv ->
  dict_get (available_items inv) item_name = Some q ->
  dict_get inv item_name = Some q.
Proof.
  intros Hok H. rewrite (available_items_in_stock _ Hok) in H.
  apply dict_get_In in H. apply filter_In in H. destruct H as [Hin _].
  now apply (dict_wf_get _ _ _ (proj1 Hok)).
Qed.

(** X1.  The only exceptions that escape the four operations are
    [EOFError], when the typed lines run out, and [KeyError] on an item
    that is not a key of the inventory, from a return or from a lend; a
    lend raises it only when the inventory is not one of the data model
    (lower-case keys, each once). *)
Theorem operations_raise_only (op : operation) (w : World) (e : exn) :
  fst (perform op w) = Raise e ->
  e = EOFError \/
  exists item_name,
    e = KeyError item_name /\ stock w item_name = None /\
    (op = ReturnItem \/ (op = LendItem /\ ~ inventory_ok (inventory w))).
Proof.
  intros Hraise. destruct op; cbn [perform] in Hraise.
  - destruct (add_item_cases w) as [[Hf _] | (n & q & _ & _ & _ & Hf & _)];
      rewrite Hf in Hraise; inversion Hraise; now left.
  - destruct (lend_item_cases w)
      as [([Hf | Hf] & _) | [(ln & it & h & aq & k & _ & _ & _ & _ & Hf & _)
                            | (ln & it & aq & k & _ & Hnone & Hav & Hf & _)]];
      rewrite Hf in Hraise; inversion Hraise; subst; try (now left).
    right. exists it. split; [reflexivity|]. split; [exact Hnone|].
    right. split; [reflexivity|]. intros Hok.
    rewrite (available_item_in_inventory _ _ _ Hok Hav) in Hnone. discriminate.
  - destruct (return_item_cases w)
      as [([Hf | Hf] & _) | [(ln & u & u' & it & h & a & k & _ & _ & _ & _ & _ & _ & Hf & _)
                            | (ln & u & u' & it & k & _ & _ & _ & Hnone & Hf & _)]];
      rewrite Hf in Hraise; inversion Hraise; subst; try (now left).
    right. exists it. split; [reflexivity|]. split; [exact Hnone | now left].
  - destruct (update_item_cases w)
      as [([Hf | Hf] & _) | (n & h & v & _ & _ & _ & Hf & _)];
      rewrite Hf in Hraise; inversion Hraise; now left.
Qed.

Lemma operations_raise_only_witness :
  fst (perform LendItem (mkWorld [("Hammer", 5)] [] None None ["bob"; "1"; "2"] []))
  = Raise (KeyError "hammer") /\
  (KeyError "hammer" = EOFError \/
   exists item_name,
     KeyError "hammer" = KeyError item_name /\
     stock (mkWorld [("Hammer", 5)] [] None None ["bob"; "1"; "2"] []) item_name
     = None /\
     (LendItem = ReturnItem \/
      (LendItem = LendItem /\ ~ inventory_ok [("Hammer", 5)]))).
Proof.
  split; [reflexivity|].
  exact (operations_raise_only LendItem
           (mkWorld [("Hammer", 5)] [] None None ["bob"; "1"; "2"] [])
           (KeyError "hammer") eq_refl).
Defined.

(** ** Write-through *)

Lemma perform_in_sync (op : operation) (w : World) :
  (inventory (snd (perform op w)) <> inventory w -> in_sync (snd (perform op w))) /\
  (in_sync w -> in_sync (snd (perform op w))).
Proof.
  assert (Hkeep : forall w', inventory w' = inventory w ->
                             inventory_txt w' = inventory_txt w ->
                             (inventory w' <> inventory w -> in_sync w') /\
                             (in_sync w -> in_sync w')).
  { intros w' Hi Hf. split; [congruence|]. unfold in_sync. congruence. }
  destruct op; cbn [perform].
  - destruct (add_item_cases w)
      as [[_ (S1 & _ & S3 & _)] | (n & q & _ & _ & _ & _ & _ & _ & _ & Hs)];
      [now apply Hkeep | now split].
  - destruct (lend_item_cases w)
      as [(_ & S1 & S3 & _) | [(ln & it & h & aq & k & _ & _ & _ & _ & _ & _ & _ & _ & Hs)
                              | (ln & it & aq & k & _ & _ & _ & _ & S1 & S3 & _)]];
      [now apply Hkeep | now split | now apply Hkeep].
  - destruct (return_item_cases w)
      as [(_ & S1 & _ & S3 & _)
         | [(ln & u & u' & it & h & a & k & _ & _ & _ & _ & _ & _ & _ & _ & _ & _ & Hs)
           | (ln & u & u' & it & k & _ & _ & _ & _ & _ & S1 & S3 & _)]];
      [now apply Hkeep | now split | now apply Hkeep].
  - destruct (update_item_cases w)
      as [(_ & S1 & _ & S3 & _) | (n & h & v & _ & _ & _ & _ & _ & _ & _ & Hs)];
      [now apply Hkeep | now split].
Qed.

(** X2.  Whatever is typed, an operation that changes the inventory
    leaves the inventory file holding exactly the new inventory; and an
    inventory file that agreed with the inventory before the operation
    agrees with it afterwards. *)
Theorem write_through (op : operation) (w : World) :
  (inventory (snd (perform op w)) <> inventory w -> in_sync (snd (perform op w))) /\
  (in_sync w -> in_sync (snd (perform op w))).
Proof. apply perform_in_sync. Qed.

Lemma write_through_witness :
  let w := mkWorld [("hammer", 5)] [] None None ["hammer"; "2"] [] in
  inventory (snd (perform AddItem w)) = [("hammer", 7)] /\
  in_sync (snd (perform AddItem w)).
Proof.
  cbv zeta. split; [reflexivity|].
  apply (proj1 (write_through AddItem
                  (mkWorld [("hammer", 5)] [] None None ["hammer"; "2"] []))).
  cbn. discriminate.
Defined.

(** ** What an operation leaves alone *)

Lemma add_item_frame (w : World) :
  users (snd (add_item w)) = users w /\
  transaction_log_txt (snd (add_item w)) = transaction_log_txt w.
Proof.
  destruct (add_item_cases w)
    as [[_ (_ & S2 & _ & S4)] | (n & q & _ & _ & _ & _ & _ & Hu & Hl & _)];
    now split.
Qed.

Lemma update_item_frame (w : World) :
  users (snd (update_item w)) = users w /\
  transaction_log_txt (snd (update_item w)) = transaction_log_txt w.
Proof.
  destruct (update_item_cases w)
    as [(_ & _ & S2 & _ & S4) | (n & h & v & _ & _ & _ & _ & _ & Hu & Hl & _)];
    now split.
Qed.

(** X3.  Adding and updating never touch the users or the transaction
    log, whatever is typed. *)
Theorem add_and_update_leave_users_and_log (op : operation) (w : World) :
  op = AddItem \/ op = UpdateItem ->
  users (snd (perform op w)) = users w /\
  transaction_log_txt (snd (perform op w)) = transaction_log_txt w.
Proof.
  intros [-> | ->]; cbn [perform];
    [apply add_item_frame | apply update_item_frame].
Qed.

Lemma add_and_update_leave_users_and_log_witness :
  users (snd (perform UpdateItem
                (mkWorld [("hammer", 5)] [("bob", mkUser "bob" [("hammer", 1)])]
                         None (Some "x") ["hammer"; "0"] [])))
  = [("bob", mkUser "bob" [("hammer", 1)])].
Proof.
  exact (proj1 (add_and_update_leave_users_and_log UpdateItem
                  (mkWorld [("hammer", 5)] [("bob", mkUser "bob" [("hammer", 1)])]
                           None (Some "x") ["hammer"; "0"] [])
                  (or_intror eq_refl))).
Defined.

(** X4.  An operation never touches the record of a user other than the
    one whose name is typed first. *)
Theorem other_users_untouched (op : operation) (w : World) (u : string) :
  (forall line, hd_error (stdin w) = Some line -> u <> Py.strip line) ->
  dict_get (users (snd (perform op w))) u = dict_get (users w) u.
Proof.
  intros Hother. destruct op; cbn [perform].
  - now rewrite (proj1 (add_item_frame w)).
  - destruct (lend_item_cases w)
      as [(_ & _ & _ & _ & [-> | (ln & Hln & ->)])
         | [(ln & it & h & aq & k & Hln & _ & _ & _ & _ & _ & -> & _)
           | (ln & it & aq & k & Hln & _ & _ & _ & _ & _ & _ & ->)]];
      try reflexivity; specialize (Hother ln Hln);
      rewrite ?dict_get_set_other by exact Hother;
      now apply with_user_get_other.
  - destruct (return_item_cases w)
      as [(_ & _ & -> & _)
         | [(ln & us & u' & it & h & a & k & Hln & _ & _ & _ & _ & _ & _ & _ & -> & _)
           | (ln & us & u' & it & k & Hln & _ & _ & _ & _ & _ & _ & _ & ->)]];
      try reflexivity; specialize (Hother ln Hln);
      now apply dict_get_set_other.
  - now rewrite (proj1 (update_item_frame w)).
Qed.

Lemma other_users_untouched_witness :
  dict_get (users (snd (perform LendItem
                          (mkWorld [("hammer", 5)]
                                   [("bob", mkUser "bob" [("hammer", 1)])]
                                   None None ["alice"; "1"; "2"] [])))) "bob"
  = Some (mkUser "bob" [("hammer", 1)]).
Proof.
  apply (other_users_untouched LendItem
           (mkWorld [("hammer", 5)] [("bob", mkUser "bob" [("hammer", 1)])]
                    None None ["alice"; "1"; "2"] []) "bob").
  intros line [= <-]. discriminate.
Defined.

(** ** Units are neither made nor lost by lending and returning *)

Lemma held_by_borrow (u : User) (item_name other : string) (k : Z) :
  held_by (User_borrow_item u item_name k) other
  = if String.eqb other item_name then held_by u other + k else held_by u other.
Proof.
  unfold held_by, User_borrow_item.
  destruct (String.eqb_spec other item_name) as [->|Hne].
  - destruct (dict_get (borrowed_items u) item_name); cbn [borrowed_items];
      rewrite dict_get_set_same; lia.
  - destruct (dict_get (borrowed_items u) item_name); cbn [borrowed_items];
      now rewrite dict_get_set_other.
Qed.

Lemma held_by_return (u u' : User) (item_name other : string) (k : Z) :
  User_return_item u item_name k = (u', true) ->
  held_by u' other
  = if String.eqb other item_name then held_by u other - k else held_by u other.
Proof.
  unfold held_by, User_return_item.
  destruct (dict_get (borrowed_items u) item_name) as [h|] eqn:Eh;
    [|discriminate].
  destruct (h >=? k); [|discriminate].
  destruct (Z.eqb_spec (h - k) 0) as [E|E]; intros [= <-]; cbn [borrowed_items];
    destruct (String.eqb_spec other item_name) as [->|Hne].
  - rewrite dict_get_del_same, Eh. lia.
  - now rewrite dict_get_del_other.
  - rewrite dict_get_set_same, Eh. lia.
  - now rewrite dict_get_set_other.
Qed.

Lemma lent_out_app (us vs : dict User) (item_name : string) :
  lent_out (us ++ vs)%list item_name
  = lent_out us item_name + lent_out vs item_name.
Proof.
  unfold lent_out. induction us as [|[k u] r IH]; simpl; [reflexivity|].
  rewrite IH. lia.
Qed.

Lemma lent_out_set (us : dict User) (who : string) (u u' : User)
      (item_name : string) :
  dict_get us who = Some u ->
  lent_out (dict_set us who u') item_name
  = lent_out us item_name - held_by u item_name + held_by u' item_name.
Proof.
  unfold lent_out. induction us as [|[k v] r IH]; simpl; [discriminate|].
  destruct (String.eqb k who); simpl.
  - intros [= ->]. lia.
  - intros H. rewrite (IH H). lia.
Qed.

Lemma lent_out_with_user (us : dict User) (who item_name : string) :
  lent_out (with_user us who) item_name = lent_out us item_name.
Proof.
  unfold with_user, dict_mem.
  destruct (dict_get us who) eqn:E; [reflexivity|].
  rewrite (dict_set_absent _ _ _ E), lent_out_app. cbn. lia.
Qed.

Lemma in_store_set (d : dict Z) (item_name other : string) (v : Z) :
  in_store (dict_set d item_name v) other
  = if String.eqb other item_name then v else in_store d other.
Proof.
  unfold in_store. destruct (String.eqb_spec other item_name) as [->|Hne].
  - now rewrite dict_get_set_same.
  - now rewrite dict_get_set_other.
Qed.

(** X5.  A lend or a return that comes back normally moves units
    between the stock and a user and neither makes nor loses any: for
    every item, the units in stock plus the units out with all users are
    the same before and after. *)
Theorem units_conserved (op : operation) (w : World) (item_name : string) :
  op = LendItem \/ op = ReturnItem ->
  fst (perform op w) = Next tt ->
  units (snd (perform op w)) item_name = units w item_name.
Proof.
  unfold units. intros [-> | ->] Hnext; cbn [perform] in *.
  - destruct (lend_item_cases w)
      as [(_ & -> & _ & _ & [-> | (ln & _ & ->)])
         | [(ln & it & h & aq & k & _ & Hh & _ & _ & _ & -> & -> & _)
           | (ln & it & aq & k & _ & _ & _ & Hf & _)]];
      try reflexivity.
    + now rewrite lent_out_with_user.
    + rewrite in_store_set, (lent_out_set _ _ _ _ _ (with_user_get _ _)).
      rewrite lent_out_with_user, held_by_borrow.
      unfold in_store.
      destruct (String.eqb_spec item_name it) as [->|Hne]; [rewrite Hh|]; lia.
    + rewrite Hf in Hnext. discriminate.
  - destruct (return_item_cases w)
      as [(_ & -> & -> & _)
         | [(ln & u & u' & it & h & a & k & _ & Hu & Hr & _ & _ & Hh & _ & -> & -> & _)
           | (ln & u & u' & it & k & _ & _ & _ & _ & Hf & _)]];
      try reflexivity.
    + rewrite in_store_set, (lent_out_set _ _ _ _ _ Hu).
      rewrite (held_by_return _ _ _ _ _ Hr).
      unfold in_store.
      destruct (String.eqb_spec item_name it) as [->|Hne]; [rewrite Hh|]; lia.
    + rewrite Hf in Hnext. discriminate.
Qed.

Lemma units_conserved_witness :
  let w := mkWorld [("hammer", 5)] [("bob", mkUser "bob" [("hammer", 1)])]
                   None None ["alice"; "1"; "2"] [] in
  units w "hammer" = 6 /\
  stock (snd (perform LendItem w)) "hammer" = Some 3 /\
  units (snd (perform LendItem w)) "hammer" = 6.
Proof.
  cbv zeta. split; [reflexivity|]. split; [reflexivity|].
  rewrite (units_conserved LendItem
             (mkWorld [("hammer", 5)] [("bob", mkUser "bob" [("hammer", 1)])]
                      None None ["alice"; "1"; "2"] [])
             "hammer" (or_introl eq_refl) eq_refl).
  reflexivity.
Defined.

(** ** Invariants over whole sessions *)

Lemma keys_valid_set_existing (d : dict Z) (k : string) (held v : Z) :
  Forall (fun k => is_valid_item_name k = true) (dict_keys d) ->
  dict_get d k = Some held ->
  Forall (fun k => is_valid_item_name k = true) (dict_keys (dict_set d k v)).
Proof.
  intros H Hk. rewrite dict_keys_set_present; [exact H|].
  apply dict_mem_get. eauto.
Qed.

Lemma keys_valid_set (d : dict Z) (k : string) (v : Z) :
  Forall (fun k => is_valid_item_name k = true) (dict_keys d) ->
  is_valid_item_name k = true ->
  Forall (fun k => is_valid_item_name k = true) (dict_keys (dict_set d k v)).
Proof.
  intros H Hk. destruct (dict_get d k) as [held|] eqn:E.
  - now apply (keys_valid_set_existing d k held).
  - rewrite (dict_keys_set_absent _ _ _ E). apply Forall_app. split; auto.
Qed.

Lemma perform_inventory_valid (op : operation) (w : World) :
  inventory_valid (inventory w) ->
  inventory_valid (inventory (snd (perform op w))).
Proof.
  intros [Hok Hvalid]. split; [now apply inventory_ok_preserved|].
  destruct op; cbn [perform].
  - destruct (add_item_cases w)
      as [[_ (-> & _)] | (n & q & Hn & _ & _ & _ & -> & _)]; auto.
    unfold added. destruct (dict_get (inventory w) n); now apply keys_valid_set.
  - destruct (lend_item_cases w)
      as [(_ & -> & _) | [(ln & it & h & aq & k & _ & Hh & _ & _ & _ & -> & _)
                         | (ln & it & aq & k & _ & _ & _ & _ & -> & _)]]; auto.
    now apply (keys_valid_set_existing _ _ h).
  - destruct (return_item_cases w)
      as [(_ & -> & _)
         | [(ln & u & u' & it & h & a & k & _ & _ & _ & _ & _ & Hh & _ & -> & _)
           | (ln & u & u' & it & k & _ & _ & _ & _ & _ & -> & _)]]; auto.
    now apply (keys_valid_set_existing _ _ h).
  - destruct (update_item_cases w)
      as [(_ & -> & _) | (n & h & v & _ & Hh & _ & _ & -> & _)]; auto.
    now apply (keys_valid_set_existing _ _ h).
Qed.

Lemma session_invariant (P : World -> Prop) (allowed : operation -> Prop) :
  (forall op w, allowed op -> P w -> P (snd (perform op w))) ->
  forall ops w, Forall allowed ops -> P w -> P (snd (session ops w)).
Proof.
  intros Hstep ops. induction ops as [|op r IH]; intros w Hall Hw; [exact Hw|].
  inversion Hall as [|? ? Hop Hr]; subst.
  cbn [session]. unfold bind.
  pose proof (Hstep op w Hop Hw) as Hnext.
  destruct (perform op w) as [[[]| |e] w1]; cbn [snd] in *; auto.
Qed.

Lemma Forall_True {A} (l : list A) : Forall (fun _ => True) l.
Proof. induction l; constructor; auto. Qed.

(** X6.  Whatever operations are chosen and whatever is typed, an
    inventory of the data model whose keys pass the name check stays
    one: no key twice, every key in lower case, every key a valid item
    name. *)
Theorem session_keeps_inventory_valid (ops : list operation) (w : World) :
  inventory_valid (inventory w) ->
  inventory_valid (inventory (snd (session ops w))).
Proof.
  intros Hw.
  apply (session_invariant (fun w => inventory_valid (inventory w))
                           (fun _ => True)); auto using Forall_True.
  intros op w0 _. apply perform_inventory_valid.
Qed.

Lemma session_keeps_inventory_valid_witness :
  inventory_valid
    (inventory (snd (session [AddItem; LendItem]
                       (mkWorld [] [] None None
                                [" Hammer "; "4"; "bob"; "1"; "1"] [])))).
Proof.
  apply session_keeps_inventory_valid.
  split; [split|]; constructor.
Defined.

(** X7.  From an inventory of the data model with no negative quantity,
    no sequence of adds, updates and lends, whatever is typed, produces
    a negative quantity. *)
Theorem session_without_returns_keeps_nonneg (ops : list operation) (w : World) :
  Forall (fun op => op <> ReturnItem) ops ->
  inventory_ok (inventory w) ->
  quantities_nonneg (inventory w) ->
  quantities_nonneg (inventory (snd (session ops w))).
Proof.
  intros Hops Hok Hnn.
  apply (session_invariant
           (fun w => inventory_ok (inventory w) /\ quantities_nonneg (inventory w))
           (fun op => op <> ReturnItem) ); auto.
  intros op w0 Hop [Hok0 Hnn0]. split.
  - now apply inventory_ok_preserved.
  - apply quantities_nonneg_preserved; auto. intros ->. congruence.
Qed.

Lemma session_without_returns_keeps_nonneg_witness :
  quantities_nonneg
    (inventory (snd (session [AddItem; LendItem; UpdateItem]
                       (mkWorld [] [] None None
                                ["hammer"; "4"; "bob"; "1"; "4"; "hammer"; "0"] [])))).
Proof.
  apply session_without_returns_keeps_nonneg.
  - repeat constructor; discriminate.
  - split; constructor.
  - intros item q H. discriminate H.
Defined.

(** ** A restart finds the inventory as it was *)

Lemma boot_of_saved (d : dict Z) (log : option string) (typed : list string) :
  inventory_valid d ->
  inventory (boot (Some (inventory_text d)) log typed) = d.
Proof.
  intros [[Hwf _] Hvalid]. unfold boot, InventorySystem_init.
  unfold bind at 1. unfold modify at 1. unfold bind at 1. unfold modify at 1.
  unfold set_inventory, set_users.
  cbn [inventory users inventory_txt transaction_log_txt stdin stdout].
  unfold bind.
  rewrite (load_inventory_saved d [] log typed [] Hwf Hvalid).
  apply (load_transactions_inventory
           (mkWorld d [] (Some (inventory_text d)) log typed [InventoryLoaded])).
Qed.

(** X8.  When the inventory file agrees with a valid inventory, then
    after any session, whatever is typed and however the session ends,
    a process started on the two files as the session left them has the
    inventory the session ended with. *)
Theorem restart_finds_inventory (ops : list operation) (w : World)
        (typed : list string) :
  inventory_valid (inventory w) ->
  in_sync w ->
  let w' := snd (session ops w) in
  inventory (boot (inventory_txt w') (transaction_log_txt w') typed)
  = inventory w'.
Proof.
  intros Hvalid Hsync. cbv zeta.
  assert (H : inventory_valid (inventory (snd (session ops w))) /\
              in_sync (snd (session ops w))).
  { apply (session_invariant
             (fun w => inventory_valid (inventory w) /\ in_sync w)
             (fun _ => True)); auto using Forall_True.
    intros op w0 _ [Hv Hs]. split.
    - now apply perform_inventory_valid.
    - now apply perform_in_sync. }
  destruct H as [Hv Hs]. rewrite Hs. now apply boot_of_saved.
Qed.

Lemma restart_finds_inventory_witness :
  let w' := snd (session [AddItem; LendItem]
                   (mkWorld [] [] (Some "") None
                            ["hammer"; "4"; "bob"; "1"; "1"] [])) in
  inventory w' = [("hammer", 3)] /\
  inventory (boot (inventory_txt w') (transaction_log_txt w') []) = [("hammer", 3)].
Proof.
  cbv zeta. split; [reflexivity|].
  rewrite (restart_finds_inventory [AddItem; LendItem]
             (mkWorld [] [] (Some "") None ["hammer"; "4"; "bob"; "1"; "1"] []) []).
  - reflexivity.
  - split; [split|]; constructor.
  - reflexivity.
Defined.

(** ** Adding *)

Lemma item_name_loop_valid (normalise : string -> string) (item_name : string)
      (typed : list string) (w : World) :
  is_valid_item_name item_name = true ->
  item_name_loop normalise item_name typed w = (Next item_name, w).
Proof. intros H. destruct typed; cbn [item_name_loop]; now rewrite H. Qed.

Lemma add_item_run inv us f l sout name_line qty_line rest q :
  is_valid_item_name (Py.lower (Py.strip name_line)) = true ->
  Py.int qty_line = Some q ->
  0 < q ->
  add_item (mkWorld inv us f l (name_line :: qty_line :: rest) sout)
  = (Next tt,
     mkWorld (added inv (Py.lower (Py.strip name_line)) q) us
             (Some (inventory_text (added inv (Py.lower (Py.strip name_line)) q)))
             l rest ((sout ++ [AddedToInventory]) ++ [InventorySaved])).
Proof.
  intros Hname Hq Hpos.
  unfold add_item, def, valid_item_name, bind, input.
  cbn [stdin set_stdin]. rewrite (item_name_loop_valid _ _ _ _ Hname).
  cbn [stdin set_stdin add_item_quantity_loop]. rewrite Hq.
  destruct (Z.gtb_spec q 0); [|lia].
  unfold add_or_increment, added. mstep.
  destruct (dict_get inv (Py.lower (Py.strip name_line))); reflexivity.
Qed.

Lemma stock_added (d : dict Z) (item_name other : string) (q : Z) :
  dict_get (added d item_name q) other
  = if String.eqb other item_name then Some (in_store d item_name + q)
    else dict_get d other.
Proof.
  unfold added, in_store.
  destruct (String.eqb_spec other item_name) as [->|Hne].
  - destruct (dict_get d item_name) eqn:E; rewrite dict_get_set_same;
      f_equal; lia.
  - destruct (dict_get d item_name); now rewrite dict_get_set_other.
Qed.

(** X9.  Given a name that is valid once stripped and lower-cased and a
    positive quantity, [add_item] adds the quantity to what the
    inventory holds under the normalised name (nothing counting as
    zero), keeps an existing key where it is and puts a new key last,
    changes no other quantity, leaves users and log alone and rewrites
    the inventory file to match. *)
Theorem add_item_spec (w : World) (name_line qty_line : string)
        (rest : list string) (q : Z) :
  stdin w = name_line :: qty_line :: rest ->
  is_valid_item_name (Py.lower (Py.strip name_line)) = true ->
  Py.int qty_line = Some q ->
  0 < q ->
  let item_name := Py.lower (Py.strip name_line) in
  let w' := snd (add_item w) in
  fst (add_item w) = Next tt /\
  stock w' item_name = Some (in_store (inventory w) item_name + q) /\
  (forall other, other <> item_name -> stock w' other = stock w other) /\
  dict_keys (inventory w')
  = (if dict_mem (inventory w) item_name then dict_keys (inventory w)
     else dict_keys (inventory w) ++ [item_name])%list /\
  users w' = users w /\
  transaction_log_txt w' = transaction_log_txt w /\
  in_sync w' /\
  stdin w' = rest /\
  stdout w' = (stdout w ++ [AddedToInventory; InventorySaved])%list.
Proof.
  intros Hin Hname Hq Hpos. destruct w as [inv us f l sin sout].
  cbn [stdin] in Hin. subst sin. cbv zeta.
  rewrite (add_item_run _ _ _ _ _ _ _ _ _ Hname Hq Hpos).
  unfold stock, in_sync.
  cbn [fst snd inventory users transaction_log_txt inventory_txt stdin stdout].
  repeat split.
  - rewrite stock_added. now rewrite String.eqb_refl.
  - intros other Hne. rewrite stock_added.
    destruct (String.eqb_spec other (Py.lower (Py.strip name_line))); congruence.
  - unfold added, dict_mem.
    destruct (dict_get inv (Py.lower (Py.strip name_line))) eqn:E.
    + apply dict_keys_set_present. unfold dict_mem. now rewrite E.
    + now apply dict_keys_set_absent.
  - now rewrite <- app_assoc.
Qed.

Lemma add_item_spec_witness :
  let w := mkWorld [("hammer", 5); ("drill", 2)] [] None None
                   ["  HAMMER "; " 3"] [] in
  stock (snd (add_item w)) "hammer" = Some 8 /\
  dict_keys (inventory (snd (add_item w))) = ["hammer"; "drill"].
Proof.
  cbv zeta.
  destruct (add_item_spec
              (mkWorld [("hammer", 5); ("drill", 2)] [] None None
                       ["  HAMMER "; " 3"] [])
              "  HAMMER " " 3" [] 3 eq_refl eq_refl eq_refl ltac:(lia))
    as (_ & Hstock & _ & Hkeys & _).
  split; [exact Hstock | exact Hkeys].
Defined.

(** X10.  A quantity line that is not an integer, or is zero or
    negative, is answered with a message and the quantity is asked
    again: [add_item] ends as it would have had the line not been typed,
    the message apart. *)
Theorem add_item_asks_quantity_again inv us f l sout name_line bad rest :
  is_valid_item_name (Py.lower (Py.strip name_line)) = true ->
  Py.int bad = None \/ (exists q, Py.int bad = Some q /\ q <= 0) ->
  add_item (mkWorld inv us f l (name_line :: bad :: rest) sout)
  = add_item (mkWorld inv us f l (name_line :: rest)
                      (sout ++ [match Py.int bad with
                                | None => EnterValidQuantity
                                | Some _ => AssertionMessage
                                end])).
Proof.
  intros Hname Hbad.
  unfold add_item, def, valid_item_name, bind, input.
  cbn [stdin set_stdin]. rewrite !(item_name_loop_valid _ _ _ _ Hname).
  cbn [stdin set_stdin add_item_quantity_loop].
  destruct Hbad as [-> | (q & -> & Hq)].
  - reflexivity.
  - destruct (Z.gtb_spec q 0); [lia|]. reflexivity.
Qed.

Lemma add_item_asks_quantity_again_witness :
  add_item (mkWorld [] [] None None ["hammer"; "0"; "4"] [])
  = add_item (mkWorld [] [] None None ["hammer"; "4"] [AssertionMessage]).
Proof.
  apply (add_item_asks_quantity_again [] [] None None [] "hammer" "0" ["4"]).
  - reflexivity.
  - right. exists 0. split; [reflexivity | lia].
Defined.

(** X11.  Two adds in a row under the same name add up: after adding
    [q1] and then [q2] the stock is what it was plus [q1 + q2]; on a
    name the inventory did not have, adding the same quantity twice
    gives twice the quantity. *)
Theorem add_item_twice (w : World) (name1 qty1 name2 qty2 : string)
        (rest : list string) (q1 q2 : Z) :
  stdin w = name1 :: qty1 :: name2 :: qty2 :: rest ->
  is_valid_item_name (Py.lower (Py.strip name1)) = true ->
  Py.lower (Py.strip name2) = Py.lower (Py.strip name1) ->
  Py.int qty1 = Some q1 -> 0 < q1 ->
  Py.int qty2 = Some q2 -> 0 < q2 ->
  let item_name := Py.lower (Py.strip name1) in
  let w' := snd (session [AddItem; AddItem] w) in
  fst (session [AddItem; AddItem] w) = Next tt /\
  stock w' item_name = Some (in_store (inventory w) item_name + q1 + q2) /\
  (stock w item_name = None -> q2 = q1 -> stock w' item_name = Some (2 * q1)).
Proof.
  intros Hin Hname Hsame Hq1 Hp1 Hq2 Hp2.
  destruct w as [inv us f l sin sout]. cbn [stdin] in Hin. subst sin. cbv zeta.
  assert (Hname2 : is_valid_item_name (Py.lower (Py.strip name2)) = true)
    by now rewrite Hsame.
  unfold session, perform, bind.
  rewrite (add_item_run _ _ _ _ _ _ _ _ _ Hname Hq1 Hp1).
  rewrite (add_item_run _ _ _ _ _ _ _ _ _ Hname2 Hq2 Hp2).
  unfold stock. cbn [fst snd ret inventory]. rewrite Hsame.
  rewrite stock_added, String.eqb_refl.
  assert (Hmid : in_store (added inv (Py.lower (Py.strip name1)) q1)
                          (Py.lower (Py.strip name1))
                 = in_store inv (Py.lower (Py.strip name1)) + q1).
  { unfold in_store at 1. rewrite stock_added, String.eqb_refl. reflexivity. }
  rewrite Hmid. split; [reflexivity|]. split; [reflexivity|].
  intros Hnone ->. unfold in_store. rewrite Hnone. f_equal. lia.
Qed.

Lemma add_item_twice_witness :
  stock (snd (session [AddItem; AddItem]
                (mkWorld [] [] None None ["hammer"; "4"; "Hammer"; "4"] [])))
        "hammer"
  = Some 8.
Proof.
  destruct (add_item_twice
              (mkWorld [] [] None None ["hammer"; "4"; "Hammer"; "4"] [])
              "hammer" "4" "Hammer" "4" [] 4 4
              eq_refl eq_refl eq_refl eq_refl ltac:(lia) eq_refl ltac:(lia))
    as (_ & _ & Htwice).
  exact (Htwice eq_refl eq_refl).
Defined.

(** ** Updating *)

Lemma update_item_run_name inv us f l sout name_line rest :
  is_valid_item_name name_line = true ->
  update_item (mkWorld inv us f l (name_line :: rest) sout)
  = match dict_get inv name_line with
    | None => (Next tt, mkWorld inv us f l rest sout)
    | Some _ =>
        match rest with
        | [] => (Raise EOFError, mkWorld inv us f l [] sout)
        | qty_line :: rest' =>
            match Py.int qty_line with
            | None =>
                (Next tt, mkWorld inv us f l rest' (sout ++ [EnterValidQuantity]))
            | Some v =>
                if v >=? 0 then
                  (Next tt,
                   mkWorld (dict_set inv name_line v) us
                           (Some (inventory_text (dict_set inv name_line v)))
                           l rest' ((sout ++ [Updated]) ++ [InventorySaved]))
                else
                  (Next tt, mkWorld inv us f l rest' (sout ++ [AssertionMessage]))
            end
        end
    end.
Proof.
  intros Hname. unfold update_item, def, valid_item_name, bind, input.
  cbn [stdin set_stdin]. rewrite (item_name_loop_valid _ _ _ _ Hname).
  mstep. unfold dict_mem.
  destruct (dict_get inv name_line); [|reflexivity].
  destruct rest as [|qty_line rest']; [reflexivity|].
  destruct (Py.int qty_line) as [v|]; [|reflexivity].
  destruct (v >=? 0); reflexivity.
Qed.

(** X12.  Given the exact name of an item the inventory has and a
    quantity that is zero or more, [update_item] sets the item to that
    quantity (zero included), keeps every key where it is, changes no
    other quantity, leaves users and log alone and rewrites the
    inventory file to match. *)
Theorem update_item_spec (w : World) (name_line qty_line : string)
        (rest : list string) (held v : Z) :
  stdin w = name_line :: qty_line :: rest ->
  is_valid_item_name name_line = true ->
  stock w name_line = Some held ->
  Py.int qty_line = Some v ->
  0 <= v ->
  let w' := snd (update_item w) in
  fst (update_item w) = Next tt /\
  stock w' name_line = Some v /\
  (forall other, other <> name_line -> stock w' other = stock w other) /\
  dict_keys (inventory w') = dict_keys (inventory w) /\
  users w' = users w /\
  transaction_log_txt w' = transaction_log_txt w /\
  in_sync w' /\
  stdin w' = rest /\
  stdout w' = (stdout w ++ [Updated; InventorySaved])%list.
Proof.
  intros Hin Hname Hheld Hq Hv. destruct w as [inv us f l sin sout].
  unfold stock in *. cbn [stdin inventory] in *. subst sin. cbv zeta.
  rewrite (update_item_run_name _ _ _ _ _ _ _ Hname), Hheld, Hq.
  destruct (Z.geb_spec v 0); [|lia].
  unfold in_sync.
  cbn [fst snd inventory users transaction_log_txt inventory_txt stdin stdout].
  repeat split.
  - apply dict_get_set_same.
  - intros other Hne. now apply dict_get_set_other.
  - apply dict_keys_set_present. unfold dict_mem. now rewrite Hheld.
  - now rewrite <- app_assoc.
Qed.

Lemma update_item_spec_witness :
  let w := mkWorld [("hammer", 5); ("drill", 2)] [] None None ["hammer"; "0"] [] in
  inventory (snd (update_item w)) = [("hammer", 0); ("drill", 2)] /\
  stock (snd (update_item w)) "hammer" = Some 0.
Proof.
  cbv zeta. split; [reflexivity|].
  exact (proj1 (proj2 (update_item_spec
                         (mkWorld [("hammer", 5); ("drill", 2)] [] None None
                                  ["hammer"; "0"] [])
                         "hammer" "0" [] 5 0 eq_refl eq_refl eq_refl eq_refl
                         ltac:(lia)))).
Defined.

(** X13.  [update_item] changes nothing when it turns an update down.
    For a valid name that is not, letter for letter, a key of the
    inventory it reads no quantity and prints nothing; for a quantity
    line that is no integer, or a negative quantity, it prints the
    message; in all three cases the inventory, the users and both files
    are as before. *)
Theorem update_item_refusals (w : World) (name_line : string)
        (rest : list string) :
  stdin w = name_line :: rest ->
  is_valid_item_name name_line = true ->
  (stock w name_line = None ->
   update_item w = (Next tt, set_stdin rest w)) /\
  (forall held qty_line rest',
     stock w name_line = Some held ->
     rest = qty_line :: rest' ->
     (Py.int qty_line = None ->
      update_item w = (Next tt, put EnterValidQuantity (set_stdin rest' w))) /\
     (forall v, Py.int qty_line = Some v -> v < 0 ->
      update_item w = (Next tt, put AssertionMessage (set_stdin rest' w)))).
Proof.
  intros Hin Hname. destruct w as [inv us f l sin sout].
  unfold stock. cbn [stdin inventory] in *. subst sin.
  rewrite (update_item_run_name _ _ _ _ _ _ _ Hname). split.
  - intros ->. reflexivity.
  - intros held qty_line rest' -> ->. split.
    + intros ->. reflexivity.
    + intros v -> Hv. destruct (Z.geb_spec v 0); [lia | reflexivity].
Qed.

Lemma update_item_refusals_witness :
  update_item (mkWorld [("hammer", 5)] [] None None ["Hammer"; "9"] [])
  = (Next tt, mkWorld [("hammer", 5)] [] None None ["9"] []) /\
  update_item (mkWorld [("hammer", 5)] [] None None ["hammer"; "-1"] [])
  = (Next tt, mkWorld [("hammer", 5)] [] None None [] [AssertionMessage]).
Proof.
  split.
  - exact (proj1 (update_item_refusals
                    (mkWorld [("hammer", 5)] [] None None ["Hammer"; "9"] [])
                    "Hammer" ["9"] eq_refl eq_refl) eq_refl).
  - exact (proj2 (proj2 (update_item_refusals
                           (mkWorld [("hammer", 5)] [] None None ["hammer"; "-1"] [])
                           "hammer" ["-1"] eq_refl eq_refl)
                        5 "-1" [] eq_refl eq_refl)
                 (-1) eq_refl ltac:(lia)).
Defined.

(** ** Returning *)

Lemma User_return_item_ok (u : User) (item_name : string) (held k : Z) :
  dict_get (borrowed_items u) item_name = Some held ->
  k <= held ->
  exists u',
    User_return_item u item_name k = (u', true) /\
    dict_get (borrowed_items u') item_name
    = (if held =? k then None else Some (held - k)) /\
    forall other, other <> item_name ->
      dict_get (borrowed_items u') other = dict_get (borrowed_items u) other.
Proof.
  intros Hheld Hk. unfold User_return_item. rewrite Hheld.
  destruct (Z.geb_spec held k); [|lia].
  replace (held - k =? 0) with (held =? k)
    by (destruct (Z.eqb_spec held k), (Z.eqb_spec (held - k) 0); auto; lia).
  destruct (Z.eqb_spec held k); eexists; (split; [reflexivity|]);
    cbn [borrowed_items]; split;
    auto using dict_get_del_same, dict_get_set_same;
    intros other Hne; auto using dict_get_del_other, dict_get_set_other.
Qed.

(** X14.  When the borrower selects an item they hold, of which the
    inventory has a key, and types a quantity that is no more than what
    they hold, [return_item] adds the quantity to the stock of the item,
    takes it from what the borrower holds (dropping the entry when
    nothing is left), touches no other stock and no other user, appends
    one "Return" record to the log and rewrites the inventory file to
    match.  The sign of the quantity is not looked at. *)
Theorem return_item_spec
        (w : World) (who pick amount : string) (rest : list string)
        (user : User) (j : nat) (item_name : string) (held in_stock_now k : Z) :
  stdin w = who :: pick :: amount :: rest ->
  dict_get (users w) (Py.strip who) = Some user ->
  nth_error (dict_keys (borrowed_items user)) j = Some item_name ->
  dict_get (borrowed_items user) item_name = Some held ->
  stock w item_name = Some in_stock_now ->
  Py.int pick = Some (Z.of_nat j + 1) ->
  Py.int amount = Some k ->
  k <= held ->
  let w' := snd (return_item w) in
  fst (return_item w) = Next tt /\
  stock w' item_name = Some (in_stock_now + k) /\
  (forall other, other <> item_name -> stock w' other = stock w other) /\
  borrowed w' (Py.strip who) item_name
  = (if held =? k then None else Some (held - k)) /\
  (forall other, other <> item_name ->
     borrowed w' (Py.strip who) other = borrowed w (Py.strip who) other) /\
  (forall u, u <> Py.strip who -> dict_get (users w') u = dict_get (users w) u) /\
  transaction_log_txt w'
  = logged (transaction_log_txt w) "Return" (Py.strip who) item_name k /\
  in_sync w' /\
  stdin w' = rest /\
  stdout w' = (stdout w ++ [BorrowedItems; Returned; InventorySaved])%list.
Proof.
  intros Hin Huser Hnth Hheld Hstock Hpick Hamount Hk.
  destruct w as [inv us f l sin sout].
  unfold stock in *. cbn [stdin users inventory] in *. subst sin. cbv zeta.
  rewrite (return_item_run _ _ _ _ _ _ _ _ _ _ _ _ _ Huser Hnth Hpick Hamount).
  destruct (User_return_item_ok user item_name held k Hheld Hk)
    as (user' & Hrun & Hitem & Hothers).
  rewrite Hrun, Hstock. unfold borrowed, in_sync, logged.
  cbn [fst snd inventory users transaction_log_txt inventory_txt stdin stdout].
  rewrite Huser, !dict_get_set_same.
  split; [reflexivity|]. split; [reflexivity|].
  split; [intros other Hne; now apply dict_get_set_other|].
  split; [exact Hitem|]. split; [exact Hothers|].
  split; [intros u Hu; now apply dict_get_set_other|].
  split; [reflexivity|]. split; [reflexivity|]. split; [reflexivity|].
  now rewrite <- !app_assoc.
Qed.

Lemma return_item_spec_witness :
  let w := mkWorld [("hammer", 7)] [("alice", mkUser "alice" [("hammer", 3)])]
                   None None ["alice"; "1"; "2"] [] in
  stock (snd (return_item w)) "hammer" = Some 9 /\
  borrowed (snd (return_item w)) "alice" "hammer" = Some 1.
Proof.
  cbv zeta.
  destruct (return_item_spec
              (mkWorld [("hammer", 7)] [("alice", mkUser "alice" [("hammer", 3)])]
                       None None ["alice"; "1"; "2"] [])
              "alice" "1" "2" [] (mkUser "alice" [("hammer", 3)]) 0%nat
              "hammer" 3 7 2
              eq_refl eq_refl eq_refl eq_refl eq_refl eq_refl eq_refl ltac:(lia))
    as (_ & Hstock & _ & Hb & _).
  split; [exact Hstock | exact Hb].
Defined.

(** X15.  A return that is turned down changes nothing but the console:
    the message is printed, the lines read are gone, and the inventory,
    the users and both files are exactly as before.  A borrower who is
    unknown or holds nothing is turned down after the name alone; a
    selection that is no integer or out of range, after the selection;
    a quantity that is no integer or more than the borrower holds,
    after the quantity. *)
Theorem return_item_refused_changes_nothing
        (w : World) (printed : list message) (rest : list string) :
  return_refused w printed rest ->
  return_item w
  = (Next tt,
     mkWorld (inventory w) (users w) (inventory_txt w) (transaction_log_txt w)
             rest (stdout w ++ printed)).
Proof.
  intros Href. destruct w as [inv us f l sin sout].
  destruct Href as [who rest Hin Hnone
                   | who pick rest u Hin Hu Hsome Hpick
                   | who pick amount rest u j item_name Hin Hu Hpick Hnth Hamount];
    cbn [stdin users inventory inventory_txt transaction_log_txt stdout] in *;
    subst sin.
  - unfold return_item. mstep.
    destruct Hnone as [-> | (u & -> & Hb)]; [reflexivity|].
    rewrite Hb. reflexivity.
  - unfold return_item. mstep. rewrite Hu.
    rewrite !(match_nonempty (borrowed_items u)) by exact Hsome.
    destruct Hpick as [-> | (n & -> & Hout)].
    + now rewrite <- app_assoc.
    + rewrite (selection_out_of_range _ _ Hout). now rewrite <- app_assoc.
  - destruct Hamount as [Hnone | (k & held & Hk & Hheld & Hlt)].
    + assert (Hsome : borrowed_items u <> [])
        by (intros E; rewrite E in Hnth; now destruct j).
      unfold return_item. mstep. rewrite Hu.
      rewrite !(match_nonempty (borrowed_items u)) by exact Hsome.
      rewrite Hpick, (selection_in_range _ _ (nth_error_keys_bound _ _ _ Hnth)).
      replace (Z.of_nat j + 1 - 1) with (Z.of_nat j) by lia.
      rewrite Nat2Z.id, Hnth, Hnone. now rewrite <- app_assoc.
    + rewrite (return_item_run _ _ _ _ _ _ _ _ _ _ _ _ _ Hu Hnth Hpick Hk).
      rewrite Hk. unfold User_return_item. rewrite Hheld.
      destruct (Z.geb_spec held k); [lia|]. cbn [fst snd].
      rewrite (dict_set_same_value _ _ _ Hu). now rewrite <- app_assoc.
Qed.

Lemma return_item_refused_changes_nothing_witness :
  return_item (mkWorld [("hammer", 7)]
                       [("alice", mkUser "alice" [("hammer", 3)])]
                       None None ["alice"; "1"; "4"; "x"] [])
  = (Next tt,
     mkWorld [("hammer", 7)] [("alice", mkUser "alice" [("hammer", 3)])]
             None None ["x"] [BorrowedItems; NotEnoughToReturn]).
Proof.
  apply (return_item_refused_changes_nothing
           (mkWorld [("hammer", 7)] [("alice", mkUser "alice" [("hammer", 3)])]
                    None None ["alice"; "1"; "4"; "x"] [])
           [BorrowedItems; NotEnoughToReturn] ["x"]).
  apply (return_bad_quantity _ "alice" "1" "4" ["x"]
           (mkUser "alice" [("hammer", 3)]) 0%nat "hammer");
    try reflexivity.
  right. exists 4, 3. repeat split.
Defined.

(** ** Lending: the two ways out that are not refusals *)

(** X16.  When the item selected for lending, which the listing shows
    under its lower-cased name, is not under that name a key of the
    inventory, [lend_item] ends with an uncaught [KeyError] on the name:
    the borrower's record already holds the units, while the inventory,
    the inventory file and the log are as before. *)
Theorem lend_item_missing_key_raises
        (w : World) (who pick amount : string) (rest : list string)
        (i : nat) (item_name : string) (available_quantity k : Z) :
  stdin w = who :: pick :: amount :: rest ->
  nth_error (dict_keys (available_items (inventory w))) i = Some item_name ->
  dict_get (available_items (inventory w)) item_name = Some available_quantity ->
  stock w item_name = None ->
  Py.int pick = Some (Z.of_nat i + 1) ->
  Py.int amount = Some k ->
  0 < k <= available_quantity ->
  let w' := snd (lend_item w) in
  fst (lend_item w) = Raise (KeyError item_name) /\
  borrowed w' (Py.strip who) item_name
  = Some (match borrowed w (Py.strip who) item_name with
          | Some held => held + k
          | None => k
          end) /\
  inventory w' = inventory w /\
  inventory_txt w' = inventory_txt w /\
  transaction_log_txt w' = transaction_log_txt w.
Proof.
  intros Hin Hnth Hav Hstock Hpick Hamount Hk.
  destruct w as [inv us f l sin sout].
  unfold stock in Hstock. cbn [stdin inventory] in *. subst sin. cbv zeta.
  unfold lend_item. mstep. rewrite add_user_if_absent_run. mstep.
  rewrite (match_nonempty (available_items inv))
    by (intros E; rewrite E in Hnth; now destruct i).
  rewrite Hpick, (selection_in_range _ _ (nth_error_keys_bound _ _ _ Hnth)).
  replace (Z.of_nat i + 1 - 1) with (Z.of_nat i) by lia.
  rewrite Nat2Z.id, Hnth, Hav, Hamount.
  replace ((k <=? 0) || (k >? available_quantity)) with false
    by (symmetry; apply orb_false_iff;
        rewrite Z.gtb_ltb, Z.ltb_ge, Z.leb_gt; lia).
  rewrite with_user_get, Hstock. unfold borrowed.
  cbn [fst snd users inventory inventory_txt transaction_log_txt].
  rewrite dict_get_set_same. repeat split.
  unfold user_record, User_borrow_item.
  destruct (dict_get us (Py.strip who)) as [u|]; cbn [borrowed_items].
  - destruct (dict_get (borrowed_items u) item_name); cbn [borrowed_items];
      now rewrite dict_get_set_same.
  - cbn. now rewrite String.eqb_refl.
Qed.

Lemma lend_item_missing_key_raises_witness :
  let w := mkWorld [("Hammer", 5)] [] (Some "Hammer: 5") None
                   ["bob"; "1"; "2"] [] in
  fst (lend_item w) = Raise (KeyError "hammer") /\
  borrowed (snd (lend_item w)) "bob" "hammer" = Some 2 /\
  inventory (snd (lend_item w)) = [("Hammer", 5)].
Proof.
  cbv zeta.
  destruct (lend_item_missing_key_raises
              (mkWorld [("Hammer", 5)] [] (Some "Hammer: 5") None
                       ["bob"; "1"; "2"] [])
              "bob" "1" "2" [] 0%nat "hammer" 5 2
              eq_refl eq_refl eq_refl eq_refl eq_refl eq_refl ltac:(lia))
    as (Hraise & Hb & Hinv & _).
  split; [exact Hraise|]. split; [exact Hb | exact Hinv].
Defined.

(** X17.  A selection or a quantity that is no integer ends [lend_item]
    with the message asking for an integer.  Nothing is lent: the
    inventory, both files and what every user has borrowed are as
    before, the users map gaining at most the borrower's empty record;
    a bad selection leaves the quantity line unread. *)
Theorem lend_item_not_an_integer
        (w : World) (who pick : string) (rest : list string) :
  stdin w = who :: pick :: rest ->
  available_items (inventory w) <> [] ->
  let w' := snd (lend_item w) in
  (Py.int pick = None ->
   fst (lend_item w) = Next tt /\
   only_record_added w w' (Py.strip who) /\
   stdin w' = rest /\
   stdout w' = (stdout w ++ [AvailableItems; EnterValidInteger])%list) /\
  (forall i item_name amount rest',
     Py.int pick = Some (Z.of_nat i + 1) ->
     nth_error (dict_keys (available_items (inventory w))) i = Some item_name ->
     rest = amount :: rest' ->
     Py.int amount = None ->
     fst (lend_item w) = Next tt /\
     only_record_added w w' (Py.strip who) /\
     stdin w' = rest' /\
     stdout w' = (stdout w ++ [AvailableItems; EnterValidInteger])%list).
Proof.
  intros Hin Hsome. destruct w as [inv us f l sin sout].
  cbn [stdin inventory] in *. subst sin. cbv zeta. split.
  - intros Hpick.
    assert (Hrun : lend_item (mkWorld inv us f l (who :: pick :: rest) sout)
                   = (Next tt,
                      mkWorld inv (with_user us (Py.strip who)) f l rest
                              ((sout ++ [AvailableItems]) ++ [EnterValidInteger]))).
    { unfold lend_item. mstep. rewrite add_user_if_absent_run. mstep.
      now rewrite (match_nonempty _ _ _ Hsome), Hpick. }
    rewrite Hrun. cbn [fst snd stdin stdout].
    split; [reflexivity|]. split; [|split; [reflexivity | now rewrite <- app_assoc]].
    repeat split. intros u it.
    apply (borrowed_with_user
             (mkWorld inv us f l rest
                      ((sout ++ [AvailableItems]) ++ [EnterValidInteger]))).
  - intros i item_name amount rest' Hpick Hnth -> Hamount.
    destruct (dict_get_of_key _ _ _ Hnth) as [aq Hav].
    assert (Hrun : lend_item
                     (mkWorld inv us f l (who :: pick :: amount :: rest') sout)
                   = (Next tt,
                      mkWorld inv (with_user us (Py.strip who)) f l rest'
                              ((sout ++ [AvailableItems]) ++ [EnterValidInteger]))).
    { unfold lend_item. mstep. rewrite add_user_if_absent_run. mstep.
      rewrite (match_nonempty _ _ _ Hsome), Hpick.
      rewrite (selection_in_range _ _ (nth_error_keys_bound _ _ _ Hnth)).
      replace (Z.of_nat i + 1 - 1) with (Z.of_nat i) by lia.
      now rewrite Nat2Z.id, Hnth, Hav, Hamount. }
    rewrite Hrun. cbn [fst snd stdin stdout].
    split; [reflexivity|]. split; [|split; [reflexivity | now rewrite <- app_assoc]].
    repeat split. intros u it.
    apply (borrowed_with_user
             (mkWorld inv us f l rest'
                      ((sout ++ [AvailableItems]) ++ [EnterValidInteger]))).
Qed.

Lemma lend_item_not_an_integer_witness :
  let w := mkWorld [("hammer", 5)] [] None None ["bob"; "one"; "2"] [] in
  fst (lend_item w) = Next tt /\
  inventory (snd (lend_item w)) = [("hammer", 5)] /\
  stdin (snd (lend_item w)) = ["2"].
Proof.
  cbv zeta.
  destruct (proj1 (lend_item_not_an_integer
                     (mkWorld [("hammer", 5)] [] None None ["bob"; "one"; "2"] [])
                     "bob" "one" ["2"] eq_refl ltac:(discriminate)) eq_refl)
    as (Hf & (Hinv & _) & Hin & _).
  split; [exact Hf|]. split; [exact Hinv | exact Hin].
Defined.

(** ** Loading at start-up *)

Lemma set_inventory_twice (a b : dict Z) (w : World) :
  set_inventory a (set_inventory b w) = set_inventory a w.
Proof. reflexivity. Qed.

Lemma load_inventory_lines_full (lines : list string) (w : World) :
  for_each lines load_inventory_line w
  = (if all_entries lines then Next tt else Raise ValueError,
     set_inventory
       (fold_left (fun acc e => dict_set acc (fst e) (snd e))
                  (entries_prefix lines) (inventory w)) w).
Proof.
  revert w. induction lines as [|line r IH]; intros w.
  - destruct w; reflexivity.
  - cbn [for_each entries_prefix all_entries forallb]. unfold bind.
    rewrite load_inventory_line_run.
    destruct (parse_entry line) as [e|]; cbn [andb fold_left].
    + rewrite IH. reflexivity.
    + destruct w; reflexivity.
Qed.

(** X18.  [load_inventory] always comes back, whatever the file holds.
    With no file the inventory is untouched.  With a file, each line up
    to the first malformed one (a line that, stripped, does not split at
    ": " in exactly a name and an integer) is assigned in turn, a name
    that occurs again overwriting; the lines from the first malformed
    one on are ignored, and the entries assigned before it stay.  Users,
    files and pending input are untouched; the message says which of the
    three happened. *)
Theorem load_inventory_spec (w : World) :
  load_inventory w
  = (Next tt,
     match inventory_txt w with
     | None => put NoInventoryFile w
     | Some text =>
         put (if all_entries (Py.lines text) then InventoryLoaded
              else ErrorLoadingInventory)
             (set_inventory
                (fold_left (fun acc e => dict_set acc (fst e) (snd e))
                           (entries_prefix (Py.lines text)) (inventory w)) w)
     end).
Proof.
  unfold load_inventory, bind, read, try_except.
  destruct (inventory_txt w) as [text|]; [|reflexivity].
  rewrite load_inventory_lines_full.
  destruct (all_entries (Py.lines text)); reflexivity.
Qed.

Lemma apply_records_borrowed (ts : list Transaction) (u i : string)
      (acc : option Z) :
  fold_left (replay_step u i) ts acc
  = match lends_of u i ts with
    | [] => acc
    | _ => Some (match acc with Some held => held | None => 0 end
                 + total_quantity (lends_of u i ts))
    end.
Proof.
  revert acc. induction ts as [|t r IH]; intros acc; [reflexivity|].
  cbn [fold_left lends_of filter]. fold (lends_of u i r). rewrite IH.
  unfold replay_step.
  destruct (String.eqb (t_action t) "Lend" && String.eqb (t_user t) u
            && String.eqb (t_item t) i).
  - cbn [total_quantity fold_right]. fold (total_quantity (lends_of u i r)).
    destruct (lends_of u i r); destruct acc; cbn [total_quantity fold_right];
      f_equal; lia.
  - reflexivity.
Qed.

(** X19.  Whatever the two files hold, the quantity of an item a user
    holds after start-up is the sum of the quantities of the "Lend"
    records of that user and item that come before the first malformed
    line of the log, and there is no entry when there is no such record.
    Records with any other action, "Return" included, count for
    nothing. *)
Theorem replay_sums_lend_records (inventory_file : option string)
        (log : string) (typed : list string) (u i : string) :
  borrowed (boot inventory_file (Some log) typed) u i
  = match lends_of u i (parsed_prefix (Py.lines log)) with
    | [] => None
    | lends => Some (total_quantity lends)
    end.
Proof.
  rewrite replay_counts_lends_only, apply_records_borrowed.
  destruct (lends_of u i (parsed_prefix (Py.lines log))); [reflexivity|].
  f_equal.
Qed.

Lemma load_transactions_lines_flow (lines : list string) (w : World) :
  for_each lines load_transactions_line w
  = (if all_records lines then Next tt else Raise ValueError,
     snd (for_each lines load_transactions_line w)).
Proof.
  revert w. induction lines as [|line r IH]; intros w; [reflexivity|].
  cbn [for_each all_records forallb]. unfold bind.
  rewrite load_transactions_line_run.
  destruct (parse_transaction line) as [t|]; cbn [andb]; [|reflexivity].
  rewrite IH at 1. reflexivity.
Qed.

Lemma load_transactions_lines_frame (lines : list string) (w : World) :
  let w' := snd (for_each lines load_transactions_line w) in
  inventory w' = inventory w /\
  inventory_txt w' = inventory_txt w /\
  transaction_log_txt w' = transaction_log_txt w /\
  stdin w' = stdin w /\ stdout w' = stdout w.
Proof.
  cbv zeta. revert w. induction lines as [|line r IH]; intros w;
    [repeat split|].
  cbn [for_each]. unfold bind. rewrite load_transactions_line_run.
  destruct (parse_transaction line) as [t|]; [|repeat split].
  match goal with
  | |- context [for_each r load_transactions_line ?x] =>
      destruct (IH x) as (H1 & H2 & H3 & H4 & H5)
  end.
  rewrite H1, H2, H3, H4, H5.
  destruct (String.eqb (t_action t) "Lend"); repeat split.
Qed.

(** X20.  [load_transactions] always comes back, whatever the log
    holds, and it leaves the inventory, both files and the pending input
    as they are: replay only ever writes the users.  Its message tells a
    log read to the end from one cut short at a malformed line. *)
Theorem load_transactions_frame (w : World) :
  let w' := snd (load_transactions w) in
  fst (load_transactions w) = Next tt /\
  inventory w' = inventory w /\
  inventory_txt w' = inventory_txt w /\
  transaction_log_txt w' = transaction_log_txt w /\
  stdin w' = stdin w /\
  stdout w'
  = (stdout w ++ [match transaction_log_txt w with
                  | None => NoTransactionLog
                  | Some text => if all_records (Py.lines text)
                                 then TransactionsLoaded
                                 else ErrorLoadingTransactions
                  end])%list.
Proof.
  cbv zeta. unfold load_transactions, bind, read, try_except.
  destruct (transaction_log_txt w) as [text|] eqn:Hlog.
  2:{ cbn [fst snd print]. unfold put.
      cbn [inventory inventory_txt transaction_log_txt stdin stdout].
      repeat split. exact Hlog. }
  rewrite load_transactions_lines_flow.
  destruct (load_transactions_lines_frame (Py.lines text) w)
    as (H1 & H2 & H3 & H4 & H5).
  destruct (all_records (Py.lines text)); cbn [fst snd print];
    unfold put; cbn [inventory inventory_txt transaction_log_txt stdin stdout];
    rewrite ?H1, ?H2, ?H3, ?H4, ?H5; repeat split; try congruence.
Qed.

(** ** What is logged reads back *)















(** ** [User.borrow_item] and [User.return_item] together *)

(** X22.  Borrowing accumulates and a matching return undoes it: two
    borrows of an item are one borrow of the sum, and giving back what
    was just borrowed restores the user exactly, entry order included,
    provided the user held none of the item or a positive quantity of
    it. *)
Theorem User_borrow_item_composes (u : User) (item_name : string) (k1 k2 : Z) :
  User_borrow_item (User_borrow_item u item_name k1) item_name k2
  = User_borrow_item u item_name (k1 + k2) /\
  (dict_get (borrowed_items u) item_name = None \/
   (exists b, dict_get (borrowed_items u) item_name = Some b /\ 0 < b) ->
   User_return_item (User_borrow_item u item_name k1) item_name k1 = (u, true)).
Proof.
  split; [|apply User_borrow_then_return].
  unfold User_borrow_item.
  destruct (dict_get (borrowed_items u) item_name) as [h|] eqn:E;
    cbn [borrowed_items name]; rewrite dict_get_set_same, dict_set_set;
    do 2 f_equal; lia.
Qed.

Lemma User_borrow_item_composes_witness :
  User_return_item
    (User_borrow_item (mkUser "bob" [("drill", 1); ("hammer", 2)]) "hammer" 3)
    "hammer" 3
  = (mkUser "bob" [("drill", 1); ("hammer", 2)], true).
Proof.
  apply (proj2 (User_borrow_item_composes
                  (mkUser "bob" [("drill", 1); ("hammer", 2)]) "hammer" 3 0)).
  right. exists 2. split; [reflexivity | lia].
Defined.

(** ** [bulk_add_items] *)

Lemma add_body_run (item_name : string) (q : Z) inv us f l sin sout :
  (add_or_increment item_name q ;;; print AddedToInventory ;;; save_inventory)
    (mkWorld inv us f l sin sout)
  = (Next tt,
     mkWorld (added inv item_name q) us
             (Some (inventory_text (added inv item_name q))) l sin
             ((sout ++ [AddedToInventory]) ++ [InventorySaved])%list).
Proof.
  unfold add_or_increment, added. mstep.
  destruct (dict_get inv item_name); reflexivity.
Qed.

Lemma bulk_add_loop_entries (entries : list (string * string))
      (done_line : string) (rest : list string) inv us f l sout :
  Forall accepted_entry entries ->
  Py.lower (Py.strip done_line) = "done" ->
  exists sout',
    bulk_add_loop None (entry_lines entries ++ done_line :: rest)
                  (mkWorld inv us f l (entry_lines entries ++ done_line :: rest) sout)
    = (Next tt,
       mkWorld (add_entries inv entries) us
               (match entries with
                | [] => f
                | _ => Some (inventory_text (add_entries inv entries))
                end)
               l rest sout').
Proof.
  intros Hall Hdone. revert inv f sout.
  induction entries as [|[name_line qty_line] r IH]; intros inv f sout.
  - cbn [entry_lines flat_map app bulk_add_loop]. rewrite Hdone.
    cbn [String.eqb]. eexists. reflexivity.
  - inversion Hall as [|? ? (Hvalid & Hnotdone & q & Hq & Hpos) Hr]; subst.
    cbn [fst snd] in *.
    cbn [entry_lines flat_map app bulk_add_loop fst snd].
    fold (entry_lines r).
    destruct (String.eqb_spec (Py.lower (Py.strip name_line)) "done");
      [contradiction|].
    rewrite Hvalid, Hq.
    destruct (Z.gtb_spec q 0); [|lia].
    unfold set_stdin.
    cbn [inventory users inventory_txt transaction_log_txt stdin stdout].
    rewrite add_body_run.
    destruct (IH Hr (added inv (Py.lower (Py.strip name_line)) q)
                 (Some (inventory_text
                          (added inv (Py.lower (Py.strip name_line)) q)))
                 ((sout ++ [AddedToInventory]) ++ [InventorySaved])%list)
      as [sout' Hrun].
    exists sout'. rewrite Hrun.
    unfold add_entries. cbn [fold_left fst snd].
    assert (Hqty : quantity_of qty_line = q) by (unfold quantity_of; now rewrite Hq).
    rewrite Hqty.
    destruct r; reflexivity.
Qed.

Lemma in_store_added (d : dict Z) (item_name other : string) (q : Z) :
  in_store (added d item_name q) other
  = if String.eqb other item_name then in_store d other + q else in_store d other.
Proof.
  unfold in_store at 1. rewrite stock_added.
  destruct (String.eqb_spec other item_name) as [->|Hne]; reflexivity.
Qed.

Lemma in_store_add_entries (entries : list (string * string)) :
  forall (d : dict Z) (item_name : string),
    in_store (add_entries d entries) item_name
    = in_store d item_name + entered entries item_name.
Proof.
  induction entries as [|[name_line qty_line] r IH]; intros d item_name.
  - cbn [add_entries fold_left entered fold_right]. lia.
  - unfold add_entries. cbn [fold_left entered fold_right fst snd].
    fold (add_entries (added d (Py.lower (Py.strip name_line)) (quantity_of qty_line)) r).
    fold (entered r item_name).
    rewrite IH, in_store_added.
    rewrite (String.eqb_sym item_name).
    destruct (String.eqb (Py.lower (Py.strip name_line)) item_name); lia.
Qed.

Lemma bulk_add_items_run (entries : list (string * string))
      (done_line : string) (rest : list string) inv us f l sout :
  Forall accepted_entry entries ->
  Py.lower (Py.strip done_line) = "done" ->
  exists sout',
    bulk_add_items (mkWorld inv us f l (entry_lines entries ++ done_line :: rest) sout)
    = (Next tt,
       mkWorld (add_entries inv entries) us
               (match entries with
                | [] => f
                | _ => Some (inventory_text (add_entries inv entries))
                end)
               l rest sout').
Proof.
  intros Hall Hdone.
  destruct (bulk_add_loop_entries entries done_line rest inv us f l sout Hall Hdone)
    as [sout' Hrun].
  exists sout'. unfold bulk_add_items, def. cbn [stdin]. now rewrite Hrun.
Qed.

(** X23.  Typed a run of entries, each a valid name other than "done"
    and a positive quantity, and then "done", [bulk_add_items] comes
    back normally having read exactly those lines; every item then
    holds what it held plus all the quantities entered under its name,
    users and log are as before, and the inventory file matches the
    inventory as soon as there was one entry (with none it is not
    touched). *)
Theorem bulk_add_items_spec (w : World) (entries : list (string * string))
        (done_line : string) (rest : list string) :
  stdin w = (entry_lines entries ++ done_line :: rest)%list ->
  Forall accepted_entry entries ->
  Py.lower (Py.strip done_line) = "done" ->
  let w' := snd (bulk_add_items w) in
  fst (bulk_add_items w) = Next tt /\
  inventory w' = add_entries (inventory w) entries /\
  (forall item_name,
     in_store (inventory w') item_name
     = in_store (inventory w) item_name + entered entries item_name) /\
  users w' = users w /\
  transaction_log_txt w' = transaction_log_txt w /\
  stdin w' = rest /\
  (entries <> [] -> in_sync w') /\
  (entries = [] -> inventory_txt w' = inventory_txt w).
Proof.
  destruct w as [inv us f l sin sout]. cbn [stdin]. intros -> Hall Hdone.
  destruct (bulk_add_items_run entries done_line rest inv us f l sout Hall Hdone)
    as [sout' Hrun].
  cbv zeta. rewrite Hrun.
  cbn [fst snd inventory users transaction_log_txt stdin inventory_txt].
  split; [reflexivity|]. split; [reflexivity|].
  split; [intros item_name; apply in_store_add_entries|].
  split; [reflexivity|]. split; [reflexivity|]. split; [reflexivity|].
  split.
  - intros Hne. unfold in_sync. cbn [inventory inventory_txt].
    destruct entries; [contradiction|reflexivity].
  - intros ->. reflexivity.
Qed.

Lemma bulk_add_items_spec_witness :
  let w := mkWorld [("pen", 2)] [] None None
                   [" Pen "; "3"; "ink"; " 4 "; "pen"; "1"; "DONE"; "x"] [] in
  fst (bulk_add_items w) = Next tt /\
  inventory (snd (bulk_add_items w)) = [("pen", 6); ("ink", 4)] /\
  stdin (snd (bulk_add_items w)) = ["x"] /\
  in_sync (snd (bulk_add_items w)).
Proof.
  cbv zeta.
  pose proof (bulk_add_items_spec
                (mkWorld [("pen", 2)] [] None None
                         [" Pen "; "3"; "ink"; " 4 "; "pen"; "1"; "DONE"; "x"] [])
                [(" Pen ", "3"); ("ink", " 4 "); ("pen", "1")] "DONE" ["x"]
                eq_refl) as H.
  cbv zeta in H.
  destruct H as (Hf & Hi & _ & _ & _ & Hs & Hsync & _).
  - repeat constructor; cbn [fst snd]; try (vm_compute; reflexivity);
      try (vm_compute; discriminate).
    + exists 3. split; [vm_compute; reflexivity | lia].
    + exists 4. split; [vm_compute; reflexivity | lia].
    + exists 1. split; [vm_compute; reflexivity | lia].
  - vm_compute. reflexivity.
  - split; [exact Hf|]. split; [rewrite Hi; vm_compute; reflexivity|].
    split; [exact Hs|]. apply Hsync. discriminate.
Defined.

Lemma session_add_entries (entries : list (string * string)) (rest : list string)
      us l :
  Forall accepted_entry entries ->
  forall inv f sout,
  exists sout',
    session (repeat AddItem (List.length entries))
            (mkWorld inv us f l (entry_lines entries ++ rest)%list sout)
    = (Next tt,
       mkWorld (add_entries inv entries) us
               (match entries with
                | [] => f
                | _ => Some (inventory_text (add_entries inv entries))
                end)
               l rest sout').
Proof.
  induction entries as [|[name_line qty_line] r IH]; intros Hall inv f sout.
  - exists sout. reflexivity.
  - inversion Hall as [|? ? (Hvalid & _ & q & Hq & Hpos) Hr]; subst.
    cbn [fst snd] in *.
    cbn [List.length repeat session perform entry_lines flat_map app fst snd].
    fold (entry_lines r). unfold bind.
    rewrite (add_item_run _ _ _ _ _ _ _ _ _ Hvalid Hq Hpos).
    destruct (IH Hr (added inv (Py.lower (Py.strip name_line)) q)
                 (Some (inventory_text
                          (added inv (Py.lower (Py.strip name_line)) q)))
                 ((sout ++ [AddedToInventory]) ++ [InventorySaved])%list)
      as [sout' Hrun].
    exists sout'. rewrite Hrun.
    unfold add_entries. cbn [fold_left fst snd].
    assert (Hqty : quantity_of qty_line = q) by (unfold quantity_of; now rewrite Hq).
    rewrite Hqty.
    destruct r; reflexivity.
Qed.

(** X24.  Entering items in bulk is entering them one at a time: for
    entries that are each a valid name other than "done" and a positive
    quantity, [bulk_add_items] given the entries and then "done" ends as
    [add_item] called once per entry does, with the same inventory, the
    same users, the same two files and the same lines left to read. *)
Theorem bulk_add_items_is_repeated_add_item (w : World)
        (entries : list (string * string)) (done_line : string)
        (rest : list string) :
  Forall accepted_entry entries ->
  Py.lower (Py.strip done_line) = "done" ->
  let one_by_one := session (repeat AddItem (List.length entries))
                            (set_stdin (entry_lines entries ++ rest)%list w) in
  let in_bulk := bulk_add_items
                   (set_stdin (entry_lines entries ++ done_line :: rest)%list w) in
  fst in_bulk = Next tt /\
  fst one_by_one = Next tt /\
  inventory (snd in_bulk) = inventory (snd one_by_one) /\
  users (snd in_bulk) = users (snd one_by_one) /\
  inventory_txt (snd in_bulk) = inventory_txt (snd one_by_one) /\
  transaction_log_txt (snd in_bulk) = transaction_log_txt (snd one_by_one) /\
  stdin (snd in_bulk) = stdin (snd one_by_one).
Proof.
  destruct w as [inv us f l sin sout]. intros Hall Hdone.
  unfold set_stdin.
  cbn [inventory users inventory_txt transaction_log_txt stdin stdout].
  destruct (bulk_add_items_run entries done_line rest inv us f l sout Hall Hdone)
    as [sout1 Hbulk].
  destruct (session_add_entries entries rest us l Hall inv f sout)
    as [sout2 Hsingle].
  cbv zeta. rewrite Hbulk, Hsingle.
  cbn [fst snd inventory users inventory_txt transaction_log_txt stdin].
  repeat split.
Qed.

Lemma bulk_add_items_is_repeated_add_item_witness :
  let w := mkWorld [("pen", 2)] [] None None [] [] in
  inventory (snd (bulk_add_items
                    (set_stdin [" Pen "; "3"; "ink"; " 4 "; "done"; "x"] w)))
  = inventory (snd (session [AddItem; AddItem]
                            (set_stdin [" Pen "; "3"; "ink"; " 4 "; "x"] w))).
Proof.
  cbv zeta.
  assert (Hall : Forall accepted_entry [(" Pen ", "3"); ("ink", " 4 ")]).
  { repeat constructor; cbn [fst snd]; try (vm_compute; reflexivity);
      try (vm_compute; discriminate).
    - exists 3. split; [vm_compute; reflexivity | lia].
    - exists 4. split; [vm_compute; reflexivity | lia]. }
  exact (proj1 (proj2 (proj2
           (bulk_add_items_is_repeated_add_item
              (mkWorld [("pen", 2)] [] None None [] [])
              [(" Pen ", "3"); ("ink", " 4 ")] "done" ["x"]
              Hall eq_refl)))).
Defined.

Lemma bulk_add_loop_adds (typed : list string) :
  forall (pending : option string) inv us f l sin sout,
    (forall n, pending = Some n ->
               is_valid_item_name n = true /\ normalized n /\ n <> "done") ->
    exists adds fl sin' sout',
      Forall valid_add adds /\
      (fl = Next tt \/ fl = Raise EOFError) /\
      bulk_add_loop pending typed (mkWorld inv us f l sin sout)
      = (fl,
         mkWorld (add_all inv adds) us
                 (match adds with
                  | [] => f
                  | _ => Some (inventory_text (add_all inv adds))
                  end)
                 l sin' sout').
Proof.
  induction typed as [|line rest IH]; intros pending inv us f l sin sout Hpending.
  - exists [], (Raise EOFError), sin, sout.
    split; [constructor|]. split; [now right|]. reflexivity.
  - cbn [bulk_add_loop]. unfold set_stdin, put.
    cbn [inventory users inventory_txt transaction_log_txt stdin stdout].
    destruct pending as [n|].
    + destruct (Hpending n eq_refl) as (Hvalid & Hnorm & Hnotdone).
      destruct (Py.int line) as [q|].
      * destruct (Z.gtb_spec q 0) as [Hpos|Hneg].
        -- rewrite add_body_run.
           destruct (IH None (added inv n q) us
                        (Some (inventory_text (added inv n q))) l rest
                        ((sout ++ [AddedToInventory]) ++ [InventorySaved])%list)
             as (adds & fl & sin' & sout' & Hadds & Hfl & Hrun);
             [discriminate|].
           exists ((n, q) :: adds), fl, sin', sout'.
           split; [constructor; [repeat split; cbn [fst snd]; auto; lia | exact Hadds]|].
           split; [exact Hfl|].
           rewrite Hrun. unfold add_all. cbn [fold_left fst snd].
           destruct Hfl as [-> | ->]; destruct adds; reflexivity.
        -- apply IH. discriminate.
      * apply IH. discriminate.
    + destruct (String.eqb_spec (Py.lower (Py.strip line)) "done") as [Hd|Hd].
      * exists [], (Next tt), rest, sout.
        split; [constructor|]. split; [now left|]. reflexivity.
      * destruct (is_valid_item_name (Py.lower (Py.strip line))) eqn:Hvalid.
        -- apply IH. intros n [= <-].
           split; [exact Hvalid|]. split; [apply lower_normalized | exact Hd].
        -- apply IH. discriminate.
Qed.

(** X25.  Whatever is typed, [bulk_add_items] does nothing but add: it
    comes back normally or stops with EOFError when the typed lines run
    out, and what it has done by then is a series of additions of
    positive quantities under valid lower-case names other than "done".
    Users and log are as before, and the inventory file is as before if
    nothing was added and matches the inventory otherwise. *)
Theorem bulk_add_items_only_adds (w : World) :
  exists adds : list (string * Z),
    Forall valid_add adds /\
    (fst (bulk_add_items w) = Next tt \/ fst (bulk_add_items w) = Raise EOFError) /\
    inventory (snd (bulk_add_items w)) = add_all (inventory w) adds /\
    users (snd (bulk_add_items w)) = users w /\
    transaction_log_txt (snd (bulk_add_items w)) = transaction_log_txt w /\
    inventory_txt (snd (bulk_add_items w))
    = match adds with
      | [] => inventory_txt w
      | _ => Some (inventory_text (inventory (snd (bulk_add_items w))))
      end.
Proof.
  destruct w as [inv us f l sin sout].
  destruct (bulk_add_loop_adds sin None inv us f l sin sout)
    as (adds & fl & sin' & sout' & Hadds & Hfl & Hrun); [discriminate|].
  exists adds. unfold bulk_add_items, def. cbn [stdin]. rewrite Hrun.
  destruct Hfl as [-> | ->];
    cbn [fst snd inventory users transaction_log_txt inventory_txt];
    (split; [exact Hadds|]); (split; [auto|]); repeat split.
Qed.

Lemma add_all_inventory_valid (adds : list (string * Z)) :
  Forall valid_add adds ->
  forall d, inventory_valid d -> inventory_valid (add_all d adds).
Proof.
  induction 1 as [|[n q] r (Hvalid & Hnorm & _ & _) _ IH]; intros d Hd; [exact Hd|].
  unfold add_all. cbn [fold_left fst snd] in *. apply IH.
  destruct Hd as [Hok Hkeys]. unfold added.
  destruct (dict_get d n); split;
    try (now apply inventory_ok_set_normalized);
    now apply keys_valid_set.
Qed.

Lemma add_all_quantities_nonneg (adds : list (string * Z)) :
  Forall valid_add adds ->
  forall d, quantities_nonneg d -> quantities_nonneg (add_all d adds).
Proof.
  induction 1 as [|[n q] r (_ & _ & _ & Hpos) _ IH]; intros d Hd; [exact Hd|].
  unfold add_all. cbn [fold_left fst snd] in *. apply IH.
  unfold added. destruct (dict_get d n) as [held|] eqn:E;
    apply quantities_nonneg_set; auto; [|lia].
  specialize (Hd n held E). lia.
Qed.

Lemma add_all_keeps_stock (adds : list (string * Z)) :
  Forall valid_add adds ->
  forall d item_name q,
    dict_get d item_name = Some q ->
    exists q', dict_get (add_all d adds) item_name = Some q' /\ q <= q'.
Proof.
  induction 1 as [|[n k] r (_ & _ & _ & Hpos) _ IH]; intros d item_name q Hq.
  - exists q. split; [exact Hq | lia].
  - unfold add_all. cbn [fold_left fst snd] in *.
    destruct (IH (added d n k) item_name
                 (if String.eqb item_name n then q + k else q)) as (q' & Hq' & Hle).
    + rewrite stock_added. unfold in_store.
      destruct (String.eqb_spec item_name n) as [->|Hne]; [now rewrite Hq | exact Hq].
    + exists q'. split; [exact Hq'|].
      destruct (String.eqb item_name n); lia.
Qed.

(** X26.  Whatever is typed, [bulk_add_items] keeps what holds of the
    inventory: an inventory of the data model with valid names stays
    one, quantities that are all at least zero stay so, an inventory
    file that matches the inventory still matches it, and no item is
    dropped or left with less than it had. *)
Theorem bulk_add_items_keeps_invariants (w : World) :
  let w' := snd (bulk_add_items w) in
  (inventory_valid (inventory w) -> inventory_valid (inventory w')) /\
  (quantities_nonneg (inventory w) -> quantities_nonneg (inventory w')) /\
  (in_sync w -> in_sync w') /\
  (forall item_name q,
     stock w item_name = Some q ->
     exists q', stock w' item_name = Some q' /\ q <= q').
Proof.
  destruct w as [inv us f l sin sout].
  destruct (bulk_add_loop_adds sin None inv us f l sin sout)
    as (adds & fl & sin' & sout' & Hadds & Hfl & Hrun); [discriminate|].
  assert (Hsnd : snd (bulk_add_items (mkWorld inv us f l sin sout))
                 = mkWorld (add_all inv adds) us
                           (match adds with
                            | [] => f
                            | _ => Some (inventory_text (add_all inv adds))
                            end) l sin' sout').
  { unfold bulk_add_items, def. cbn [stdin]. rewrite Hrun.
    destruct Hfl as [-> | ->]; reflexivity. }
  cbv zeta. rewrite Hsnd. unfold stock, in_sync. cbn [inventory inventory_txt].
  split; [now apply add_all_inventory_valid|].
  split; [now apply add_all_quantities_nonneg|].
  split; [|now apply add_all_keeps_stock].
  destruct adds; [exact (fun H => H) | reflexivity].
Qed.

Lemma bulk_add_items_keeps_invariants_witness :
  let w := mkWorld [("pen", 2)] [] (Some "pen: 2
") None ["ink"; "x"; "pen"; "0"; "pen"; "5"] [] in
  fst (bulk_add_items w) = Raise EOFError /\
  inventory_valid (inventory (snd (bulk_add_items w))) /\
  quantities_nonneg (inventory (snd (bulk_add_items w))) /\
  in_sync (snd (bulk_add_items w)) /\
  stock (snd (bulk_add_items w)) "pen" = Some 7.
Proof.
  cbv zeta.
  pose proof (bulk_add_items_keeps_invariants
                (mkWorld [("pen", 2)] [] (Some "pen: 2
") None ["ink"; "x"; "pen"; "0"; "pen"; "5"] [])) as H.
  cbv zeta in H. destruct H as (Hvalid & Hnn & Hsync & _).
  split; [vm_compute; reflexivity|].
  split.
  - apply Hvalid. split; [split|]; cbn [inventory dict_keys map fst].
    + repeat constructor. simpl. tauto.
    + repeat constructor.
    + repeat constructor.
  - split.
    + apply Hnn. intros item_name q. cbn [inventory dict_get].
      destruct (String.eqb "pen" item_name); [intros [= <-]; lia | discriminate].
    + split; [apply Hsync; vm_compute; reflexivity | vm_compute; reflexivity].
Defined.

(** ** The views *)

Ltac tstep :=
  cbv beta iota zeta delta
    [T_bind T_ret say lift bind ret raise read input subscript
     fst snd stdin stdout inventory users inventory_txt transaction_log_txt
     set_stdin].

Section SortFacts.
Context {X K : Type} (lt : K -> K -> bool) (key : X -> K).
Hypothesis lt_asym : forall a b, lt a b = true -> lt b a = false.

Lemma insert_by_perm (x : X) (l : list X) :
  Permutation (x :: l) (insert_by lt key x l).
Proof.
  induction l as [|y r IH]; cbn [insert_by]; [reflexivity|].
  destruct (lt (key y) (key x)); [|reflexivity].
  rewrite perm_swap. now constructor.
Qed.

Lemma insert_by_sorted (x : X) (l : list X) :
  Sorted (fun a b => lt (key b) (key a) = false) l ->
  Sorted (fun a b => lt (key b) (key a) = false) (insert_by lt key x l).
Proof.
  induction 1 as [|y r Hr IH Hhd]; cbn [insert_by].
  - repeat constructor.
  - destruct (lt (key y) (key x)) eqn:E.
    + constructor; [exact IH|].
      destruct Hhd as [|z r' Hz]; cbn [insert_by].
      * constructor. now apply lt_asym.
      * destruct (lt (key z) (key x)); constructor; auto.
    + constructor; [now constructor | now constructor].
Qed.
End SortFacts.

Lemma sorted_perm {X K} (lt : K -> K -> bool) (key : X -> K) (reverse : bool)
      (l : list X) :
  Permutation l (sorted lt key reverse l).
Proof.
  unfold sorted. induction l as [|x r IH]; cbn [fold_right]; [reflexivity|].
  rewrite <- insert_by_perm. now constructor.
Qed.

Lemma sorted_in_order {X K} (lt : K -> K -> bool) (key : X -> K) (l : list X) :
  (forall a b, lt a b = true -> lt b a = false) ->
  Sorted (fun a b => lt (key b) (key a) = false) (sorted lt key false l) /\
  Sorted (fun a b => lt (key a) (key b) = false) (sorted lt key true l).
Proof.
  intros Hasym. unfold sorted. split.
  - induction l as [|x r IH]; cbn [fold_right]; [constructor|].
    now apply insert_by_sorted.
  - induction l as [|x r IH]; cbn [fold_right]; [constructor|].
    apply (insert_by_sorted (fun a b => lt b a) key); [|exact IH].
    intros a b. apply Hasym.
Qed.

Lemma string_ltb_asym (a b : string) :
  String.ltb a b = true -> String.ltb b a = false.
Proof.
  unfold String.ltb. rewrite (String.compare_antisym b a).
  destruct (String.compare a b); cbn; congruence.
Qed.

Lemma T_for_each_say {X} (body : X -> T unit) (f : X -> string) (l : list X) :
  Forall (fun x => forall t, body x t = say (f x) t) l ->
  forall w shown,
    T_for_each l body (w, shown) = (Next tt, (w, (shown ++ map f l)%list)).
Proof.
  induction 1 as [|x r Hx _ IH]; intros w shown; cbn [T_for_each map].
  - unfold T_ret. now rewrite app_nil_r.
  - unfold T_bind. rewrite Hx. unfold say. cbn [fst snd].
    rewrite IH. now rewrite <- app_assoc.
Qed.

Lemma enumerate_map {X Y} (g : X -> Y) (l : list X) :
  forall start,
    enumerate start (map g l)
    = map (fun e => (fst e, g (snd e))) (enumerate start l).
Proof.
  induction l as [|x r IH]; intros start; cbn [enumerate map]; [reflexivity|].
  now rewrite IH.
Qed.

Lemma Forall_enumerate {X} (P : X -> Prop) (l : list X) :
  Forall P l -> forall start, Forall (fun e => P (snd e)) (enumerate start l).
Proof.
  induction 1; intros start; cbn [enumerate]; constructor; auto.
Qed.

Lemma dict_entries_of_keys (d : dict Z) :
  dict_wf d -> map (fun k => (k, in_store d k)) (dict_keys d) = d.
Proof.
  intros Hwf. unfold dict_keys. rewrite map_map.
  transitivity (map (fun e : string * Z => e) d); [|apply map_id].
  apply map_ext_in. intros [k v] Hin. unfold in_store. cbn [fst].
  now rewrite (dict_wf_get d k v Hwf Hin).
Qed.

Lemma Sorted_map {A B} (R : A -> A -> Prop) (R' : B -> B -> Prop) (g : A -> B)
      (l : list A) :
  (forall a b, R a b -> R' (g a) (g b)) ->
  Sorted R l -> Sorted R' (map g l).
Proof.
  intros Hg. induction 1 as [|x r Hr IH Hhd]; cbn [map]; constructor; auto.
  destruct Hhd; cbn [map]; constructor; auto.
Qed.

Lemma listing_not_empty {A} (x : A) (r listing : list A) :
  Permutation (x :: r) listing -> listing <> [].
Proof.
  intros Hp ->. apply Permutation_sym in Hp.
  now apply Permutation_nil in Hp.
Qed.

Lemma In_enumerate {X} (l : list X) :
  forall start e, In e (enumerate start l) -> In (snd e) l.
Proof.
  induction l as [|x r IH]; intros start e; cbn [enumerate]; [tauto|].
  intros [<- | Hin]; [now left | right; eauto].
Qed.

Lemma view_inventory_simple inv us f l rest sout shown :
  view_inventory (mkWorld inv us f l ("1" :: rest) sout, shown)
  = (Next tt,
     (mkWorld inv us f l rest sout,
      (shown ++ view_choices ++ heading "1"
             ++ match inv with
                | [] => ["The inventory is empty."]
                | _ => listing_lines inv
                end
             ++ ["==============================="])%list)).
Proof.
  unfold view_inventory. tstep. cbn [String.eqb Ascii.eqb Bool.eqb].
  destruct inv as [|e r].
  - tstep. unfold view_choices, heading. cbn [String.eqb Ascii.eqb Bool.eqb].
    rewrite <- !app_assoc. reflexivity.
  - rewrite (T_for_each_say _ (fun e => numbered (fst e) (fst (snd e)) (snd (snd e))));
      [|apply Forall_forall; reflexivity].
    tstep. unfold view_choices, heading, listing_lines.
    cbn [String.eqb Ascii.eqb Bool.eqb].
    rewrite <- !app_assoc. reflexivity.
Qed.

Lemma view_inventory_by_quantity inv us f l rest sout shown :
  view_inventory (mkWorld inv us f l ("3" :: rest) sout, shown)
  = (Next tt,
     (mkWorld inv us f l rest sout,
      (shown ++ view_choices ++ heading "3"
             ++ match inv with
                | [] => ["The inventory is empty."]
                | _ => listing_lines (sorted Z.ltb snd true inv)
                end
             ++ ["==============================="])%list)).
Proof.
  unfold view_inventory. tstep. cbn [String.eqb Ascii.eqb Bool.eqb].
  destruct inv as [|e r].
  - tstep. unfold view_choices, heading. cbn [String.eqb Ascii.eqb Bool.eqb].
    rewrite <- !app_assoc. reflexivity.
  - rewrite (T_for_each_say _ (fun e => numbered (fst e) (fst (snd e)) (snd (snd e))));
      [|apply Forall_forall; reflexivity].
    tstep. unfold view_choices, heading, listing_lines.
    cbn [String.eqb Ascii.eqb Bool.eqb].
    rewrite <- !app_assoc. reflexivity.
Qed.

Lemma view_inventory_alphabetical inv us f l rest sout shown :
  view_inventory (mkWorld inv us f l ("2" :: rest) sout, shown)
  = (Next tt,
     (mkWorld inv us f l rest sout,
      (shown ++ view_choices ++ heading "2"
             ++ match inv with
                | [] => ["The inventory is empty."]
                | _ => listing_lines
                         (map (fun k => (k, in_store inv k))
                              (sorted String.ltb Py.lower false (dict_keys inv)))
                end
             ++ ["==============================="])%list)).
Proof.
  unfold view_inventory. tstep. cbn [String.eqb Ascii.eqb Bool.eqb].
  destruct inv as [|e r].
  - tstep. unfold view_choices, heading. cbn [String.eqb Ascii.eqb Bool.eqb].
    rewrite <- !app_assoc. reflexivity.
  - set (inv := e :: r).
    rewrite (T_for_each_say _ (fun e => numbered (fst e) (snd e) (in_store inv (snd e)))).
    + tstep. unfold view_choices, heading, listing_lines.
      cbn [String.eqb Ascii.eqb Bool.eqb].
      rewrite enumerate_map, map_map. cbn [fst snd].
      rewrite <- !app_assoc. reflexivity.
    + apply Forall_forall. intros [index k] Hin [w shown'].
      apply In_enumerate in Hin. cbn [snd] in Hin.
      apply (Permutation_in _ (Permutation_sym (sorted_perm _ _ _ _))) in Hin.
      unfold say, in_store. cbn [fst snd].
      destruct (dict_get inv k) as [q|] eqn:E; [reflexivity|].
      now apply dict_get_None_keys in E.
Qed.

(** X27.  Asked for one of its three listings, [view_inventory] prints
    the choices, the heading of the listing, the entries numbered from 1
    and a closing rule, reads the one line of the choice and changes
    nothing.  The entries listed are the entries of the inventory, each
    once and with its own quantity: in the order of the inventory for
    the simple list, by name without regard to case for the alphabetical
    order, largest quantity first for the order by quantity.  An empty
    inventory is reported as empty. *)
Theorem view_inventory_listing (w : World) (shown : list string)
        (choice : string) (rest : list string) :
  stdin w = choice :: rest ->
  dict_wf (inventory w) ->
  choice = "1" \/ choice = "2" \/ choice = "3" ->
  exists listing : list (string * Z),
    view_inventory (w, shown)
    = (Next tt,
       (set_stdin rest w,
        (shown ++ view_choices ++ heading choice
               ++ match listing with
                  | [] => ["The inventory is empty."]
                  | _ => listing_lines listing
                  end
               ++ ["==============================="])%list)) /\
    Permutation (inventory w) listing /\
    (choice = "1" -> listing = inventory w) /\
    (choice = "2" -> Sorted alphabetical listing) /\
    (choice = "3" -> Sorted by_quantity listing).
Proof.
  destruct w as [inv us f l sin sout]. unfold set_stdin.
  cbn [stdin inventory users inventory_txt transaction_log_txt stdout].
  intros -> Hwf [-> | [-> | ->]].
  - exists inv. rewrite view_inventory_simple.
    split; [reflexivity|]. split; [reflexivity|].
    split; [reflexivity|]. split; discriminate.
  - exists (map (fun k => (k, in_store inv k))
                (sorted String.ltb Py.lower false (dict_keys inv))).
    assert (Hperm : Permutation inv
                      (map (fun k => (k, in_store inv k))
                           (sorted String.ltb Py.lower false (dict_keys inv)))).
    { rewrite <- (dict_entries_of_keys inv Hwf) at 1.
      apply Permutation_map, sorted_perm. }
    rewrite view_inventory_alphabetical.
    split.
    + destruct inv as [|e r]; [reflexivity|].
      pose proof (listing_not_empty _ _ _ Hperm) as Hne.
      destruct (map _ _); [contradiction | reflexivity].
    + split; [exact Hperm|]. split; [discriminate|]. split; [|discriminate].
      intros _.
      apply (Sorted_map
               (fun a b => String.ltb (Py.lower b) (Py.lower a) = false)).
      * intros a b H. exact H.
      * apply (sorted_in_order String.ltb Py.lower (dict_keys inv)).
        apply string_ltb_asym.
  - exists (sorted Z.ltb snd true inv).
    pose proof (sorted_perm Z.ltb snd true inv) as Hperm.
    rewrite view_inventory_by_quantity.
    split.
    + destruct inv as [|e r]; [reflexivity|].
      pose proof (listing_not_empty _ _ _ Hperm) as Hne.
      destruct (sorted _ _ _ _); [contradiction | reflexivity].
    + split; [exact Hperm|]. split; [discriminate|]. split; [discriminate|].
      intros _.
      rewrite <- (map_id (sorted Z.ltb snd true inv)).
      apply (Sorted_map (fun a b => Z.ltb (snd a) (snd b) = false)).
      * intros a b H. unfold by_quantity. lia.
      * apply (sorted_in_order Z.ltb snd inv). intros a b. lia.
Qed.

Lemma view_inventory_listing_witness :
  exists listing : list (string * Z),
    view_inventory
      (mkWorld [("pen", 2); ("Ink", 5); ("cap", 5)] [] None None ["2"; "x"] [],
       [])
    = (Next tt,
       (mkWorld [("pen", 2); ("Ink", 5); ("cap", 5)] [] None None ["x"] [],
        (view_choices ++ heading "2"
                      ++ match listing with
                         | [] => ["The inventory is empty."]
                         | _ => listing_lines listing
                         end
                      ++ ["==============================="])%list)) /\
    Permutation [("pen", 2); ("Ink", 5); ("cap", 5)] listing /\
    Sorted alphabetical listing.
Proof.
  destruct (view_inventory_listing
              (mkWorld [("pen", 2); ("Ink", 5); ("cap", 5)] [] None None
                       ["2"; "x"] [])
              [] "2" ["x"] eq_refl) as (listing & Hrun & Hperm & _ & Hsorted & _).
  - unfold dict_wf. cbn [inventory dict_keys map fst].
    repeat constructor; simpl; intuition discriminate.
  - right. left. reflexivity.
  - exists listing. split; [exact Hrun|]. split; [exact Hperm|].
    apply Hsorted. reflexivity.
Defined.

Lemma holder_lines_run (us : dict User) :
  forall w shown,
    T_for_each us
      (fun entry =>
         if holds_nothing (snd entry) then T_ret tt
         else say (holder_line (snd entry))) (w, shown)
    = (Next tt, (w, (shown ++ map holder_line (holders us))%list)).
Proof.
  unfold holders.
  induction us as [|[k u] r IH]; intros w shown; cbn [T_for_each map filter snd].
  - unfold T_ret. now rewrite app_nil_r.
  - unfold T_bind. destruct (holds_nothing u); cbn [negb].
    + unfold T_ret. apply IH.
    + unfold say. cbn [fst snd map]. rewrite IH. now rewrite <- app_assoc.
Qed.

Lemma nobody_holds (us : dict User) :
  (match us with [] => true | _ => false end
   || forallb (fun entry => holds_nothing (snd entry)) us)
  = match holders us with [] => true | _ => false end.
Proof.
  unfold holders. destruct us as [|e r]; [reflexivity|].
  cbn [orb]. generalize (e :: r) as l. clear.
  induction l as [|[k u] r IH]; [reflexivity|].
  cbn [forallb map filter snd]. destruct (holds_nothing u); cbn [negb andb]; auto.
Qed.

(** X28.  [view_lending_records] prints one line for every user who
    holds something, in the order of the users map, made of the user's
    name and the items held with their quantities; it prints that there
    are no lending records exactly when no user holds anything, and then
    nothing else.  It reads nothing and changes nothing. *)
Theorem view_lending_records_lists_holders (w : World) (shown : list string) :
  view_lending_records (w, shown)
  = (Next tt,
     (w,
      (shown ++ match holders (users w) with
                | [] => [String "010" "No current lending records."]
                | _ => map holder_line (holders (users w))
                end)%list)).
Proof.
  unfold view_lending_records. unfold T_bind at 1 2. unfold lift, read.
  cbn [fst snd]. rewrite nobody_holds.
  destruct (holders (users w)) eqn:E.
  - unfold say. cbn [fst snd]. rewrite holder_lines_run, E.
    cbn [map]. now rewrite app_nil_r.
  - unfold T_ret. rewrite holder_lines_run, E. reflexivity.
Qed.

(** ** The menu *)

Lemma reads_ret {A} (a : A) : reads_on (ret a).
Proof. intros w. cbn. lia. Qed.

Lemma reads_raise {A} (e : exn) : reads_on (@raise A e).
Proof. intros w. cbn. lia. Qed.

Lemma reads_return_ {A} : reads_on (@return_ A).
Proof. intros w. cbn. lia. Qed.

Lemma reads_print (m : message) : reads_on (print m).
Proof. intros w. cbn. lia. Qed.

Lemma reads_read {A} (f : World -> A) : reads_on (read f).
Proof. intros w. cbn. lia. Qed.

Lemma reads_modify (f : World -> World) :
  (forall w, stdin (f w) = stdin w) -> reads_on (modify f).
Proof. intros H w. cbn. rewrite H. lia. Qed.

Lemma reads_input : reads_on input.
Proof. intros w. unfold input. destruct (stdin w) eqn:E; cbn; rewrite ?E; cbn; lia. Qed.

Lemma reads_int_ (s : string) : reads_on (int_ s).
Proof. intros w. unfold int_. destruct (Py.int s); cbn; lia. Qed.

Lemma reads_subscript {V} (d : dict V) (k : string) : reads_on (subscript d k).
Proof. intros w. unfold subscript. destruct (dict_get d k); cbn; lia. Qed.

Lemma reads_key_at {V} (d : dict V) (i : Z) : reads_on (key_at d i).
Proof. intros w. unfold key_at. destruct (nth_error _ _); cbn; lia. Qed.

Lemma reads_bind {A B} (m : M A) (k : A -> M B) :
  reads_on m -> (forall a, reads_on (k a)) -> reads_on (bind m k).
Proof.
  intros Hm Hk w. unfold bind. specialize (Hm w).
  destruct (m w) as [[a| |e] w1]; cbn [snd] in *; auto.
  specialize (Hk a w1). lia.
Qed.

Lemma reads_try_except {A} (body : M A) (handlers : exn -> option (M A)) :
  reads_on body ->
  (forall e handler, handlers e = Some handler -> reads_on handler) ->
  reads_on (try_except body handlers).
Proof.
  intros Hb Hh w. unfold try_except. specialize (Hb w).
  destruct (body w) as [[a| |e] w1]; cbn [snd] in *; auto.
  destruct (handlers e) as [handler|] eqn:E; cbn [snd]; auto.
  specialize (Hh e handler E w1). lia.
Qed.

Lemma reads_def (body : M unit) : reads_on body -> reads_on (def body).
Proof.
  intros Hb w. unfold def. specialize (Hb w).
  destruct (body w) as [[a| |e] w1]; cbn [snd] in *; auto.
Qed.

Lemma reads_save_inventory : reads_on save_inventory.
Proof. intros w. cbn. lia. Qed.

Lemma reads_log_transaction (action borrower_name item_name : string) (quantity : Z) :
  reads_on (log_transaction action borrower_name item_name quantity).
Proof. intros w. cbn. lia. Qed.

Lemma reads_add_user_if_absent (borrower_name : string) :
  reads_on (add_user_if_absent borrower_name).
Proof.
  apply reads_modify. intros w. destruct (dict_mem _ _); reflexivity.
Qed.

Lemma reads_add_or_increment (item_name : string) (q : Z) :
  reads_on (add_or_increment item_name q).
Proof.
  apply reads_modify. intros w. destruct (dict_get _ _); reflexivity.
Qed.

Lemma item_name_loop_reads (normalise : string -> string) (typed : list string) :
  forall (item_name : string) (w : World) (bound : nat),
    (List.length typed <= bound)%nat ->
    (List.length (stdin w) <= bound)%nat ->
    (List.length (stdin (snd (item_name_loop normalise item_name typed w)))
     <= bound)%nat.
Proof.
  induction typed as [|line rest IH]; intros item_name w bound Ht Hw;
    cbn [item_name_loop]; destruct (is_valid_item_name item_name);
    cbn [snd]; auto.
  apply IH; cbn [List.length] in *; cbn; lia.
Qed.

Lemma reads_valid_item_name (normalise : string -> string) :
  reads_on (valid_item_name normalise).
Proof.
  intros w. unfold valid_item_name, bind, input.
  destruct (stdin w) as [|line rest] eqn:E; cbn [snd]; [rewrite E; lia|].
  apply item_name_loop_reads; cbn; lia.
Qed.

Ltac reads_step :=
  first
    [ apply reads_ret | apply reads_raise | apply reads_return_
    | apply reads_print | apply reads_read | apply reads_input
    | apply reads_int_ | apply reads_subscript | apply reads_key_at
    | apply reads_save_inventory | apply reads_log_transaction
    | apply reads_add_user_if_absent | apply reads_add_or_increment
    | apply reads_valid_item_name
    | apply reads_modify; intros ?; reflexivity
    | apply reads_def
    | apply reads_bind; [|intros ?]
    | apply reads_try_except; [|intros [] ? [= <-]]
    | match goal with
      | |- reads_on (match ?x with _ => _ end) => destruct x
      | |- reads_on (if ?x then _ else _) => destruct x
      | |- reads_on (let (_, _) := ?x in _) => destruct x
      end ].

Lemma add_item_quantity_loop_reads (item_name : string) (typed : list string) :
  forall (w : World) (bound : nat),
    (List.length typed <= bound)%nat ->
    (List.length (stdin w) <= bound)%nat ->
    (List.length (stdin (snd (add_item_quantity_loop item_name typed w)))
     <= bound)%nat.
Proof.
  induction typed as [|line rest IH]; intros w bound Ht Hw;
    cbn [add_item_quantity_loop snd]; auto.
  cbn [List.length] in Ht.
  destruct (Py.int line) as [q|]; [destruct (q >? 0)|];
    try (apply IH; cbn; lia).
  assert (H : reads_on (add_or_increment item_name q ;;;
                        print AddedToInventory ;;; save_inventory))
    by (repeat reads_step).
  specialize (H (set_stdin rest w)). cbn [set_stdin stdin] in H. lia.
Qed.

Lemma reads_add_item : reads_on add_item.
Proof.
  unfold add_item. apply reads_def. apply reads_bind; [reads_step|].
  intros item_name w. apply add_item_quantity_loop_reads; lia.
Qed.

Lemma reads_lend_item : reads_on lend_item.
Proof. unfold lend_item. repeat reads_step. Qed.

Lemma reads_return_item : reads_on return_item.
Proof. unfold return_item. repeat reads_step. Qed.

Lemma reads_update_item : reads_on update_item.
Proof. unfold update_item. repeat reads_step. Qed.

Lemma bulk_add_loop_reads (typed : list string) :
  forall (pending : option string) (w : World) (bound : nat),
    (List.length typed <= bound)%nat ->
    (List.length (stdin w) <= bound)%nat ->
    (List.length (stdin (snd (bulk_add_loop pending typed w))) <= bound)%nat.
Proof.
  induction typed as [|line rest IH]; intros pending w bound Ht Hw;
    cbn [bulk_add_loop snd]; auto.
  cbn [List.length] in Ht.
  destruct pending as [item_name|].
  - destruct (Py.int line) as [q|]; [destruct (q >? 0)|];
      try (apply IH; cbn; lia).
    assert (H : reads_on (add_or_increment item_name q ;;;
                          print AddedToInventory ;;; save_inventory))
      by (repeat reads_step).
    specialize (H (set_stdin rest w)). cbn [set_stdin stdin] in H.
    destruct ((add_or_increment item_name q ;;;
               print AddedToInventory ;;; save_inventory) (set_stdin rest w))
      as [[[]| |e] w2]; cbn [snd] in *; try lia.
    apply IH; lia.
  - destruct (String.eqb _ "done"); [cbn; lia|].
    destruct (is_valid_item_name _); apply IH; cbn; lia.
Qed.

Lemma reads_bulk_add_items : reads_on bulk_add_items.
Proof.
  unfold bulk_add_items. apply reads_def.
  intros w. apply bulk_add_loop_reads; lia.
Qed.

Lemma reads_perform (op : operation) : reads_on (perform op).
Proof.
  destruct op; cbn [perform];
    [apply reads_add_item | apply reads_lend_item
    | apply reads_return_item | apply reads_update_item].
Qed.

Lemma perform_ends_well (op : operation) (w : World) :
  ends_well (fst (perform op w)).
Proof.
  unfold ends_well. destruct op; cbn [perform].
  - destruct (add_item_cases w) as [[Hf _] | (n & q & _ & _ & _ & Hf & _)];
      rewrite Hf; auto.
  - destruct (lend_item_cases w)
      as [([Hf | Hf] & _) | [(ln & it & h & aq & k & _ & _ & _ & _ & Hf & _)
                            | (ln & it & aq & k & _ & Hnone & Hav & Hf & _)]];
      rewrite Hf; eauto.
  - destruct (return_item_cases w)
      as [([Hf | Hf] & _) | [(ln & u & u' & it & h & a & k & _ & _ & _ & _ & _ & _ & Hf & _)
                            | (ln & u & u' & it & k & _ & _ & _ & Hnone & Hf & _)]];
      rewrite Hf; eauto.
  - destruct (update_item_cases w)
      as [([Hf | Hf] & _) | (n & h & v & _ & _ & _ & Hf & _)];
      rewrite Hf; auto.
Qed.

Lemma bulk_add_items_adds (w : World) :
  exists adds sin' sout',
    Forall valid_add adds /\
    (fst (bulk_add_items w) = Next tt \/ fst (bulk_add_items w) = Raise EOFError) /\
    snd (bulk_add_items w)
    = mkWorld (add_all (inventory w) adds) (users w)
              (match adds with
               | [] => inventory_txt w
               | _ => Some (inventory_text (add_all (inventory w) adds))
               end)
              (transaction_log_txt w) sin' sout'.
Proof.
  destruct w as [inv us f l sin sout].
  destruct (bulk_add_loop_adds sin None inv us f l sin sout)
    as (adds & fl & sin' & sout' & Hadds & Hfl & Hrun); [discriminate|].
  exists adds, sin', sout'. unfold bulk_add_items, def. cbn [stdin]. rewrite Hrun.
  split; [exact Hadds|].
  destruct Hfl as [-> | ->]; cbn [fst snd inventory users inventory_txt
                                  transaction_log_txt]; auto.
Qed.

Lemma view_inventory_world (t : Terminal) :
  (fst (view_inventory t) = Raise EOFError /\
   fst (snd (view_inventory t)) = fst t) \/
  (exists choice rest,
     stdin (fst t) = choice :: rest /\
     fst (view_inventory t) = Next tt /\
     fst (snd (view_inventory t)) = set_stdin rest (fst t)).
Proof.
  destruct t as [[inv us f l sin sout] shown].
  destruct sin as [|choice rest]; [left; split; reflexivity|].
  right. exists choice, rest. cbn [fst stdin]. split; [reflexivity|].
  destruct (String.eqb_spec choice "1") as [->|H1];
    [rewrite view_inventory_simple; split; reflexivity|].
  destruct (String.eqb_spec choice "2") as [->|H2];
    [rewrite view_inventory_alphabetical; split; reflexivity|].
  destruct (String.eqb_spec choice "3") as [->|H3];
    [rewrite view_inventory_by_quantity; split; reflexivity|].
  apply String.eqb_neq in H1, H2, H3.
  unfold view_inventory. tstep. rewrite H1, H2, H3. split; reflexivity.
Qed.

Lemma view_lending_records_world (t : Terminal) :
  fst (view_lending_records t) = Next tt /\
  fst (snd (view_lending_records t)) = fst t.
Proof.
  destruct t as [w shown].
  assert (Hrun : exists lines,
             view_lending_records (w, shown) = (Next tt, (w, lines))).
  { unfold view_lending_records. unfold T_bind at 1 2. unfold lift, read.
    cbn [fst snd].
    destruct (_ || _); unfold say, T_ret; cbn [fst snd];
      rewrite holder_lines_run; eexists; reflexivity. }
  destruct Hrun as [lines ->]. split; reflexivity.
Qed.

Lemma menu_prompt_run (t : Terminal) :
  (T_for_each options say ;;~ lift input) t
  = match stdin (fst t) with
    | [] => (Raise EOFError, (fst t, (snd t ++ options)%list))
    | choice :: rest =>
        (Next choice, (set_stdin rest (fst t), (snd t ++ options)%list))
    end.
Proof.
  destruct t as [w shown]. unfold T_bind.
  rewrite (T_for_each_say say (fun s => s) options);
    [|apply Forall_forall; reflexivity].
  rewrite map_id. unfold lift, input. cbn [fst snd].
  destruct (stdin w); reflexivity.
Qed.

Lemma main_menu_loop_round (fuel : nat) (t : Terminal) :
  main_menu_loop (S fuel) t
  = match stdin (fst t) with
    | [] => Some (Raise EOFError, (fst t, (snd t ++ options)%list))
    | choice :: rest =>
        let t1 := (set_stdin rest (fst t), (snd t ++ options)%list) in
        match menu_entry choice with
        | None => Some (Next tt, (snd (save_inventory (fst t1)),
                                  (snd t1 ++ [farewell])%list))
        | Some entry =>
            match entry t1 with
            | (Next _, t') => main_menu_loop fuel t'
            | other => Some other
            end
        end
    end.
Proof.
  cbn [main_menu_loop]. rewrite menu_prompt_run.
  destruct (stdin (fst t)) as [|choice rest]; [reflexivity|].
  cbv zeta. unfold menu_entry.
  repeat (destruct (String.eqb choice _);
          [try reflexivity;
           match goal with
           | |- _ = (let (_, _) := ?x in _) =>
               destruct x as [[[]| |?] ?]; reflexivity
           end|]).
  destruct (say _ _) as [[[]| |?] ?]; reflexivity.
Qed.

Ltac menu_entries Hentry :=
  unfold menu_entry in Hentry;
  repeat match type of Hentry with
         | (if ?c then _ else _) = _ => destruct c
         end;
  inversion Hentry; subst; clear Hentry.

Lemma lift_world {A} (m : M A) (t : Terminal) :
  fst (lift m t) = fst (m (fst t)) /\
  fst (snd (lift m t)) = snd (m (fst t)) /\
  snd (snd (lift m t)) = snd t.
Proof. unfold lift. destruct (m (fst t)). repeat split. Qed.

Lemma menu_entry_ends_well (choice : string) (entry : T unit) (t : Terminal) :
  menu_entry choice = Some entry -> ends_well (fst (entry t)).
Proof.
  intros Hentry. menu_entries Hentry;
    try (rewrite (proj1 (lift_world _ t)));
    try (apply (perform_ends_well AddItem));
    try (apply (perform_ends_well LendItem));
    try (apply (perform_ends_well ReturnItem));
    try (apply (perform_ends_well UpdateItem)).
  - destruct (view_inventory_world t) as [[-> _] | (c & r & _ & -> & _)];
      unfold ends_well; auto.
  - rewrite (proj1 (view_lending_records_world t)). now left.
  - destruct (bulk_add_items_adds (fst t)) as (a & i & o & _ & [-> | ->] & _);
      unfold ends_well; auto.
  - now left.
Qed.

Lemma menu_entry_reads (choice : string) (entry : T unit) :
  menu_entry choice = Some entry -> T_reads_on entry.
Proof.
  intros Hentry t. menu_entries Hentry;
    try (rewrite (proj1 (proj2 (lift_world _ t))));
    try (apply (reads_perform AddItem));
    try (apply (reads_perform LendItem));
    try (apply (reads_perform ReturnItem));
    try (apply (reads_perform UpdateItem)).
  - destruct (view_inventory_world t) as [[_ ->] | (c & r & E & _ & ->)];
      [lia|]. rewrite E. cbn. lia.
  - rewrite (proj2 (view_lending_records_world t)). lia.
  - apply reads_bulk_add_items.
  - cbn. lia.
Qed.


Lemma main_menu_loop_some (fuel : nat) :
  forall t,
    (List.length (stdin (fst t)) < fuel)%nat ->
    exists r, main_menu_loop fuel t = Some r.
Proof.
  induction fuel as [|fuel IH]; intros t Hlen; [lia|].
  rewrite main_menu_loop_round.
  destruct (stdin (fst t)) as [|choice rest] eqn:E; [eauto|].
  cbv zeta. destruct (menu_entry choice) as [entry|] eqn:Hentry; [|eauto].
  pose proof (menu_entry_reads choice entry Hentry
                (set_stdin rest (fst t), (snd t ++ options)%list)) as Hreads.
  cbn [fst set_stdin stdin] in Hreads.
  destruct (entry _) as [[[]| |e] t']; eauto.
  apply IH. cbn [snd] in Hreads. cbn [List.length] in Hlen. lia.
Qed.

Lemma main_menu_loop_more (fuel : nat) :
  forall t r fuel',
    main_menu_loop fuel t = Some r ->
    (fuel <= fuel')%nat ->
    main_menu_loop fuel' t = Some r.
Proof.
  induction fuel as [|fuel IH]; intros t r fuel' Hrun Hle; [discriminate|].
  destruct fuel' as [|fuel']; [lia|].
  rewrite main_menu_loop_round in *.
  destruct (stdin (fst t)) as [|choice rest]; [exact Hrun|].
  cbv zeta in *. destruct (menu_entry choice) as [entry|]; [|exact Hrun].
  destruct (entry _) as [[[]| |e] t']; auto.
  apply IH; [exact Hrun | lia].
Qed.

Lemma main_menu_loop_ends_well (fuel : nat) :
  forall t r, main_menu_loop fuel t = Some r -> ends_well (fst r).
Proof.
  induction fuel as [|fuel IH]; intros t r Hrun; [discriminate|].
  rewrite main_menu_loop_round in Hrun.
  destruct (stdin (fst t)) as [|choice rest];
    [inversion Hrun; right; now left|].
  cbv zeta in Hrun. destruct (menu_entry choice) as [entry|] eqn:Hentry;
    [|inversion Hrun; now left].
  pose proof (menu_entry_ends_well choice entry
                (set_stdin rest (fst t), (snd t ++ options)%list) Hentry) as Hw.
  destruct (entry _) as [[[]| |e] t']; [eauto| |];
    inversion Hrun; subst; exact Hw.
Qed.



(** X29.  The menu always comes to an end.  Every round reads a typed
    line, so with as many rounds as there are typed lines, plus one,
    [main_menu] has its result, and more rounds change nothing.  It
    ends normally, or with EOFError when the typed lines run out, or
    with the KeyError of a lend or a return; never otherwise. *)
Theorem main_menu_terminates (t : Terminal) :
  exists r,
    main_menu t = Some r /\
    ends_well (fst r) /\
    forall fuel,
      (List.length (stdin (fst t)) < fuel)%nat ->
      main_menu_loop fuel t = Some r.
Proof.
  unfold main_menu.
  destruct (main_menu_loop_some (S (List.length (stdin (fst t)))) t) as [r Hr];
    [lia|].
  exists r. split; [exact Hr|].
  split; [exact (main_menu_loop_ends_well _ _ _ Hr)|].
  intros fuel Hfuel. apply (main_menu_loop_more _ _ _ _ Hr). lia.
Qed.




